(* ===== verification/_CoqProject ===== *)
-Q . S2P
Prelude.v
JsString.v
Jsx.v
Layout.v
Classify.v
ScreenFormat.v
PdfFormat.v
FormState.v
Submit.v
FormView.v
App.v
Page.v
PageView.v
NextConfig.v
