(* ===== verification/Prelude.v ===== *)
(** * A verification development of the Setterless ROI calculator

    The program (repository iacondiego/calculator-ROI) is one React
    component, [src/components/CalculadoraROI.tsx], plus the Next.js
    root layout [src/app/layout.tsx] and the bundler configuration
    [src/next.config.js].
    The component keeps its state in four React hooks (the form fields,
    [isLoading], [message], [roiResult]) and has these parts:

    - the screen formatter [formatRoiResult] (lines 78-128): turns the
      webhook's answer text into React elements, one per non-blank line,
      classified as heading / subheading / list item / paragraph;
    - the PDF formatter (lines 286-346, inline in the JSX): the same
      classification, written a second time, over the untouched answer,
      with inline styles; the PDF page adds a header and a footer
      (lines 275-358);
    - the input handler [handleInputChange] (lines 130-137);
    - the submit handler [handleSubmit] (lines 139-208): validation, the
      request body, one POST to a webhook, interpretation of the response
      (JSON field [response], else the raw text), success and failure;
    - the render conditions of the overlays and of the hidden PDF
      container (lines 224-359) and [generatePDF] (lines 33-76);
    - the form markup (lines 361-527): five number inputs whose [name],
      [required], [min] and [step] attributes the browser acts on before
      the component sees anything, the message box and the button.

    ** Files and what they model

    - [Prelude]: this header, the [js_scope] notations, the generic
      lemmas on lists shared by all files ([forEach] with a pushed-to
      accumulator, [filter] and [imap]), the [jsdb] hint database.
    - [JsString]: JavaScript strings as lists of UTF-16 code units and
      the ECMAScript built-ins the component calls: [trim], [split('\n')],
      [includes], [startsWith], [endsWith], [substring(1)],
      [replace(/\*\*/g, '')] and the regular-expression class removal
      [replace(/[...]/g, '')] read without the [u] flag.
    - [Jsx]: React element trees (tag, key, attributes, children).
    - [Classify]: the classification policy shared by both formatters
      (the consolidation the spec recommends), as an abstract
      specification: a kind per line.
    - [ScreenFormat]: [formatRoiResult], element for element.
    - [PdfFormat]: the PDF body, header and footer.
    - [FormState]: the form record, JavaScript numbers, [Number(...)],
      truthiness and [handleInputChange].
    - [Submit]: [handleSubmit] as explicit state passing split at its
      only suspension point ([await fetch]), the request body, the
      response interpretation, JSON values.
    - [App]: the whole component as a step relation on its state, the
      render conditions, [generatePDF], reachability invariants.
    - [Layout]: [layout.tsx], the [html lang="es"] / [body] wrapper and
      the metadata.
    - [FormView]: the five inputs as data, the browser's sanitization of
      number inputs (valid floating-point numbers, HTML 2.3.4.3) and its
      constraint validation ([required], [min], [step], bad input), and
      the elements of the form card.
    - [Page]: the component in the browser: its state together with the
      text in each input; typing, submission through constraint
      validation, and React's update of the controlled inputs.
    - [PageView]: the whole element tree the component returns, inside
      the layout.
    - [NextConfig]: the webpack hook of [next.config.js].

    ** How the parts interact

    [Classify] states, through the [Presentation] class, what a formatter
    promises: a list of blocks, one per kept line, each rendered by a
    presentation at its index. [ScreenFormat] and [PdfFormat] each give
    an instance and prove that their element-for-element translation of
    the code refines [render_report] with it. [Submit] builds on the
    form of [FormState]; [App] composes [handleInputChange],
    [submit_start], [submit_finish], the close button, [render] (which
    calls both formatters) and [generatePDF] into one step function.

    ** What the theorems show (claims C1-C39, in PROJECT.json)

    - refinement: [formatRoiResult] is the classifier and the screen
      presentation after the "**" removal; the PDF body is the
      classifier and the PDF presentation on the raw answer; the two
      agree on answers without "**" ([ScreenFormat], [PdfFormat]);
    - functional behaviour of every branch of both formatters, one
      element per non-blank line, keys 0, 1, 2, ..., the empty report;
    - the form: [handleInputChange] on every branch, [Number] / [String]
      round trip on naturals ([FormState]);
    - submission: validation on both branches, the request body, success
      and failure updates, the reading of [jsonResult.response || result]
      ([Submit]);
    - the component: an invariant of every reachable state, proved by
      induction on [reachable] (loading exactly while one request is in
      flight, and then no result and no message), at most one request in
      flight, every request can settle, what the page shows after each
      outcome, and [generatePDF]'s effects ([App]). A stored answer that
      is truthy but not a string makes [formatRoiResult] throw during
      the render: React unmounts the page, and [App.crashed] marks the
      states from which [app_step] accepts no event;
    - string built-ins: split/join round trips, [includes] against its
      specification, [trim] idempotence, no "**" left ([JsString]).

    The examples and counterexamples record what the modelling found:
    the spec's worked example renders "Ahorro estimado: $500" as a
    paragraph; every bold subheading "**t**" is an [h3] on screen but a
    list item "*t**" in the PDF; the PDF's emoji class, written without the [u] flag, cuts
    other emoji such as U+1F680 in half; a mandatory 0 is refused and an
    optional 0 sent as null; a non-string truthy "response" makes the
    render throw; an empty body is a success with no result; a rejected
    [save()] leaves the PDF container over the page.

    - the page: [Page] refines [App] (a page step is an [App] step or
      none); by induction on [page_reachable], each field is the [Number]
      of the text its input shows; hence no NaN ever reaches the form,
      every request sent has whole mandatory counts at least 1 and
      optional values null or positive multiples of their [step], the
      page never needs the part of React's reconciliation left out, and
      the component's validation message appears only for a 0; every
      interaction on a page that has not crashed ends: the pending answer
      (unless it crashes the render) and then "Cerrar" always lead back
      to an idle page; text typed while a request is in flight is
      accepted, is not in that request, and is cleared or kept by its
      answer ([FormView], [Page], [PageView]);
    - the layout and the webpack hook ([Layout], [NextConfig]).

    Bounds and fuel: every function is structurally recursive on the code
    unit list, so no fuel is needed; [Page.settle], the way back to an
    idle page, is at most two steps (the answer, then "Cerrar"). Code units are [N] values; the bound
    [< 65536] is an explicit well-formedness predicate where it matters.

    Not modelled: the network transport itself (a response is an input of
    the model), [JSON.parse] (its outcome is an input too), [Infinity] and
    the 0x/0o/0b literals of [Number] (a number input never holds them),
    [Number.prototype.toString] (React would need it to write a number
    back into an input; [Page.page_step_complete] shows it never does),
    the rounding of doubles (numbers are exact rationals, so the browser's
    [step] test is exact), html2canvas/jsPDF rasterisation, CSS and the
    stylesheet import, the [html2pdf.js] and [react] imports themselves,
    and Next.js's own handling of the metadata and of the webpack hook. *)

From stdpp Require Export base list.
From Stdlib Require Export NArith.

Declare Scope js_scope.
Delimit Scope js_scope with js.

Create HintDb jsdb.
Create Rewrite HintDb jsrw.

(** ** Array.prototype.forEach with a shared accumulator

    [xs.forEach((x, index) => { ... elements.push(...) ... })] threads the
    array [elements] through the callback; the callback may push zero or
    more values. [forEach_push body xs index acc] is that loop. *)

Fixpoint forEach_push {A B} (body : nat -> A -> list B) (xs : list A)
    (index : nat) (acc : list B) : list B :=
  match xs with
  | [] => acc
  | x :: rest => forEach_push body rest (S index) (acc ++ body index x)
  end.

Lemma forEach_push_spec {A B} (body : nat -> A -> list B) xs index acc :
  forEach_push body xs index acc =
  acc ++ mjoin (imap (fun j x => body (index + j) x) xs).
Proof.
  revert index acc. induction xs as [|x xs IH]; intros index acc; simpl.
  - by rewrite app_nil_r.
  - rewrite IH, Nat.add_0_r, <- app_assoc. do 2 f_equal.
    f_equal. apply imap_ext. intros j y _. simpl. by rewrite Nat.add_succ_r.
Qed.

(** A callback that pushes exactly one element per item is a [map]. *)
Lemma forEach_push_single {A B} (f : nat -> A -> B) xs :
  forEach_push (fun i x => [f i x]) xs 0 [] = imap f xs.
Proof.
  rewrite forEach_push_spec. simpl. induction xs as [|x xs IH] using rev_ind.
  - done.
  - rewrite !imap_app, join_app, IH. simpl. by rewrite ?app_nil_r.
Qed.

(** [imap] after [map], and a callback that pushes exactly one element
    on every item of the list it is run on. *)
Lemma imap_map {A B C} (f : nat -> B -> C) (g : A -> B) (l : list A) :
  imap f (map g l) = imap (fun i x => f i (g x)) l.
Proof. revert f. induction l as [|x l IH]; intros f; simpl; [done|]. by rewrite IH. Qed.

Lemma map_imap {A B C} (g : B -> C) (f : nat -> A -> B) (l : list A) :
  map g (imap f l) = imap (fun i x => g (f i x)) l.
Proof. revert f. induction l as [|x l IH]; intros f; simpl; [done|]. by rewrite IH. Qed.

Lemma mjoin_imap_single {A B} (body : nat -> A -> list B) (f : nat -> A -> B) (l : list A) :
  (forall j x, x ∈ l -> body j x = [f j x]) ->
  mjoin (imap body l) = imap f l.
Proof.
  revert body f. induction l as [|x l IH]; intros body f H; simpl; [done|].
  rewrite H by (left; done). simpl. f_equal. apply IH.
  intros j y Hy. apply H. by right.
Qed.

(** Strong induction on the length of a list, for the string functions
    that consume two code units at a time. *)
Lemma list_len_ind {A} (P : list A -> Prop) :
  (forall l, (forall l', length l' < length l -> P l') -> P l) ->
  forall l, P l.
Proof.
  intros H l. remember (length l) as n eqn:En. revert l En.
  induction n as [n IH] using lt_wf_ind. intros l ->. apply H.
  intros l' Hl'. by apply (IH (length l')).
Qed.

(** [List.filter] with a boolean test, as [Array.prototype.filter]. *)
Lemma filter_all {A} (p : A -> bool) (xs : list A) :
  Forall (fun x => p x = true) xs -> List.filter p xs = xs.
Proof. induction 1 as [|x xs Hx _ IH]; simpl; [done|]. by rewrite Hx, IH. Qed.

Lemma filter_none {A} (p : A -> bool) (xs : list A) :
  Forall (fun x => p x = false) xs -> List.filter p xs = [].
Proof. induction 1 as [|x xs Hx _ IH]; simpl; [done|]. by rewrite Hx. Qed.

Lemma Forall_filter_true {A} (p : A -> bool) (xs : list A) :
  Forall (fun x => p x = true) (List.filter p xs).
Proof.
  induction xs as [|x xs IH]; simpl; [done|].
  destruct (p x) eqn:E; [by constructor|done].
Qed.

#[export] Hint Resolve Forall_filter_true : jsdb.
#[export] Hint Rewrite @length_imap @length_map @length_app : jsrw.

(** Case analysis on the boolean tests of the model. *)
Ltac destr_bool :=
  repeat match goal with
  | |- context [if ?b then _ else _] =>
      lazymatch b with
      | true => fail
      | false => fail
      | _ => let E := fresh "E" in destruct b eqn:E
      end
  end.

Lemma filter_nil_inv {A} (p : A -> bool) (xs : list A) :
  List.filter p xs = [] -> Forall (fun x => p x = false) xs.
Proof.
  induction xs as [|x xs IH]; simpl; [done|].
  destruct (p x) eqn:E; [done|]. intros H. constructor; auto.
Qed.
