(* ===== verification/JsString.v ===== *)
(** * JavaScript strings and the String.prototype built-ins the component calls

    A JavaScript string is a sequence of UTF-16 code units; every built-in
    used by [src/components/CalculadoraROI.tsx] ([trim], [split],
    [includes], [startsWith], [endsWith], [substring], [replace] with a
    regular expression) works on code units, not on code points. A
    string is therefore a [list N] of code units. Each definition follows
    the ECMAScript 2023 algorithm it names; the lemmas give each one its
    declarative specification. *)

From S2P Require Import Prelude.
From stdpp Require Import strings sets.

Abbreviation jsstring := (list N).

(** ASCII text as code units, to write concrete inputs. *)
Definition js (s : string) : jsstring :=
  map Ascii.N_of_ascii (String.list_ascii_of_string s).

(** ** White space (ECMA-262 WhiteSpace and LineTerminator) *)

Definition ws_units : list N :=
  [9; 10; 11; 12; 13; 32; 160; 5760; 8232; 8233; 8239; 8287; 12288; 65279]%N.

Definition is_ws (c : N) : bool :=
  existsb (N.eqb c) ws_units || ((8192 <=? c) && (c <=? 8202))%N.

(** [String.prototype.trim]: TrimString(s, start+end). *)
Fixpoint trim_start (s : jsstring) : jsstring :=
  match s with
  | [] => []
  | c :: r => if is_ws c then trim_start r else s
  end.

Definition trim_end (s : jsstring) : jsstring := rev (trim_start (rev s)).

Definition trim (s : jsstring) : jsstring := trim_end (trim_start s).

(** ToBoolean of a string: the empty string is the only falsy one. *)
Definition str_truthy (s : jsstring) : bool :=
  match s with [] => false | _ => true end.

(** [s.split(sep)] for a one-code-unit separator and no limit. *)
Fixpoint split_on (sep : N) (s : jsstring) : list jsstring :=
  match s with
  | [] => [[]]
  | c :: r =>
      let ps := split_on sep r in
      if (c =? sep)%N then [] :: ps
      else match ps with
           | p :: ps' => (c :: p) :: ps'
           | [] => [[c]]
           end
  end.

(** [ps.join(sep)], the inverse of [split_on]. *)
Fixpoint join (sep : N) (ps : list jsstring) : jsstring :=
  match ps with
  | [] => []
  | [p] => p
  | p :: ps' => p ++ sep :: join sep ps'
  end.

(** [s.startsWith(p)], [s.endsWith(p)], [s.includes(p)]. *)
Fixpoint prefixb (p s : jsstring) : bool :=
  match p, s with
  | [], _ => true
  | c :: p', d :: s' => (c =? d)%N && prefixb p' s'
  | _ :: _, [] => false
  end.

Definition startsWith (s p : jsstring) : bool := prefixb p s.

Definition endsWith (s p : jsstring) : bool := prefixb (rev p) (rev s).

Fixpoint includes (s p : jsstring) : bool :=
  prefixb p s || match s with [] => false | _ :: r => includes r p end.

(** [s.substring(start)]: the start index is clamped to the length. *)
Definition substring (s : jsstring) (start : nat) : jsstring := drop start s.

(** [s.replace(/\*\*/g, '')]: a global, left-to-right, non-overlapping
    replacement of the two-unit pattern "**" by nothing. *)
Definition STAR : N := 42.

Fixpoint strip_double_star (s : jsstring) : jsstring :=
  match s with
  | c1 :: ((c2 :: r) as t) =>
      if (c1 =? STAR)%N && (c2 =? STAR)%N then strip_double_star r
      else c1 :: strip_double_star t
  | _ => s
  end.

(** [s.replace(/[...]/g, '')] for a character class written without the
    [u] flag: the class is the set of code units of its source text, and
    every code unit of [s] in the set is removed on its own. *)
Definition remove_units (cls : list N) (s : jsstring) : jsstring :=
  List.filter (fun c => negb (existsb (N.eqb c) cls)) s.

(** ** Specifications of the search built-ins *)

Lemma prefixb_spec (p s : jsstring) : prefixb p s = true <-> exists b, s = p ++ b.
Proof.
  revert s. induction p as [|c p IH]; intros [|d s]; simpl.
  - split; eauto.
  - split; eauto.
  - split; [done|]. by intros [b Hb].
  - rewrite andb_true_iff, N.eqb_eq, IH. split.
    + intros [-> [b ->]]. eauto.
    + intros [b Hb]. injection Hb as -> ->. eauto.
Qed.

Lemma includes_infix (s p : jsstring) :
  includes s p = true <-> exists a b, s = a ++ p ++ b.
Proof.
  induction s as [|d s IH]; simpl; rewrite orb_true_iff, prefixb_spec.
  - split.
    + intros [[b Hb]|H]; [by exists [], b|discriminate].
    + intros [[|x a] [b Hb]]; [left; by exists b|discriminate].
  - rewrite IH. split.
    + intros [[b Hb]|[a [b ->]]]; [by exists [], b|by exists (d :: a), b].
    + intros [[|x a] [b Hb]]; [left; by exists b|].
      injection Hb as -> ->. right. eauto.
Qed.

Lemma startsWith_unit (s : jsstring) (c : N) :
  startsWith s [c] = true <-> exists r, s = c :: r.
Proof. unfold startsWith. by rewrite prefixb_spec. Qed.

Lemma endsWith_unit (s : jsstring) (c : N) :
  endsWith s [c] = true <-> exists r, s = r ++ [c].
Proof.
  unfold endsWith. rewrite prefixb_spec. simpl. split.
  - intros [b Hb]. exists (rev b). by rewrite <- (rev_involutive s), Hb.
  - intros [r ->]. exists (rev r). by rewrite rev_app_distr.
Qed.

(** ** [split] and [join] *)

Lemma split_on_cons_ne sep c r :
  (c =? sep)%N = false ->
  exists p ps, split_on sep r = p :: ps /\ split_on sep (c :: r) = (c :: p) :: ps.
Proof.
  intros Hc. simpl. rewrite Hc.
  destruct r as [|d r']; simpl; [by eexists _, _|].
  destruct (d =? sep)%N; [by eexists _, _|].
  destruct (split_on sep r') as [|p ps]; by eexists _, _.
Qed.

Lemma split_on_nonempty sep s : split_on sep s <> [].
Proof.
  destruct s as [|c r]; [done|].
  destruct (c =? sep)%N eqn:Hc; [simpl; by rewrite Hc|].
  destruct (split_on_cons_ne sep c r Hc) as (p & ps & _ & ->). done.
Qed.

Lemma join_split_on_eq sep s : join sep (split_on sep s) = s.
Proof.
  induction s as [|c r IH]; [done|].
  destruct (c =? sep)%N eqn:Hc.
  - apply N.eqb_eq in Hc as ->. simpl. rewrite N.eqb_refl.
    destruct (split_on sep r) eqn:E; [by apply split_on_nonempty in E|].
    simpl. by rewrite <- IH.
  - destruct (split_on_cons_ne sep c r Hc) as (p & ps & Hr & ->).
    rewrite Hr in IH. destruct ps; simpl in *; by rewrite IH.
Qed.

Lemma split_on_no_sep sep s : Forall (fun p => sep ∉ p) (split_on sep s).
Proof.
  induction s as [|c r IH].
  - repeat constructor. apply not_elem_of_nil.
  - destruct (c =? sep)%N eqn:Hc.
    + simpl. rewrite Hc. constructor; [apply not_elem_of_nil|done].
    + destruct (split_on_cons_ne sep c r Hc) as (p & ps & Hr & ->).
      rewrite Hr in IH. inversion IH as [|? ? Hp Hps]; subst.
      constructor; [|done]. rewrite elem_of_cons.
      apply N.eqb_neq in Hc. intros [->|]; auto.
Qed.

Lemma split_on_app_sep sep a b :
  sep ∉ a -> split_on sep (a ++ sep :: b) = a :: split_on sep b.
Proof.
  induction a as [|c a IH]; intros Ha; simpl.
  - by rewrite N.eqb_refl.
  - rewrite elem_of_cons in Ha.
    assert ((c =? sep)%N = false) as -> by (apply N.eqb_neq; intros ->; tauto).
    rewrite IH; [done|tauto].
Qed.

Lemma split_on_no_sep_id sep a : sep ∉ a -> split_on sep a = [a].
Proof.
  induction a as [|c a IH]; intros Ha; simpl; [done|].
  rewrite elem_of_cons in Ha.
  assert ((c =? sep)%N = false) as -> by (apply N.eqb_neq; intros ->; tauto).
  rewrite IH; [done|tauto].
Qed.

Lemma split_on_join_eq sep ps :
  ps <> [] -> Forall (fun p => sep ∉ p) ps -> split_on sep (join sep ps) = ps.
Proof.
  induction ps as [|p ps IH]; intros Hne Hps; [done|].
  inversion Hps as [|? ? Hp Hps']; subst.
  destruct ps as [|q qs].
  - by apply split_on_no_sep_id.
  - change (join sep (p :: q :: qs)) with (p ++ sep :: join sep (q :: qs)).
    rewrite split_on_app_sep, IH; done.
Qed.

(** ** [trim] *)

Definition all_ws (w : jsstring) : Prop := Forall (fun c => is_ws c = true) w.

(** A string that is empty or starts with a code unit that is not white space. *)
Definition ws_free_head (s : jsstring) : Prop :=
  match s with [] => True | c :: _ => is_ws c = false end.

Lemma all_ws_nil : all_ws [].
Proof. constructor. Qed.

#[export] Hint Resolve all_ws_nil : core.

Lemma trim_start_app_ws w s : all_ws w -> trim_start (w ++ s) = trim_start s.
Proof. induction 1 as [|c w Hc _ IH]; simpl; [done|]. by rewrite Hc. Qed.

Lemma trim_start_head s : ws_free_head (trim_start s).
Proof. induction s as [|c s IH]; simpl; [done|]. destruct (is_ws c) eqn:E; done. Qed.

Lemma trim_start_id s : ws_free_head s -> trim_start s = s.
Proof. destruct s as [|c s]; simpl; [done|]. by intros ->. Qed.

Lemma trim_start_idem s : trim_start (trim_start s) = trim_start s.
Proof. apply trim_start_id, trim_start_head. Qed.

Lemma trim_start_nil s : trim_start s = [] <-> all_ws s.
Proof.
  induction s as [|c s IH]; simpl; [split; by constructor|].
  destruct (is_ws c) eqn:E; rewrite ?IH; split; try done.
  - by constructor.
  - by inversion 1.
  - inversion 1; congruence.
Qed.

Lemma trim_start_app_l s t : trim_start s <> [] -> trim_start (s ++ t) = trim_start s ++ t.
Proof.
  induction s as [|c s IH]; simpl; [done|].
  destruct (is_ws c); [exact IH|done].
Qed.

Lemma all_ws_rev w : all_ws w -> all_ws (rev w).
Proof. unfold all_ws. intros. by apply Forall_rev. Qed.

Lemma all_ws_app w1 w2 : all_ws w1 -> all_ws w2 -> all_ws (w1 ++ w2).
Proof. unfold all_ws. intros. by apply Forall_app. Qed.

#[export] Hint Resolve all_ws_rev all_ws_app : jsdb.

Lemma trim_end_app_ws s w : all_ws w -> trim_end (s ++ w) = trim_end s.
Proof.
  intros Hw. unfold trim_end. rewrite rev_app_distr, trim_start_app_ws; auto with jsdb.
Qed.

Lemma trim_end_nil s : trim_end s = [] <-> all_ws s.
Proof.
  unfold trim_end. split.
  - destruct (trim_start (rev s)) as [|c l] eqn:E; intros H.
    + apply trim_start_nil, all_ws_rev in E. by rewrite rev_involutive in E.
    + simpl in H. by apply app_eq_nil in H as [_ ?].
  - intros H. apply all_ws_rev, trim_start_nil in H. by rewrite H.
Qed.

(** [trim_end] keeps a head that is not white space. *)
Lemma trim_end_head s : ws_free_head s -> ws_free_head (trim_end s).
Proof.
  destruct s as [|c r]; [done|]. simpl. intros Hc. unfold trim_end. simpl.
  destruct (trim_start (rev r)) eqn:E.
  - apply trim_start_nil in E. rewrite trim_start_app_ws by done. simpl.
    by rewrite Hc.
  - rewrite trim_start_app_l by (rewrite E; discriminate). rewrite E, rev_app_distr. done.
Qed.

Lemma trim_end_idem s : trim_end (trim_end s) = trim_end s.
Proof. unfold trim_end. by rewrite rev_involutive, trim_start_idem. Qed.

Lemma trim_idem_eq s : trim (trim s) = trim s.
Proof.
  unfold trim at 1 2. rewrite (trim_start_id (trim_end _)).
  - apply trim_end_idem.
  - apply trim_end_head, trim_start_head.
Qed.

Lemma trim_app_ws_l w s : all_ws w -> trim (w ++ s) = trim s.
Proof. intros Hw. unfold trim. by rewrite trim_start_app_ws. Qed.

Lemma trim_app_ws_r s w : all_ws w -> trim (s ++ w) = trim s.
Proof.
  intros Hw. unfold trim. destruct (trim_start s) eqn:E.
  - apply trim_start_nil in E.
    rewrite trim_start_app_ws, (proj2 (trim_start_nil w)); done.
  - rewrite trim_start_app_l by (rewrite E; discriminate). rewrite E.
    by apply trim_end_app_ws.
Qed.

Lemma trim_nil s : trim s = [] <-> all_ws s.
Proof.
  unfold trim. rewrite trim_end_nil, <- (trim_start_nil s). split.
  - pose proof (trim_start_head s) as Hh. destruct (trim_start s); [done|].
    inversion 1; simpl in *; congruence.
  - intros ->. by constructor.
Qed.

Lemma is_ws_cons c s : is_ws c = true -> trim (c :: s) = trim s.
Proof. intros Hc. by apply (trim_app_ws_l [c]); constructor. Qed.

(** ** [replace(/\*\*/g, '')] *)

Definition DSTAR : jsstring := [STAR; STAR].

Lemma strip_double_star_cons c t :
  c <> STAR -> strip_double_star (c :: t) = c :: strip_double_star t.
Proof.
  intros Hc. destruct t as [|d t]; [done|]. simpl.
  by rewrite (proj2 (N.eqb_neq c STAR) Hc).
Qed.

Lemma strip_double_star_cons2 c1 c2 r :
  strip_double_star (c1 :: c2 :: r) =
  if (c1 =? STAR)%N && (c2 =? STAR)%N then strip_double_star r
  else c1 :: strip_double_star (c2 :: r).
Proof. reflexivity. Qed.

Lemma includes_dstar_cons c t :
  includes (c :: t) DSTAR =
  ((STAR =? c)%N && prefixb [STAR] t) || includes t DSTAR.
Proof. reflexivity. Qed.

Lemma strip_double_star_no_dstar_eq s : includes (strip_double_star s) DSTAR = false.
Proof.
  induction s as [s IH] using list_len_ind.
  destruct s as [|c1 [|c2 r]]; [done|simpl; by rewrite andb_false_r|].
  rewrite strip_double_star_cons2.
  destruct ((c1 =? STAR)%N && (c2 =? STAR)%N) eqn:E.
  - apply IH. simpl. lia.
  - rewrite includes_dstar_cons, (IH (c2 :: r)), orb_false_r by (simpl; lia).
    destruct (N.eqb_spec STAR c1) as [<-|]; [|done].
    rewrite N.eqb_refl in E. cbn [andb] in E.
    rewrite strip_double_star_cons by (by apply N.eqb_neq).
    cbn [prefixb]. rewrite andb_true_r, N.eqb_sym. exact E.
Qed.

Lemma strip_double_star_id s : includes s DSTAR = false -> strip_double_star s = s.
Proof.
  induction s as [|c1 s IH]; [done|]. rewrite includes_dstar_cons, orb_false_iff.
  intros [H1 H2]. destruct s as [|c2 r]; [done|].
  rewrite strip_double_star_cons2. cbn [prefixb] in H1.
  rewrite andb_true_r in H1. rewrite (N.eqb_sym c1), (N.eqb_sym c2), H1, IH; done.
Qed.

Lemma strip_double_star_idem s :
  strip_double_star (strip_double_star s) = strip_double_star s.
Proof. apply strip_double_star_id, strip_double_star_no_dstar_eq. Qed.

(** ** Class removal *)

Lemma existsb_eqb_elem c (cls : list N) : existsb (N.eqb c) cls = true <-> c ∈ cls.
Proof.
  rewrite existsb_exists, list_elem_of_In. split.
  - intros [x [Hx E]]. apply N.eqb_eq in E. by subst.
  - intros Hc. exists c. by rewrite N.eqb_refl.
Qed.

Lemma remove_units_spec cls s c :
  c ∈ remove_units cls s <-> c ∈ s /\ c ∉ cls.
Proof.
  unfold remove_units. rewrite !list_elem_of_In, filter_In, <- list_elem_of_In.
  rewrite negb_true_iff, <- not_true_iff_false, existsb_eqb_elem. by rewrite !list_elem_of_In.
Qed.

(** ** [split] of a concatenation *)

Lemma split_on_cons_ne_eq sep c r :
  (c =? sep)%N = false ->
  split_on sep (c :: r) =
  match split_on sep r with p :: ps => (c :: p) :: ps | [] => [[c]] end.
Proof. intros Hc. simpl. by rewrite Hc. Qed.

(** The last piece of [a] and the first piece of [b] are glued together. *)
Lemma split_on_app sep a b :
  exists ps p q qs,
    split_on sep a = ps ++ [p] /\ split_on sep b = q :: qs /\
    split_on sep (a ++ b) = ps ++ (p ++ q) :: qs.
Proof.
  induction a as [|c a IH].
  - destruct (split_on sep b) as [|q qs] eqn:E; [by apply split_on_nonempty in E|].
    by exists [], [], q, qs.
  - destruct IH as (ps & p & q & qs & Ha & Hb & Hab).
    destruct (c =? sep)%N eqn:Hc.
    + exists ([] :: ps), p, q, qs. simpl. by rewrite Hc, Ha, Hab.
    + rewrite <- app_comm_cons, !split_on_cons_ne_eq, Ha, Hab by done.
      destruct ps as [|p0 ps].
      * by exists [], (c :: p), q, qs.
      * by exists ((c :: p0) :: ps), p, q, qs.
Qed.

Lemma split_on_all_ws sep w :
  all_ws w -> Forall all_ws (split_on sep w).
Proof.
  induction 1 as [|c w Hc Hw IH]; simpl; [repeat constructor|].
  destruct (c =? sep)%N; [constructor; [constructor|done]|].
  destruct (split_on sep w) as [|p ps]; inversion IH; subst; by repeat constructor.
Qed.

Lemma all_ws_app_inv w1 w2 : all_ws (w1 ++ w2) -> all_ws w1 /\ all_ws w2.
Proof. unfold all_ws. by rewrite Forall_app. Qed.

Lemma trim_start_decomp s : exists w, all_ws w /\ s = w ++ trim_start s.
Proof.
  induction s as [|c s IH]; simpl; [by exists []|].
  destruct (is_ws c) eqn:E.
  - destruct IH as [w [Hw Hs]]. exists (c :: w). split; [by constructor|].
    simpl. by rewrite <- Hs.
  - by exists [].
Qed.

Lemma trim_decomp s : exists w1 w2, all_ws w1 /\ all_ws w2 /\ s = w1 ++ trim s ++ w2.
Proof.
  destruct (trim_start_decomp s) as [w1 [Hw1 Hs1]].
  destruct (trim_start_decomp (rev (trim_start s))) as [w2 [Hw2 Hs2]].
  exists w1, (rev w2). split_and!; [done|auto with jsdb|].
  unfold trim, trim_end. rewrite <- rev_app_distr, <- Hs2, rev_involutive.
  exact Hs1.
Qed.

(** ** UTF-16 well-formedness

    A high surrogate (U+D800..U+DBFF) must be followed by a low surrogate
    (U+DC00..U+DFFF), and a low surrogate must follow a high one. *)
Definition is_high_surrogate (c : N) : bool := ((55296 <=? c) && (c <=? 56319))%N.
Definition is_low_surrogate (c : N) : bool := ((56320 <=? c) && (c <=? 57343))%N.

Fixpoint wf_utf16 (s : jsstring) : bool :=
  match s with
  | [] => true
  | c :: r =>
      if is_high_surrogate c then
        match r with
        | d :: r' => is_low_surrogate d && wf_utf16 r'
        | [] => false
        end
      else negb (is_low_surrogate c) && wf_utf16 r
  end.

Lemma trim_start_elem s c : c ∈ trim_start s -> c ∈ s.
Proof.
  destruct (trim_start_decomp s) as [w [_ Hs]]. intros Hc.
  rewrite Hs. apply elem_of_app. by right.
Qed.

Lemma elem_of_rev {A} (x : A) (l : list A) : x ∈ rev l <-> x ∈ l.
Proof. rewrite !list_elem_of_In. symmetry. apply in_rev. Qed.

(** [trim] only removes code units. *)
Lemma trim_elem s c : c ∈ trim s -> c ∈ s.
Proof.
  unfold trim, trim_end. rewrite elem_of_rev. intros Hc.
  apply trim_start_elem in Hc. rewrite elem_of_rev in Hc. by apply trim_start_elem.
Qed.

(** ** Search and cleaning next to padding

    Padding whose code units all differ from the needle's neither creates
    nor hides an occurrence; "**" around a text without '*' is what
    [strip_double_star] removes, and nothing else. *)

Definition disjoint_units (u p : jsstring) : Prop := forall c, c ∈ u -> c ∉ p.

Lemma prefixb_head_disjoint p c s :
  p <> [] -> c ∉ p -> prefixb p (c :: s) = false.
Proof.
  destruct p as [|x p]; [done|]. intros _ Hc. cbn [prefixb].
  destruct (N.eqb_spec x c) as [->|]; [set_solver|done].
Qed.

Lemma prefixb_app_disjoint p s u :
  disjoint_units u p -> prefixb p (s ++ u) = prefixb p s.
Proof.
  revert s. induction p as [|x p IH]; intros s Hd; [by destruct s, u|].
  destruct s as [|y s]; cbn [app].
  - destruct u as [|c u]; [done|]. apply prefixb_head_disjoint; [done|]. apply Hd. set_solver.
  - cbn [prefixb]. rewrite IH; [done|]. intros c Hc Hp. apply (Hd c Hc). set_solver.
Qed.

Lemma includes_app_disjoint s u p :
  p <> [] -> disjoint_units u p -> includes (s ++ u) p = includes s p.
Proof.
  intros Hp Hd. induction s as [|c s IH]; cbn [app includes].
  - rewrite orb_false_r. destruct p; [done|]. induction u as [|d u IHu]; [done|].
    cbn [includes]. rewrite prefixb_head_disjoint, IHu; [done| |done|].
    + intros e He. apply Hd. set_solver.
    + apply Hd. set_solver.
  - pose proof (prefixb_app_disjoint p (c :: s) u Hd) as E. cbn [app] in E. by rewrite E, IH.
Qed.

Lemma includes_app_disjoint_l u s p :
  p <> [] -> disjoint_units u p -> includes (u ++ s) p = includes s p.
Proof.
  intros Hp Hd. induction u as [|c u IH]; [done|]. cbn [app includes].
  rewrite prefixb_head_disjoint, IH; [done| |done|].
  - intros e He. apply Hd. set_solver.
  - apply Hd. set_solver.
Qed.

Lemma strip_double_star_app_l t u :
  STAR ∉ t -> strip_double_star (t ++ u) = t ++ strip_double_star u.
Proof.
  induction t as [|c t IH]; intros Ht; [done|]. cbn [app].
  rewrite strip_double_star_cons, IH; [done|set_solver|]. intros ->. set_solver.
Qed.

Lemma strip_double_star_bold t :
  STAR ∉ t -> strip_double_star (DSTAR ++ t ++ DSTAR) = t.
Proof.
  intros Ht. cbn [DSTAR app]. rewrite strip_double_star_cons2, N.eqb_refl. cbn [andb].
  by rewrite strip_double_star_app_l, app_nil_r.
Qed.

Lemma trim_ends_id c s d :
  is_ws c = false -> is_ws d = false -> trim (c :: s ++ [d]) = c :: s ++ [d].
Proof.
  intros Hc Hd. unfold trim, trim_end. rewrite (trim_start_id (c :: _)) by done.
  rewrite app_comm_cons, rev_unit, trim_start_id by done.
  replace (d :: rev (c :: s)) with (rev ((c :: s) ++ [d])) by (by rewrite rev_unit).
  by rewrite rev_involutive.
Qed.

(** ** Properties *)


(** [s.includes(p)] holds exactly when [p] occurs in [s] as a
    contiguous run of code units. *)
Theorem includes_iff_infix (s p : jsstring) :
  includes s p = true <-> exists a b, s = a ++ p ++ b.
Proof. apply includes_infix. Qed.

(** [trim] is idempotent, and what it removes is white space only: the
    string is the trimmed string with white space on both sides. *)
Theorem trim_idempotent (s : jsstring) :
  trim (trim s) = trim s /\
  exists w1 w2, all_ws w1 /\ all_ws w2 /\ s = w1 ++ trim s ++ w2.
Proof. split; [apply trim_idem_eq|apply trim_decomp]. Qed.

(** After [replace(/\*\*/g, '')] no "**" is left (each run of stars
    keeps its parity, so at most one star survives in a row), and a
    second replacement changes nothing. *)
Theorem strip_double_star_no_dstar (s : jsstring) :
  includes (strip_double_star s) DSTAR = false /\
  strip_double_star (strip_double_star s) = strip_double_star s.
Proof. split; [apply strip_double_star_no_dstar_eq|apply strip_double_star_idem]. Qed.

