(* ===== verification/Jsx.v ===== *)
(** * React elements

    The JSX the component returns, as trees: an element has a tag, an
    optional [key], its [className] or inline [style] attributes, its
    other attributes ([type], [id], [name], [min], [step], [placeholder],
    [htmlFor], ...) and boolean attributes ([required], [disabled], present
    only when true, as React writes them), and its children; a text child
    is a JavaScript string. Class names and style declarations are the
    ASCII literals of the source, so they are Rocq strings. *)

From stdpp Require Import strings.
From S2P Require Import Prelude JsString.

Inductive attr :=
| ClassName (c : string)
| Style (decls : list (string * string))
| Attr (name : string) (value : jsstring)
| Flag (name : string).

Inductive node :=
| Text (s : jsstring)
| Elem (tag : string) (key : option nat) (attrs : list attr) (children : list node).

(** The text content of an element tree, in document order. *)
Fixpoint text_content (n : node) : jsstring :=
  match n with
  | Text s => s
  | Elem _ _ _ cs => (fix go (cs : list node) : jsstring :=
                       match cs with [] => [] | c :: cs' => text_content c ++ go cs' end) cs
  end.

Definition node_tag (n : node) : option string :=
  match n with Text _ => None | Elem t _ _ _ => Some t end.

Definition node_key (n : node) : option nat :=
  match n with Text _ => None | Elem _ k _ _ => k end.

Definition node_attrs (n : node) : list attr :=
  match n with Text _ => [] | Elem _ _ a _ => a end.

Definition node_children (n : node) : list node :=
  match n with Text _ => [] | Elem _ _ _ cs => cs end.

(** A boolean attribute such as [disabled] or [required] is present. *)
Definition has_flag (n : node) (f : string) : bool :=
  existsb (fun a => match a with Flag g => bool_decide (g = f) | _ => false end) (node_attrs n).

(** The value of a named attribute, when present. *)
Definition attr_value (n : node) (name : string) : option jsstring :=
  head (omap (fun a => match a with Attr m v => if bool_decide (m = name) then Some v else None
                                  | _ => None end) (node_attrs n)).

(** Elements built by [imap] with [key={index}] carry the keys 0, 1, ... in order. *)
Lemma keys_imap {A} (g : nat -> A -> node) (l : list A) k :
  (forall i x, node_key (g i x) = Some (k + i)) ->
  map node_key (imap g l) = map Some (seq k (length l)).
Proof.
  revert g k. induction l as [|x l IH]; intros g k Hg; [done|]. cbn [imap map seq length].
  rewrite Hg, Nat.add_0_r, (IH _ (S k)); [done|].
  intros i y. unfold compose. rewrite Hg. f_equal. lia.
Qed.
