(* ===== verification/Layout.v ===== *)
(** * The root layout (src/app/layout.tsx)

    Next.js renders every page inside [RootLayout]: an [html] element with
    [lang="es"] whose [body] holds the page. [metadata] gives the
    document's title and description, which Next.js writes into the
    [head]. The stylesheet import is not modelled. *)

From stdpp Require Import strings.
From S2P Require Import Prelude JsString Jsx.

Record Metadata := mkMetadata { md_title : jsstring; md_description : jsstring }.

(** "Calculadora ROI Setterless 360°" and "Calcula el ROI de tu inversión
    inmobiliaria con Setterless 360°" (lines 4-7). *)
Definition metadata : Metadata :=
  mkMetadata (js "Calculadora ROI Setterless 360" ++ [176%N])
    (js "Calcula el ROI de tu inversi" ++ [243%N] ++ js "n inmobiliaria con Setterless 360" ++ [176%N]).

(** Lines 9-19. *)
Definition RootLayout (children : list node) : node :=
  Elem "html" None [Attr "lang" (js "es")] [Elem "body" None [] children].
