(* ===== verification/Classify.v ===== *)
(** * The classification policy shared by the two formatters

    Both [formatRoiResult] (screen) and the inline PDF formatter split the
    answer on line feeds, drop the lines that are blank after [trim], and
    classify each trimmed line by the same ordered rule: a line with one of
    five emoji markers is a heading; otherwise a line ending in ':' or '?'
    is a subheading; otherwise a line starting with '-', '•' or '*' is a
    list item (marker removed, rest trimmed); otherwise a paragraph.

    This file states that policy once, as the neutral Block of the spec
    (section 3 of spec.md), with a presentation interface [Presentation]:
    a formatter is "the classifier followed by a presentation", which is
    what [ScreenFormat] and [PdfFormat] prove of the source's code. The
    generic lemmas on [render_report] (order, count, the empty input)
    are proved here once, against the interface. *)

From stdpp Require Import strings sets.
From S2P Require Import Prelude JsString.

(** ** The literals of the source (code units) *)

Definition LF : N := 10.       (* '\n' *)
Definition COLON : N := 58.    (* ':' *)
Definition QMARK : N := 63.    (* '?' *)
Definition DASH : N := 45.     (* '-' *)
Definition BULLET : N := 8226. (* '•' U+2022 *)

(** The five markers, in the order of the [||] chain of the source:
    🙌 U+1F64C, 📈 U+1F4C8, 💰 U+1F4B0, ⏰ U+23F0, 🎯 U+1F3AF, each as
    its UTF-16 code units. *)
Definition heading_markers : list jsstring :=
  [[55357; 56908]; [55357; 56520]; [55357; 56496]; [9200]; [55356; 57263]]%N.

(** [trimmed.includes('🙌') || ... || trimmed.includes('🎯')] *)
Definition has_marker (t : jsstring) : bool := existsb (includes t) heading_markers.

(** [trimmed.endsWith(':') || trimmed.endsWith('?')] *)
Definition is_subheading (t : jsstring) : bool := endsWith t [COLON] || endsWith t [QMARK].

(** [trimmed.startsWith('-') || trimmed.startsWith('•') || trimmed.startsWith('*')] *)
Definition is_list_item (t : jsstring) : bool :=
  startsWith t [DASH] || startsWith t [BULLET] || startsWith t [STAR].

(** [trimmed.substring(1).trim()] *)
Definition list_item_text (t : jsstring) : jsstring := trim (substring t 1).

(** ** Blocks: the neutral classification *)

Inductive Block :=
| Heading (text : jsstring)
| Subheading (text : jsstring)
| ListItem (text : jsstring)
| Paragraph (text : jsstring).

Inductive kind := KHeading | KSubheading | KListItem | KParagraph.

#[export] Instance kind_eq_dec : EqDecision kind.
Proof. solve_decision. Defined.

Definition block_kind (b : Block) : kind :=
  match b with
  | Heading _ => KHeading | Subheading _ => KSubheading
  | ListItem _ => KListItem | Paragraph _ => KParagraph
  end.

(** The ordered, mutually exclusive rule, on a trimmed line. *)
Definition classify (t : jsstring) : Block :=
  if has_marker t then Heading t
  else if is_subheading t then Subheading t
  else if is_list_item t then ListItem (list_item_text t)
  else Paragraph t.

(** [text.split('\n').filter(line => line.trim())], then each line trimmed. *)
Definition nonblank_lines (text : jsstring) : list jsstring :=
  List.filter (fun p => str_truthy (trim p)) (split_on LF text).

Definition report_lines (text : jsstring) : list jsstring := map trim (nonblank_lines text).

Definition format_blocks (text : jsstring) : list Block := map classify (report_lines text).

(** ** The presentation interface

    A presentation turns the Block at position [index] into an element;
    the formatters of the source are two instances of it. *)
Class Presentation (E : Type) := present : nat -> Block -> E.

Definition render_report {E} `{Presentation E} (text : jsstring) : list E :=
  imap present (format_blocks text).

(** ** Case analysis on the classifier *)

Inductive classify_spec (t : jsstring) : Block -> Prop :=
| CsHeading : has_marker t = true -> classify_spec t (Heading t)
| CsSubheading : has_marker t = false -> is_subheading t = true ->
    classify_spec t (Subheading t)
| CsListItem : has_marker t = false -> is_subheading t = false ->
    is_list_item t = true -> classify_spec t (ListItem (list_item_text t))
| CsParagraph : has_marker t = false -> is_subheading t = false ->
    is_list_item t = false -> classify_spec t (Paragraph t).

Lemma classifyP t : classify_spec t (classify t).
Proof.
  unfold classify.
  destruct (has_marker t) eqn:E1; [by constructor|].
  destruct (is_subheading t) eqn:E2; [by constructor|].
  destruct (is_list_item t) eqn:E3; by constructor.
Qed.

Lemma has_marker_spec t :
  has_marker t = true <-> exists m, m ∈ heading_markers /\ exists a b, t = a ++ m ++ b.
Proof.
  unfold has_marker. rewrite existsb_exists. setoid_rewrite includes_infix.
  by setoid_rewrite list_elem_of_In.
Qed.

Lemma is_subheading_spec t :
  is_subheading t = true <-> exists r, t = r ++ [COLON] \/ t = r ++ [QMARK].
Proof.
  unfold is_subheading. rewrite orb_true_iff, !endsWith_unit. naive_solver.
Qed.

Lemma is_list_item_spec t :
  is_list_item t = true <->
  exists c r, t = c :: r /\ (c = DASH \/ c = BULLET \/ c = STAR).
Proof.
  unfold is_list_item. rewrite !orb_true_iff, !startsWith_unit. naive_solver.
Qed.

(** "**" around a line changes none of the five markers' occurrences,
    and a line ending in a unit other than ':' or '?' is no subheading. *)
Lemma has_marker_bold t : has_marker (DSTAR ++ t ++ DSTAR) = has_marker t.
Proof.
  assert (H : Forall (fun m => m <> [] /\ STAR ∉ m) heading_markers)
    by (apply (bool_decide_unpack _); vm_compute; reflexivity).
  unfold has_marker. induction H as [|m ms [Hm Hs] _ IH]; [done|]. cbn [existsb].
  assert (Hd : disjoint_units DSTAR m) by (intros c Hc; cbn in Hc; set_solver).
  by rewrite includes_app_disjoint_l, includes_app_disjoint, IH.
Qed.

Lemma is_subheading_snoc r c : c <> COLON -> c <> QMARK -> is_subheading (r ++ [c]) = false.
Proof.
  intros H1 H2. apply not_true_iff_false. rewrite is_subheading_spec.
  intros [r' [E|E]]; apply app_inj_tail in E as [_ E]; congruence.
Qed.

(** ** The lines of a report *)

Definition keep_lines (ps : list jsstring) : list jsstring :=
  map trim (List.filter (fun p => str_truthy (trim p)) ps).

Lemma report_lines_keep t : report_lines t = keep_lines (split_on LF t).
Proof. reflexivity. Qed.

Lemma keep_lines_app xs ys : keep_lines (xs ++ ys) = keep_lines xs ++ keep_lines ys.
Proof. unfold keep_lines. by rewrite List.filter_app, map_app. Qed.

Lemma keep_lines_cons_trim x y xs :
  trim x = trim y -> keep_lines (x :: xs) = keep_lines (y :: xs).
Proof.
  intros E. unfold keep_lines. cbn [List.filter].
  destruct (str_truthy (trim y)) eqn:T; rewrite E, T; cbn [map]; by rewrite ?E.
Qed.

Lemma keep_lines_all_ws qs : Forall all_ws qs -> keep_lines qs = [].
Proof.
  intros Hqs. unfold keep_lines. rewrite filter_none; [done|].
  eapply Forall_impl; [exact Hqs|]. intros q Hq. by rewrite (proj2 (trim_nil q) Hq).
Qed.

Lemma report_lines_app_ws_l w t : all_ws w -> report_lines (w ++ t) = report_lines t.
Proof.
  intros Hw. destruct (split_on_app LF w t) as (ps & p & q & qs & Ew & Et & Ewt).
  pose proof (split_on_all_ws LF w Hw) as Hws. rewrite Ew, Forall_app in Hws.
  destruct Hws as [Hps Hp]. inversion Hp; subst.
  rewrite !report_lines_keep, Ewt, Et, keep_lines_app, keep_lines_all_ws by done.
  apply keep_lines_cons_trim, trim_app_ws_l. done.
Qed.

Lemma report_lines_app_ws_r t w : all_ws w -> report_lines (t ++ w) = report_lines t.
Proof.
  intros Hw. destruct (split_on_app LF t w) as (ps & p & q & qs & Et & Ew & Etw).
  pose proof (split_on_all_ws LF w Hw) as Hws. rewrite Ew in Hws.
  inversion Hws as [|? ? Hq Hqs]; subst.
  rewrite !report_lines_keep, Etw, Et, !keep_lines_app.
  change ((p ++ q) :: qs) with ([p ++ q] ++ qs).
  rewrite keep_lines_app, (keep_lines_all_ws qs), app_nil_r by done.
  f_equal. by apply keep_lines_cons_trim, trim_app_ws_r.
Qed.

Lemma report_lines_trim_eq t : report_lines (trim t) = report_lines t.
Proof.
  destruct (trim_decomp t) as (w1 & w2 & H1 & H2 & Ht).
  transitivity (report_lines (w1 ++ trim t ++ w2)); [|by rewrite <- Ht].
  by rewrite report_lines_app_ws_l, report_lines_app_ws_r.
Qed.

(** Every line handed to the classifier is trimmed and not empty. *)
Lemma report_lines_wf t : Forall (fun l => trim l = l /\ l <> []) (report_lines t).
Proof.
  unfold report_lines, nonblank_lines. apply Forall_map.
  eapply Forall_impl; [apply Forall_filter_true|]. simpl. intros p Hp.
  rewrite trim_idem_eq. split; [done|]. by destruct (trim p).
Qed.

Lemma report_lines_join_eq ls :
  Forall (fun l => trim l = l /\ l <> [] /\ LF ∉ l) ls -> report_lines (join LF ls) = ls.
Proof.
  intros Hls. destruct ls as [|l ls]; [done|].
  rewrite report_lines_keep, split_on_join_eq; [|congruence|].
  - unfold keep_lines. rewrite filter_all.
    + clear - Hls. induction Hls as [|x xs [Hx _] _ IH]; cbn [map]; [done|].
      by rewrite Hx, IH.
    + eapply Forall_impl; [exact Hls|]. intros x (-> & Hx & _).
      destruct x; [congruence|done].
  - eapply Forall_impl; [exact Hls|]. naive_solver.
Qed.

Lemma length_render_report {E} `{Presentation E} t :
  length (render_report t) = length (report_lines t).
Proof. unfold render_report, format_blocks. by rewrite length_imap, length_map. Qed.

Lemma all_ws_join ps : Forall all_ws ps -> all_ws (join LF ps).
Proof.
  induction 1 as [|p ps Hp Hps IH]; [done|].
  destruct ps as [|q qs]; [done|].
  change (join LF (p :: q :: qs)) with (p ++ LF :: join LF (q :: qs)).
  apply all_ws_app; [done|]. by constructor.
Qed.

(** The report has no line exactly when the text is white space only. *)
Lemma report_lines_nil t : report_lines t = [] <-> all_ws t.
Proof.
  split.
  - rewrite report_lines_keep. unfold keep_lines. intros H.
    apply map_eq_nil, filter_nil_inv in H.
    rewrite <- (join_split_on_eq LF t). apply all_ws_join.
    eapply Forall_impl; [exact H|]. intros p Hp. cbn beta in Hp. apply trim_nil.
    destruct (trim p); [done|inversion Hp].
  - intros Ht. rewrite report_lines_keep. by apply keep_lines_all_ws, split_on_all_ws.
Qed.

(** The markers by name, to write concrete reports. *)
Definition RAISED_HANDS : jsstring := [55357; 56908]%N.
Definition CHART : jsstring := [55357; 56520]%N.
Definition MONEY_BAG : jsstring := [55357; 56496]%N.
Definition ALARM_CLOCK : jsstring := [9200]%N.
Definition DIRECT_HIT : jsstring := [55356; 57263]%N.

(** ** Properties *)

(** The [.trim()] applied to the whole answer before splitting changes
    no line: the lines are trimmed one by one anyway. *)
Theorem report_lines_trim (t : jsstring) : report_lines (trim t) = report_lines t.
Proof. apply report_lines_trim_eq. Qed.

(** Round trip of the line pipeline: lines that are trimmed, not empty
    and free of line feeds, joined with line feeds, come back as they
    were, in order. *)
Theorem report_lines_join (ls : list jsstring) :
  Forall (fun l => trim l = l /\ l <> [] /\ LF ∉ l) ls -> report_lines (join LF ls) = ls.
Proof. apply report_lines_join_eq. Qed.

Lemma report_lines_join_witness :
  Forall (fun l => trim l = l /\ l <> [] /\ LF ∉ l) [js "Uno"; js "Dos:"] /\
  report_lines (join LF [js "Uno"; js "Dos:"]) = [js "Uno"; js "Dos:"].
Proof.
  assert (H : Forall (fun l => trim l = l /\ l <> [] /\ LF ∉ l) [js "Uno"; js "Dos:"]).
  { repeat constructor; try (vm_compute; reflexivity); try discriminate;
      apply (bool_decide_unpack _); vm_compute; reflexivity. }
  split; [exact H|exact (report_lines_join _ H)].
Defined.
