(* ===== verification/ScreenFormat.v ===== *)
(** * [formatRoiResult]: the on-screen report (CalculadoraROI.tsx, lines 78-128)

    The answer is cleaned with [replace(/\*\*/g, '')] and [trim], split on
    line feeds, filtered to the lines that are not blank, and walked with
    [forEach], which pushes one element per line into [elements]. The
    element is an [h2], an [h3], a bullet [div] or a [p], by the ordered
    rule of [Classify]. The main theorem, [formatRoiResult_as_report], says
    that this is the shared classifier followed by the screen
    presentation [screen_view], on the text with its "**" removed. *)

From stdpp Require Import strings.
From S2P Require Import Prelude JsString Jsx Classify.

(** ** The four elements (lines 92-96, 100-104, 108-115, 119-123) *)

Definition screen_h2 (index : nat) (t : jsstring) : node :=
  Elem "h2" (Some index)
    [ClassName "text-2xl font-bold text-cyan-700 mb-6 mt-8 first:mt-0 text-center"] [Text t].

Definition screen_h3 (index : nat) (t : jsstring) : node :=
  Elem "h3" (Some index)
    [ClassName "text-lg font-semibold text-slate-800 mb-3 mt-6 first:mt-0"] [Text t].

Definition screen_li (index : nat) (t : jsstring) : node :=
  Elem "div" (Some index) [ClassName "flex items-start mb-2 ml-4"]
    [Elem "div" None
       [ClassName "flex-shrink-0 w-1.5 h-1.5 bg-cyan-600 rounded-full mt-2.5 mr-3"] [];
     Elem "p" None [ClassName "text-slate-700 leading-relaxed"] [Text t]].

Definition screen_p (index : nat) (t : jsstring) : node :=
  Elem "p" (Some index)
    [ClassName "text-slate-700 leading-relaxed text-base mb-4"] [Text t].

(** ** The loop body (lines 85-125) *)

(** The if / else-if chain on [trimmed] (lines 91-124). *)
Definition screen_element (index : nat) (trimmed : jsstring) : node :=
  if has_marker trimmed then screen_h2 index trimmed
  else if is_subheading trimmed then screen_h3 index trimmed
  else if is_list_item trimmed then screen_li index (trim (substring trimmed 1))
  else screen_p index trimmed.

(** The callback of [paragraphs.forEach((paragraph, index) => ...)]: it
    returns early when [trimmed] is empty and otherwise pushes one element. *)
Definition format_body (index : nat) (paragraph : jsstring) : list node :=
  let trimmed := trim paragraph in
  if negb (str_truthy trimmed) then [] else [screen_element index trimmed].

Definition formatRoiResult (result : jsstring) : list node :=
  let cleanText := trim (strip_double_star result) in
  let paragraphs := List.filter (fun p => str_truthy (trim p)) (split_on LF cleanText) in
  forEach_push format_body paragraphs 0 [].

(** ** The screen presentation of a Block *)

Definition screen_view (index : nat) (b : Block) : node :=
  match b with
  | Heading t => screen_h2 index t
  | Subheading t => screen_h3 index t
  | ListItem t => screen_li index t
  | Paragraph t => screen_p index t
  end.

#[local] Instance screen_presentation : Presentation node := screen_view.

(** ** Refinement of the shared classifier *)

Lemma screen_element_classify index t :
  screen_element index t = screen_view index (classify t).
Proof.
  unfold screen_element, classify.
  by destruct (has_marker t), (is_subheading t), (is_list_item t).
Qed.

Lemma render_report_screen t :
  render_report t = imap (fun i l => screen_view i (classify l)) (report_lines t).
Proof. unfold render_report, format_blocks. by rewrite imap_map. Qed.

Lemma formatRoiResult_as_report r :
  formatRoiResult r = render_report (strip_double_star r).
Proof.
  unfold formatRoiResult. rewrite forEach_push_spec, app_nil_l.
  rewrite (mjoin_imap_single _ (fun j p => screen_element j (trim p))).
  - rewrite render_report_screen, <- report_lines_trim_eq.
    unfold report_lines, nonblank_lines. rewrite imap_map.
    apply imap_ext. intros. apply screen_element_classify.
  - intros j p Hp. unfold format_body.
    apply list_elem_of_In, filter_In in Hp as [_ ->]. done.
Qed.

Lemma formatRoiResult_lookup r i :
  formatRoiResult r !! i =
  (fun l => screen_view i (classify l)) <$> report_lines (strip_double_star r) !! i.
Proof. by rewrite formatRoiResult_as_report, render_report_screen, list_lookup_imap. Qed.

(** ** Behaviour of the formatter, line by line *)

(** C9. A kept line that contains one of the five markers is rendered as
    an [h2] carrying the line, whatever it ends or starts with. *)
Theorem formatRoiResult_heading r i a m b :
  report_lines (strip_double_star r) !! i = Some (a ++ m ++ b) ->
  m ∈ heading_markers ->
  formatRoiResult r !! i = Some (screen_h2 i (a ++ m ++ b)).
Proof.
  intros Hl Hm. rewrite formatRoiResult_lookup, Hl. simpl. unfold classify.
  rewrite (proj2 (has_marker_spec _)); [done|]. eauto.
Qed.

(** C19. A kept line without a marker that ends in ':' or '?' is rendered
    as an [h3] carrying the line. *)
Theorem formatRoiResult_subheading r i l c :
  report_lines (strip_double_star r) !! i = Some (l ++ [c]) ->
  c = COLON \/ c = QMARK ->
  has_marker (l ++ [c]) = false ->
  formatRoiResult r !! i = Some (screen_h3 i (l ++ [c])).
Proof.
  intros Hl Hc Hm. rewrite formatRoiResult_lookup, Hl. simpl. unfold classify.
  rewrite Hm, (proj2 (is_subheading_spec _)); [done|].
  exists l. destruct Hc as [-> | ->]; auto.
Qed.

(** C20. A kept line without a marker, not ending in ':' or '?', that
    starts with '-', '•' or '*' is rendered as a bullet item whose text is
    the rest of the line, trimmed. *)
Theorem formatRoiResult_list_item r i c rest :
  report_lines (strip_double_star r) !! i = Some (c :: rest) ->
  c = DASH \/ c = BULLET \/ c = STAR ->
  has_marker (c :: rest) = false ->
  is_subheading (c :: rest) = false ->
  formatRoiResult r !! i = Some (screen_li i (trim rest)).
Proof.
  intros Hl Hc Hm Hs. rewrite formatRoiResult_lookup, Hl. simpl. unfold classify.
  rewrite Hm, Hs, (proj2 (is_list_item_spec _)); [done|]. eauto.
Qed.

(** C21. The corrected form of the spec's first testable property: lines
    that carry no marker, do not end in ':' or '?' and do not start with
    a list marker give one paragraph each, in order, keyed by position. *)
Theorem formatRoiResult_paragraphs ls :
  Forall (fun l => trim l = l /\ l <> [] /\ LF ∉ l /\
                   has_marker l = false /\ is_subheading l = false /\
                   is_list_item l = false) ls ->
  includes (join LF ls) DSTAR = false ->
  formatRoiResult (join LF ls) = imap screen_p ls.
Proof.
  intros Hls Hd. rewrite formatRoiResult_as_report, strip_double_star_id by done.
  rewrite render_report_screen, report_lines_join_eq.
  - apply imap_ext. intros i l Hi. apply list_elem_of_lookup_2 in Hi.
    rewrite Forall_forall in Hls. destruct (Hls l Hi) as (_ & _ & _ & H1 & H2 & H3).
    unfold classify. by rewrite H1, H2, H3.
  - eapply Forall_impl; [exact Hls|]. naive_solver.
Qed.

(** C22. One element per line that is not blank: no line is merged,
    dropped or duplicated (the early [return] on an empty [trimmed] never
    fires, since the lines were filtered first). *)
Theorem formatRoiResult_length r :
  length (formatRoiResult r) = length (nonblank_lines (strip_double_star r)).
Proof.
  by rewrite formatRoiResult_as_report, length_render_report, report_lines_keep,
    <- report_lines_keep; unfold report_lines; rewrite length_map.
Qed.

(** C23. The React keys of the elements are 0, 1, 2, ... in order, so they
    are distinct among siblings. *)
Theorem formatRoiResult_keys r :
  map node_key (formatRoiResult r) = map Some (seq 0 (length (formatRoiResult r))).
Proof.
  rewrite formatRoiResult_as_report, render_report_screen, length_imap.
  apply keys_imap. intros i l. by destruct (classify l).
Qed.

(** C24. The report is empty exactly when the answer, once its "**" are
    removed, is made of white space only (the empty answer included). *)
Theorem formatRoiResult_nil r :
  formatRoiResult r = [] <-> all_ws (strip_double_star r).
Proof.
  rewrite formatRoiResult_as_report, <- report_lines_nil, <- length_zero_iff_nil,
    length_render_report. apply length_zero_iff_nil.
Qed.

(** ** Concrete reports *)

Lemma formatRoiResult_heading_witness :
  report_lines (strip_double_star (DIRECT_HIT ++ js " Resumen:"))
    !! 0 = Some ([] ++ DIRECT_HIT ++ js " Resumen:") /\
  DIRECT_HIT ∈ heading_markers /\
  formatRoiResult (DIRECT_HIT ++ js " Resumen:") !! 0 =
    Some (screen_h2 0 ([] ++ DIRECT_HIT ++ js " Resumen:")).
Proof.
  assert (Hl : report_lines (strip_double_star (DIRECT_HIT ++ js " Resumen:"))
    !! 0 = Some ([] ++ DIRECT_HIT ++ js " Resumen:")) by (vm_compute; reflexivity).
  assert (Hm : DIRECT_HIT ∈ heading_markers)
    by (apply list_elem_of_In; vm_compute; tauto).
  split; [exact Hl|split; [exact Hm|]].
  exact (formatRoiResult_heading _ 0 [] DIRECT_HIT (js " Resumen:") Hl Hm).
Defined.

Lemma formatRoiResult_subheading_witness :
  report_lines (strip_double_star (join LF [js "Intro"; js "**Total:**"])) !! 1 =
    Some (js "Total" ++ [COLON]) /\
  (COLON = COLON \/ COLON = QMARK) /\
  has_marker (js "Total" ++ [COLON]) = false /\
  formatRoiResult (join LF [js "Intro"; js "**Total:**"]) !! 1 = Some (screen_h3 1 (js "Total" ++ [COLON])).
Proof.
  assert (Hl : report_lines (strip_double_star (join LF [js "Intro"; js "**Total:**"])) !! 1 =
    Some (js "Total" ++ [COLON])) by (vm_compute; reflexivity).
  assert (Hc : COLON = COLON \/ COLON = QMARK) by (left; reflexivity).
  assert (Hm : has_marker (js "Total" ++ [COLON]) = false) by (vm_compute; reflexivity).
  split_and!; [exact Hl|exact Hc|exact Hm|].
  exact (formatRoiResult_subheading _ 1 (js "Total") COLON Hl Hc Hm).
Defined.

Lemma formatRoiResult_list_item_witness :
  report_lines (strip_double_star (js "  -  Reduce 3 horas ")) !! 0 =
    Some (DASH :: js "  Reduce 3 horas") /\
  (DASH = DASH \/ DASH = BULLET \/ DASH = STAR) /\
  has_marker (DASH :: js "  Reduce 3 horas") = false /\
  is_subheading (DASH :: js "  Reduce 3 horas") = false /\
  formatRoiResult (js "  -  Reduce 3 horas ") !! 0 =
    Some (screen_li 0 (trim (js "  Reduce 3 horas"))).
Proof.
  assert (Hl : report_lines (strip_double_star (js "  -  Reduce 3 horas ")) !! 0 =
    Some (DASH :: js "  Reduce 3 horas")) by (vm_compute; reflexivity).
  assert (Hc : DASH = DASH \/ DASH = BULLET \/ DASH = STAR) by (left; reflexivity).
  assert (Hm : has_marker (DASH :: js "  Reduce 3 horas") = false) by (vm_compute; reflexivity).
  assert (Hs : is_subheading (DASH :: js "  Reduce 3 horas") = false)
    by (vm_compute; reflexivity).
  split_and!; [exact Hl|exact Hc|exact Hm|exact Hs|].
  exact (formatRoiResult_list_item _ 0 DASH (js "  Reduce 3 horas") Hl Hc Hm Hs).
Defined.

Definition two_paragraphs : list jsstring :=
  [js "Gracias por completar el formulario."; js "Nos pondremos en contacto"].

Lemma formatRoiResult_paragraphs_witness :
  Forall (fun l => trim l = l /\ l <> [] /\ LF ∉ l /\
                   has_marker l = false /\ is_subheading l = false /\
                   is_list_item l = false) two_paragraphs /\
  includes (join LF two_paragraphs) DSTAR = false /\
  formatRoiResult (join LF two_paragraphs) = imap screen_p two_paragraphs.
Proof.
  assert (Hls : Forall (fun l => trim l = l /\ l <> [] /\ LF ∉ l /\
                   has_marker l = false /\ is_subheading l = false /\
                   is_list_item l = false) two_paragraphs).
  { repeat constructor; try (vm_compute; reflexivity); try discriminate;
      apply (bool_decide_unpack _); vm_compute; reflexivity. }
  assert (Hd : includes (join LF two_paragraphs) DSTAR = false) by (vm_compute; reflexivity).
  split_and!; [exact Hls|exact Hd|].
  exact (formatRoiResult_paragraphs two_paragraphs Hls Hd).
Defined.

(** The worked example of the spec (section 8), as the component renders it. *)
Definition spec_example : jsstring :=
  join LF [DIRECT_HIT ++ js " Resumen"; js "Ahorro estimado: $500";
           js "- Reduce 3 horas"; js "Este es un comentario final"].

(** The spec's worked example: the second line, "Ahorro estimado: $500",
    does not end in ':' or '?', so the code renders it as a paragraph, not
    as the subheading the spec lists; the other three lines are as the
    spec says. *)
Example spec_example_output :
  formatRoiResult spec_example =
  [screen_h2 0 (DIRECT_HIT ++ js " Resumen"); screen_p 1 (js "Ahorro estimado: $500");
   screen_li 2 (js "Reduce 3 horas"); screen_p 3 (js "Este es un comentario final")].
Proof. vm_compute. reflexivity. Qed.

(** The spec's first testable property ("no blank lines and no marker
    glyphs gives one paragraph per line") does not hold of the code: a
    line ending in ':' becomes a subheading and a line starting with '-'
    a list item. *)
Example spec_paragraph_property_fails :
  formatRoiResult (join LF [js "Ahorro:"; js "- Reduce 3 horas"]) =
  [screen_h3 0 (js "Ahorro:"); screen_li 1 (js "Reduce 3 horas")].
Proof. vm_compute. reflexivity. Qed.

(** ** Properties *)

(** C1. [formatRoiResult] is the shared classifier followed by the screen
    presentation, on the answer with its "**" removed: the [forEach] loop
    pushes exactly one element per kept line, at the line's position, and
    the [trim] of the whole text changes no line. *)
Theorem formatRoiResult_refines r :
  formatRoiResult r = render_report (strip_double_star r).
Proof. apply formatRoiResult_as_report. Qed.
