(* ===== verification/PdfFormat.v ===== *)
(** * The PDF container (CalculadoraROI.tsx, lines 274-359)

    When [roiResult] is set, the component renders a hidden [div] (the
    target of [pdfContentRef]) with a header, the answer formatted a second
    time, and a footer. The body (lines 286-346) repeats the classification
    of [formatRoiResult] on the answer as it came, without removing "**",
    and renders headings with the five marker glyphs removed by the
    regular expression [/[🙌📈💰⏰🎯]/g], written without the [u] flag.

    [pdf_body_as_report] says the body is the shared classifier followed by
    the PDF presentation; [formatters_agree] that the two formatters give
    the same blocks when the answer has no "**"; the two counterexamples
    show where they differ ("**" lines) and that the glyph removal cuts
    other emoji in half. *)

From stdpp Require Import strings.
From S2P Require Import Prelude JsString Jsx Classify ScreenFormat.

(** The code units of the class [[🙌📈💰⏰🎯]] read without the [u] flag:
    the surrogate halves of the four astral glyphs and U+23F0. *)
Definition pdf_marker_class : list N :=
  [55357; 56908; 55357; 56520; 55357; 56496; 9200; 55356; 57263]%N.

(** ** The four elements (lines 293-302, 309-317, 324-332, 338-344) *)

Definition pdf_h2 (index : nat) (t : jsstring) : node :=
  Elem "h2" (Some index)
    [Style [("fontSize", "24px"); ("fontWeight", "bold"); ("color", "#0891b2");
            ("textAlign", "center"); ("marginTop", "32px"); ("marginBottom", "24px")]]
    [Text t].

Definition pdf_h3 (index : nat) (t : jsstring) : node :=
  Elem "h3" (Some index)
    [Style [("fontSize", "18px"); ("fontWeight", "bold"); ("color", "#334155");
            ("marginTop", "24px"); ("marginBottom", "12px")]]
    [Text t].

Definition pdf_li (index : nat) (t : jsstring) : node :=
  Elem "div" (Some index)
    [Style [("marginLeft", "24px"); ("marginBottom", "8px"); ("display", "flex");
            ("alignItems", "flex-start")]]
    [Elem "span" None [Style [("color", "#0891b2"); ("marginRight", "8px"); ("fontSize", "18px")]]
       [Text [BULLET]];
     Elem "span" None [] [Text t]].

Definition pdf_p (index : nat) (t : jsstring) : node :=
  Elem "p" (Some index)
    [Style [("marginBottom", "16px"); ("textAlign", "justify"); ("fontSize", "16px")]]
    [Text t].

(** ** The callback of [.map((line, index) => ...)] (lines 286-346) *)

Definition pdf_line (line : jsstring) (index : nat) : node :=
  let trimmed := trim line in
  if has_marker trimmed then
    let cleanTitle := trim (remove_units pdf_marker_class trimmed) in
    pdf_h2 index cleanTitle
  else if is_subheading trimmed then pdf_h3 index trimmed
  else if is_list_item trimmed then pdf_li index (trim (substring trimmed 1))
  else pdf_p index trimmed.

(** [roiResult.split('\n').filter(line => line.trim()).map(...)] *)
Definition pdf_body (roiResult : jsstring) : list node :=
  imap (fun index line => pdf_line line index)
    (List.filter (fun line => str_truthy (trim line)) (split_on LF roiResult)).

(** ** Header, footer and container (lines 275-284, 349-358) *)

(** "ANÁLISIS ROI", "Setterless 360°", "Setterless 360° - Análisis ROI". *)
Definition title_text : jsstring := js "AN" ++ [193%N] ++ js "LISIS ROI".
Definition brand_text : jsstring := js "Setterless 360" ++ [176%N].
Definition footer_text : jsstring := brand_text ++ js " - An" ++ [225%N] ++ js "lisis ROI".

(** [date] is [new Date().toLocaleDateString('es-ES')], an input of the render. *)
Definition pdf_header (date : jsstring) : node :=
  Elem "div" None [ClassName "text-center mb-12"]
    [Elem "h1" None [Style [("fontSize", "32px"); ("fontWeight", "bold"); ("color", "#0891b2");
                            ("marginBottom", "8px")]] [Text title_text];
     Elem "h2" None [Style [("fontSize", "20px"); ("color", "#64748b");
                            ("marginBottom", "16px")]] [Text brand_text];
     Elem "div" None [Style [("width", "100%"); ("height", "2px"); ("backgroundColor", "#0891b2");
                             ("marginBottom", "16px")]] [];
     Elem "p" None [Style [("fontSize", "14px"); ("color", "#94a3b8")]]
       [Text (js "Generado el: "); Text date]].

Definition pdf_footer : node :=
  Elem "div" None [Style [("marginTop", "48px"); ("paddingTop", "16px");
                          ("borderTop", "1px solid #e2e8f0"); ("textAlign", "center")]]
    [Elem "p" None [Style [("fontSize", "12px"); ("color", "#94a3b8")]] [Text footer_text]].

Definition pdf_document (roiResult date : jsstring) : node :=
  Elem "div" None
    [ClassName "fixed -top-[9999px] left-0 w-[800px] bg-white p-12 min-h-screen";
     Style [("fontFamily", "Arial, sans-serif"); ("fontSize", "16px"); ("lineHeight", "1.6")]]
    [pdf_header date;
     Elem "div" None [Style [("color", "#1e293b"); ("lineHeight", "1.8")]] (pdf_body roiResult);
     pdf_footer].

(** ** The PDF presentation of a block *)

Definition pdf_view (index : nat) (b : Block) : node :=
  match b with
  | Heading t => pdf_h2 index (trim (remove_units pdf_marker_class t))
  | Subheading t => pdf_h3 index t
  | ListItem t => pdf_li index t
  | Paragraph t => pdf_p index t
  end.

#[local] Instance pdf_presentation : Presentation node := pdf_view.

(** ** Refinement of the shared classifier *)

Lemma pdf_line_classify line index :
  pdf_line line index = pdf_view index (classify (trim line)).
Proof.
  unfold pdf_line, classify.
  by destruct (has_marker (trim line)), (is_subheading (trim line)),
    (is_list_item (trim line)).
Qed.

Lemma render_report_pdf t :
  render_report t = imap (fun i l => pdf_view i (classify l)) (report_lines t).
Proof. unfold render_report, format_blocks. by rewrite imap_map. Qed.

Lemma pdf_body_as_report r : pdf_body r = render_report r.
Proof.
  rewrite render_report_pdf. unfold pdf_body, report_lines, nonblank_lines.
  rewrite imap_map. apply imap_ext. intros. apply pdf_line_classify.
Qed.

(** C8. On an answer without "**", the screen report and the PDF body are
    two presentations of the same list of blocks: same lines, same kinds,
    same order and keys. *)
Theorem formatters_agree r :
  includes r DSTAR = false ->
  formatRoiResult r = imap screen_view (format_blocks r) /\
  pdf_body r = imap pdf_view (format_blocks r).
Proof.
  intros H. rewrite formatRoiResult_as_report, strip_double_star_id, pdf_body_as_report by done.
  split; reflexivity.
Qed.

(** The element tags agree too. *)
Lemma formatters_agree_tags r :
  includes r DSTAR = false ->
  map node_tag (formatRoiResult r) = map node_tag (pdf_body r).
Proof.
  intros H. rewrite formatRoiResult_as_report, strip_double_star_id, pdf_body_as_report by done.
  unfold render_report. rewrite !map_imap. apply imap_ext. intros i b _. by destruct b.
Qed.

(** C26. A heading line is rendered in the PDF as an [h2] whose text is the
    line with every code unit of the marker class removed, then trimmed;
    no code unit of the class is left in it. *)
Theorem pdf_heading_title r i l :
  report_lines r !! i = Some l -> has_marker l = true ->
  pdf_body r !! i = Some (pdf_h2 i (trim (remove_units pdf_marker_class l))) /\
  (forall c, c ∈ trim (remove_units pdf_marker_class l) -> c ∉ pdf_marker_class).
Proof.
  intros Hl Hm. split.
  - rewrite pdf_body_as_report, render_report_pdf, list_lookup_imap, Hl. simpl.
    unfold classify. by rewrite Hm.
  - intros c Hc. apply trim_elem, remove_units_spec in Hc. tauto.
Qed.

(** ** Where the two formatters differ *)

(** A line alone in an answer is the one line of the report. *)
Lemma report_lines_single l : trim l = l -> l <> [] -> LF ∉ l -> report_lines l = [l].
Proof. intros. exact (report_lines_join_eq [l] ltac:(by repeat constructor)). Qed.

(** C25. A subheading written in markdown bold, "**t**" alone in the
    answer (t a line without '*' or a marker, ending in ':' or '?'), is
    an [h3] carrying t on screen, where "**" is removed first, but a list
    item in the PDF, which sees the leading '*' and keeps the rest of the
    line, "*t**". *)
Theorem formatters_diverge_on_bold (t : jsstring) :
  trim t = t -> t <> [] -> LF ∉ t -> STAR ∉ t -> has_marker t = false -> is_subheading t = true ->
  formatRoiResult (DSTAR ++ t ++ DSTAR) = [screen_h3 0 t] /\
  pdf_body (DSTAR ++ t ++ DSTAR) = [pdf_li 0 ([STAR] ++ t ++ DSTAR)].
Proof.
  intros Ht Hne Hlf Hs Hm Hsub. split.
  - rewrite formatRoiResult_as_report, strip_double_star_bold, render_report_screen,
      report_lines_single by done.
    simpl. unfold classify. by rewrite Hm, Hsub.
  - assert (EL : DSTAR ++ t ++ DSTAR = STAR :: (STAR :: t ++ [STAR]) ++ [STAR])
      by (cbn; by rewrite <- app_assoc).
    assert (Hl : report_lines (DSTAR ++ t ++ DSTAR) = [DSTAR ++ t ++ DSTAR]).
    { apply report_lines_single; [rewrite EL; by apply trim_ends_id|by destruct t|].
      rewrite EL. intros H. apply elem_of_cons in H as [H|H]; [discriminate H|].
      apply elem_of_app in H as [H|H%list_elem_of_singleton]; [|discriminate H].
      apply elem_of_cons in H as [H|H]; [discriminate H|].
      apply elem_of_app in H as [H|H%list_elem_of_singleton]; [done|discriminate H]. }
    assert (Hc : classify (DSTAR ++ t ++ DSTAR) = ListItem ([STAR] ++ t ++ DSTAR)).
    { unfold classify. rewrite has_marker_bold, Hm, EL, app_comm_cons, is_subheading_snoc by done.
      rewrite <- app_comm_cons.
      unfold list_item_text, substring. cbn [drop]. rewrite drop_0, <- app_comm_cons.
      rewrite (trim_ends_id STAR (t ++ [STAR])) by done.
      by rewrite <- app_assoc. }
    rewrite pdf_body_as_report, render_report_pdf, Hl. cbn [imap]. by rewrite Hc.
Qed.

(** 🚀 U+1F680, whose high surrogate U+D83D is also the high surrogate of
    three markers. *)
Definition ROCKET : jsstring := [55357; 56960]%N.

(** The class removal without the [u] flag cuts other emoji in half: a
    well-formed heading "🎯 Plan 🚀" is rendered in the PDF with a lone
    low surrogate U+DE80, which is not well-formed UTF-16. *)
Example pdf_heading_splits_surrogates :
  wf_utf16 (DIRECT_HIT ++ js " Plan " ++ ROCKET) = true /\
  pdf_body (DIRECT_HIT ++ js " Plan " ++ ROCKET) = [pdf_h2 0 (js "Plan " ++ [56960%N])] /\
  wf_utf16 (js "Plan " ++ [56960%N]) = false.
Proof. split_and!; vm_compute; reflexivity. Qed.

Definition TOTAL : jsstring := js "Total:".

Lemma formatters_diverge_on_bold_witness :
  trim TOTAL = TOTAL /\ TOTAL <> [] /\ LF ∉ TOTAL /\ STAR ∉ TOTAL /\
  has_marker TOTAL = false /\ is_subheading TOTAL = true /\
  (formatRoiResult (DSTAR ++ TOTAL ++ DSTAR) = [screen_h3 0 TOTAL] /\
   pdf_body (DSTAR ++ TOTAL ++ DSTAR) = [pdf_li 0 ([STAR] ++ TOTAL ++ DSTAR)]).
Proof.
  assert (H1 : trim TOTAL = TOTAL) by (vm_compute; reflexivity).
  assert (H2 : TOTAL <> []) by discriminate.
  assert (H3 : LF ∉ TOTAL) by (apply (bool_decide_unpack _); vm_compute; reflexivity).
  assert (H4 : STAR ∉ TOTAL) by (apply (bool_decide_unpack _); vm_compute; reflexivity).
  assert (H5 : has_marker TOTAL = false) by (vm_compute; reflexivity).
  assert (H6 : is_subheading TOTAL = true) by (vm_compute; reflexivity).
  exact (conj H1 (conj H2 (conj H3 (conj H4 (conj H5 (conj H6
           (formatters_diverge_on_bold TOTAL H1 H2 H3 H4 H5 H6))))))).
Defined.

Lemma pdf_heading_title_witness :
  report_lines (MONEY_BAG ++ js " Ahorro") !! 0 = Some (MONEY_BAG ++ js " Ahorro") /\
  has_marker (MONEY_BAG ++ js " Ahorro") = true /\
  pdf_body (MONEY_BAG ++ js " Ahorro") !! 0 =
    Some (pdf_h2 0 (trim (remove_units pdf_marker_class (MONEY_BAG ++ js " Ahorro")))) /\
  (forall c, c ∈ trim (remove_units pdf_marker_class (MONEY_BAG ++ js " Ahorro")) ->
             c ∉ pdf_marker_class).
Proof.
  assert (Hl : report_lines (MONEY_BAG ++ js " Ahorro") !! 0 = Some (MONEY_BAG ++ js " Ahorro"))
    by (vm_compute; reflexivity).
  assert (Hm : has_marker (MONEY_BAG ++ js " Ahorro") = true) by (vm_compute; reflexivity).
  destruct (pdf_heading_title _ 0 _ Hl Hm) as [H1 H2].
  split_and!; [exact Hl|exact Hm|exact H1|exact H2].
Defined.

(** ** Properties *)

(** C2. The PDF body is the shared classifier followed by the PDF
    presentation, on the answer as it came (no "**" removal). *)
Theorem pdf_body_refines r : pdf_body r = render_report r.
Proof. apply pdf_body_as_report. Qed.

Lemma formatters_agree_witness :
  includes spec_example DSTAR = false /\
  (formatRoiResult spec_example = imap screen_view (format_blocks spec_example) /\
   pdf_body spec_example = imap pdf_view (format_blocks spec_example)).
Proof.
  assert (H : includes spec_example DSTAR = false) by (vm_compute; reflexivity).
  split; [exact H|exact (formatters_agree _ H)].
Defined.
