(* ===== verification/FormState.v ===== *)
(** * The form: [FormData], JavaScript values and [handleInputChange]

    [FormData] (CalculadoraROI.tsx, lines 6-12) holds five fields typed
    [number | '']; [handleInputChange] (lines 130-137) stores
    [Number(value)] for an input of type "number" with a non-empty value,
    [''] for an empty one, and the raw string for any other input type, so
    a field holds a JavaScript number or a string. Numbers are rationals
    plus NaN: the component only stores, converts and tests them for
    truthiness. [js_Number] is ECMAScript's StringToNumber on decimal
    literals (the only ones a number input produces). *)

From stdpp Require Import strings.
From Stdlib Require Import QArith DecimalNat.
From S2P Require Import Prelude JsString.

(** ** JavaScript numbers and values *)

Inductive jsnum := JNum (q : Q) | JNaN.

(** ToBoolean of a number: 0, -0 and NaN are falsy. *)
Definition num_truthy (n : jsnum) : bool :=
  match n with JNum q => negb (Qeq_bool q 0) | JNaN => false end.

(** A form field holds a number or a string ([''] is [VStr []]). *)
Inductive fvalue := VNum (n : jsnum) | VStr (s : jsstring).

Definition truthy (v : fvalue) : bool :=
  match v with VNum n => num_truthy n | VStr s => str_truthy s end.

(** ** [Number(s)] on a string: StringToNumber for decimal literals

    StrDecimalLiteral ::= [+|-] (digits [. [digits]] | . digits) [(e|E) [+|-] digits],
    surrounded by white space; the empty (or blank) string is 0; anything
    else is NaN. Infinity and the 0x/0o/0b forms are not modelled: a
    number input never holds them. *)

Definition is_digit (c : N) : bool := ((48 <=? c) && (c <=? 57))%N.

(** Reads a run of digits into [acc]; returns the value, how many digits
    were read and the rest. *)
Fixpoint read_digits (s : jsstring) (acc : Z) (n : nat) : Z * nat * jsstring :=
  match s with
  | c :: r => if is_digit c then read_digits r (acc * 10 + Z.of_N (c - 48)) (S n)
              else (acc, n, s)
  | [] => (acc, n, [])
  end.

Definition read_sign (s : jsstring) : Z * jsstring :=
  match s with
  | c :: r => if (c =? 45)%N then (-1, r)%Z else if (c =? 43)%N then (1, r)%Z else (1, s)%Z
  | [] => (1%Z, [])
  end.

(** [m * 10^e] as a rational. *)
Definition scale (m e : Z) : Q :=
  if (0 <=? e)%Z then inject_Z (m * 10 ^ e) else Qmake m (Z.to_pos (10 ^ (- e))).

(** The exponent part: empty, or [e]/[E], a sign and at least one digit. *)
Definition read_exponent (s : jsstring) : option (Z * jsstring) :=
  match s with
  | c :: r =>
      if (c =? 101)%N || (c =? 69)%N then
        let '(sg, r1) := read_sign r in
        let '(e, k, r2) := read_digits r1 0 0 in
        if (k =? 0)%nat then None else Some (sg * e, r2)%Z
      else Some (0%Z, s)
  | [] => Some (0%Z, [])
  end.

Definition parse_decimal (s : jsstring) : option Q :=
  let '(sg, r0) := read_sign s in
  let '(ip, ni, r1) := read_digits r0 0 0 in
  let '(m, nf, r2) :=
    match r1 with
    | c :: r => if (c =? 46)%N then read_digits r ip 0 else (ip, 0, r1)
    | [] => (ip, 0, [])
    end in
  if (ni + nf =? 0)%nat then None
  else match read_exponent r2 with
       | Some (e, []) => Some (scale (sg * m) (e - Z.of_nat nf))
       | _ => None
       end.

Definition js_Number (s : jsstring) : jsnum :=
  let t := trim s in
  match t with
  | [] => JNum 0
  | _ => match parse_decimal t with Some q => JNum q | None => JNaN end
  end.

(** [String(n)] for a natural number: its decimal digits. *)
Fixpoint uint_units (d : Decimal.uint) : jsstring :=
  match d with
  | Decimal.Nil => []
  | Decimal.D0 d => 48%N :: uint_units d | Decimal.D1 d => 49%N :: uint_units d
  | Decimal.D2 d => 50%N :: uint_units d | Decimal.D3 d => 51%N :: uint_units d
  | Decimal.D4 d => 52%N :: uint_units d | Decimal.D5 d => 53%N :: uint_units d
  | Decimal.D6 d => 54%N :: uint_units d | Decimal.D7 d => 55%N :: uint_units d
  | Decimal.D8 d => 56%N :: uint_units d | Decimal.D9 d => 57%N :: uint_units d
  end.

Definition print_nat (n : nat) : jsstring := uint_units (Nat.to_uint n).

(** [Number(v)] on a field value. *)
Definition Number (v : fvalue) : jsnum :=
  match v with VNum n => n | VStr s => js_Number s end.

(** ** The form record (lines 6-12) and its initial value (lines 20-26) *)

Record FormData := mkForm {
  consultas : fvalue;
  consultasConversion : fvalue;
  oportunidadesPerdidas : fvalue;
  tiempoSemanal : fvalue;
  ticket : fvalue
}.

Definition empty_form : FormData := mkForm (VStr []) (VStr []) (VStr []) (VStr []) (VStr []).

(** The [name] attributes of the five inputs (lines 394, 415, 436, 457, 478). *)
Inductive field := FConsultas | FConsultasConversion | FOportunidadesPerdidas
                 | FTiempoSemanal | FTicket.

#[export] Instance field_eq_dec : EqDecision field.
Proof. solve_decision. Defined.

Definition get_field (f : FormData) (x : field) : fvalue :=
  match x with
  | FConsultas => consultas f
  | FConsultasConversion => consultasConversion f
  | FOportunidadesPerdidas => oportunidadesPerdidas f
  | FTiempoSemanal => tiempoSemanal f
  | FTicket => ticket f
  end.

(** [{ ...prev, [name]: v }] *)
Definition set_field (f : FormData) (x : field) (v : fvalue) : FormData :=
  match x with
  | FConsultas => mkForm v (consultasConversion f) (oportunidadesPerdidas f) (tiempoSemanal f) (ticket f)
  | FConsultasConversion => mkForm (consultas f) v (oportunidadesPerdidas f) (tiempoSemanal f) (ticket f)
  | FOportunidadesPerdidas => mkForm (consultas f) (consultasConversion f) v (tiempoSemanal f) (ticket f)
  | FTiempoSemanal => mkForm (consultas f) (consultasConversion f) (oportunidadesPerdidas f) v (ticket f)
  | FTicket => mkForm (consultas f) (consultasConversion f) (oportunidadesPerdidas f) (tiempoSemanal f) v
  end.

(** ** [handleInputChange] (lines 130-137) *)

(** [e.target]: its [name], [value] and [type]; every input of the form
    has type "number", [IOther] is the code's other branch. *)
Inductive input_type := INumber | IOther.

Record change_event := mkChange { ev_name : field; ev_value : jsstring; ev_type : input_type }.

Definition handleInputChange (e : change_event) (prev : FormData) : FormData :=
  set_field prev (ev_name e)
    (match ev_type e with
     | INumber => match ev_value e with [] => VStr [] | v => VNum (js_Number v) end
     | IOther => VStr (ev_value e)
     end).

(** ** Lemmas *)

Lemma read_digits_units d acc k :
  read_digits (uint_units d) (Z.of_nat acc) k =
  (Z.of_nat (Nat.of_uint_acc d acc), (k + length (uint_units d))%nat, []).
Proof.
  revert acc k. induction d as [|d IH|d IH|d IH|d IH|d IH|d IH|d IH|d IH|d IH|d IH];
    intros acc k; [by rewrite Nat.add_0_r|..]; simpl;
  match goal with
  | |- read_digits _ ?a (S k) = (Z.of_nat (Nat.of_uint_acc _ ?b), _, _) =>
      replace a with (Z.of_nat b) by (rewrite Nat.tail_mul_spec; lia)
  end; rewrite IH; do 2 f_equal; lia.
Qed.

Lemma uint_units_no_ws d : Forall (fun c => is_ws c = false) (uint_units d).
Proof. induction d; simpl; by repeat constructor. Qed.

Lemma print_nat_nonempty n : print_nat n <> [].
Proof.
  unfold print_nat. intros H. destruct (Nat.to_uint n) eqn:E; try discriminate.
  pose proof (DecimalNat.Unsigned.of_to n) as Hn. rewrite E in Hn.
  simpl in Hn. subst n. discriminate.
Qed.

Lemma trim_no_ws s : Forall (fun c => is_ws c = false) s -> trim s = s.
Proof.
  intros H. unfold trim, trim_end.
  destruct s as [|c r]; [done|]. inversion H; subst.
  rewrite (trim_start_id (c :: r)) by done.
  rewrite (trim_start_id (rev (c :: r))); [apply rev_involutive|].
  apply Forall_rev in H. destruct (rev (c :: r)) as [|d l]; [done|].
  by inversion H.
Qed.

Lemma read_sign_units d : read_sign (uint_units d) = (1%Z, uint_units d).
Proof. by destruct d. Qed.

Lemma get_set_field_eq f x v : get_field (set_field f x v) x = v.
Proof. by destruct x. Qed.

Lemma get_set_field_ne f x y v : y <> x -> get_field (set_field f x v) y = get_field f y.
Proof. intros H. destruct x, y; done. Qed.

Lemma js_Number_print_nat_eq n : js_Number (print_nat n) = JNum (inject_Z (Z.of_nat n)).
Proof.
  unfold js_Number. rewrite trim_no_ws by apply uint_units_no_ws.
  pose proof (print_nat_nonempty n) as Hne.
  destruct (print_nat n) as [|c r] eqn:E; [done|]. rewrite <- E.
  unfold parse_decimal, print_nat. rewrite read_sign_units.
  change 0%Z with (Z.of_nat 0). rewrite read_digits_units.
  change (Nat.of_uint_acc (Nat.to_uint n) 0) with (Nat.of_uint (Nat.to_uint n)).
  rewrite DecimalNat.Unsigned.of_to. unfold print_nat in E. rewrite E. simpl.
  unfold scale. simpl. by rewrite Z.mul_1_r, Z.mul_1_l.
Qed.

(** ** Properties *)

(** C12. [handleInputChange] on a number input: the named field becomes
    [Number(value)] for a non-empty value and [''] (not provided) for an
    empty one; every other field keeps its value. *)
Theorem handleInputChange_number (f : FormData) (x : field) (v : jsstring) :
  (forall y, y <> x -> get_field (handleInputChange (mkChange x v INumber) f) y = get_field f y) /\
  get_field (handleInputChange (mkChange x v INumber) f) x =
    (if str_truthy v then VNum (js_Number v) else VStr []).
Proof.
  unfold handleInputChange. simpl. split.
  - intros y Hy. by apply get_set_field_ne.
  - rewrite get_set_field_eq. by destruct v.
Qed.

(** Round trip of [Number] and [String] on naturals: the decimal digits
    of [n], read back by [Number], give [n]. *)
Theorem number_string_roundtrip (n : nat) :
  js_Number (print_nat n) = JNum (inject_Z (Z.of_nat n)).
Proof. apply js_Number_print_nat_eq. Qed.
