(* ===== verification/Submit.v ===== *)
(** * [handleSubmit] (CalculadoraROI.tsx, lines 139-208)

    The component's state is four React hooks (lines 20-30): the form,
    [isLoading], [message] and [roiResult]; [State] holds them, and each
    [setX] call of the handler is a state update, applied in the order
    the code issues them. The handler runs in two parts, separated by its
    only suspension point, [await fetch(...)]:

    - [submit_start] (lines 140-171): loading on, message and result
      cleared, validation of the two mandatory fields (a falsy value is
      refused), and, when it passes, the request body [dataToSend];
    - [submit_finish] (lines 173-207): on [response.ok], the text is read,
      [JSON.parse] is tried and [jsonResult.response || result] is stored;
      otherwise (non-ok status, or a rejected promise) the error message.

    The network and [JSON.parse] are outside the component: a [response]
    carries the status, the body text and what [JSON.parse] made of it. *)

From stdpp Require Import strings.
From Stdlib Require Import QArith.
From S2P Require Import Prelude JsString FormState.

(** ** JSON values and property reads *)

Inductive json :=
| JsonNull
| JsonBool (b : bool)
| JsonNum (q : Q)
| JsonStr (s : jsstring)
| JsonArr (xs : list json)
| JsonObj (kvs : list (jsstring * json)).

(** ToBoolean of a value produced by [JSON.parse]. *)
Definition json_truthy (v : json) : bool :=
  match v with
  | JsonNull => false
  | JsonBool b => b
  | JsonNum q => negb (Qeq_bool q 0)
  | JsonStr s => str_truthy s
  | JsonArr _ | JsonObj _ => true
  end.

(** [JSON.parse] keeps the last of duplicate keys. *)
Definition lookup_key (k : jsstring) (kvs : list (jsstring * json)) : option json :=
  fold_left (fun acc kv => if bool_decide (kv.1 = k) then Some kv.2 else acc) kvs None.

(** [v.response]: a value, [undefined], or a TypeError when [v] is null. *)
Inductive prop_read := PValue (v : json) | PUndefined | PTypeError.

Definition get_prop (v : json) (k : jsstring) : prop_read :=
  match v with
  | JsonNull => PTypeError
  | JsonObj kvs => match lookup_key k kvs with Some x => PValue x | None => PUndefined end
  | _ => PUndefined
  end.

Definition RESPONSE_KEY : jsstring := js "response".

(** Lines 176-182: [parsedResult = JSON.parse(result).response || result],
    with the raw text when [JSON.parse] or the property read throws. *)
Definition parse_result (parsed : option json) (result : jsstring) : json :=
  match parsed with
  | None => JsonStr result
  | Some v =>
      match get_prop v RESPONSE_KEY with
      | PValue r => if json_truthy r then r else JsonStr result
      | PUndefined | PTypeError => JsonStr result
      end
  end.

(** ** The component state (lines 20-30) and its setters *)

Inductive msg_kind := MsgSuccess | MsgError.

Record Message := mkMsg { msg_text : jsstring; msg_type : msg_kind }.

Record State := mkState {
  formData : FormData;
  isLoading : bool;
  message : option Message;
  roiResult : option json
}.

Definition initial_state : State := mkState empty_form false None None.

Definition setFormData (f : FormData) (s : State) : State :=
  mkState f (isLoading s) (message s) (roiResult s).
Definition setIsLoading (b : bool) (s : State) : State :=
  mkState (formData s) b (message s) (roiResult s).
Definition setMessage (m : option Message) (s : State) : State :=
  mkState (formData s) (isLoading s) m (roiResult s).
Definition setRoiResult (r : option json) (s : State) : State :=
  mkState (formData s) (isLoading s) (message s) r.

Definition validation_message : Message :=
  mkMsg (js "Por favor completa todos los campos obligatorios") MsgError.
(** "¡Cálculo completado exitosamente!" *)
Definition success_message : Message :=
  mkMsg ([161%N] ++ js "C" ++ [225%N] ++ js "lculo completado exitosamente!") MsgSuccess.
Definition error_message : Message :=
  mkMsg (js "Error al procesar los datos. Por favor intenta de nuevo.") MsgError.

(** ** The request body (lines 157-163) *)

Record RequestBody := mkBody {
  b_consultas : jsnum;
  b_consultasConversion : option jsnum;
  b_oportunidadesPerdidas : jsnum;
  b_tiempoSemanal : option jsnum;
  b_ticket : option jsnum
}.

(** [x ? Number(x) : null] *)
Definition optional_number (v : fvalue) : option jsnum :=
  if truthy v then Some (Number v) else None.

Definition dataToSend (f : FormData) : RequestBody :=
  mkBody (Number (consultas f)) (optional_number (consultasConversion f))
    (Number (oportunidadesPerdidas f)) (optional_number (tiempoSemanal f))
    (optional_number (ticket f)).

(** [JSON.stringify(dataToSend)] as a JSON object (NaN is written null). *)
Definition num_json (n : jsnum) : json :=
  match n with JNum q => JsonNum q | JNaN => JsonNull end.

Definition opt_json (o : option jsnum) : json :=
  match o with Some n => num_json n | None => JsonNull end.

Definition body_json (b : RequestBody) : json :=
  JsonObj [(js "consultas", num_json (b_consultas b));
           (js "consultasConversion", opt_json (b_consultasConversion b));
           (js "oportunidadesPerdidas", num_json (b_oportunidadesPerdidas b));
           (js "tiempoSemanal", opt_json (b_tiempoSemanal b));
           (js "ticket", opt_json (b_ticket b))].

(** ** The handler *)

(** Line 147: [!formData.consultas || !formData.oportunidadesPerdidas]. *)
Definition validation_fails (f : FormData) : bool :=
  negb (truthy (consultas f)) || negb (truthy (oportunidadesPerdidas f)).

(** Lines 141-171, up to the [await]: the new state and the request sent. *)
Definition submit_start (s : State) : State * option RequestBody :=
  let s := setRoiResult None (setMessage None (setIsLoading true s)) in
  if validation_fails (formData s) then
    (setIsLoading false (setIsLoading false (setMessage (Some validation_message) s)), None)
  else (s, Some (dataToSend (formData s))).

(** What the awaited calls give back: [response.ok] with the text of the
    body and the outcome of [JSON.parse] on it ([None] when it throws), a
    non-ok status, or a rejected [fetch] / [response.text()]. *)
Inductive response :=
| ROk (body : jsstring) (parsed : option json)
| RNotOk
| RRejected.

(** Lines 173-207, after the [await]; the [finally] clears [isLoading]. *)
Definition submit_finish (r : response) (s : State) : State :=
  match r with
  | ROk body parsed =>
      setIsLoading false
        (setFormData empty_form
           (setMessage (Some success_message)
              (setRoiResult (Some (parse_result parsed body)) s)))
  | RNotOk | RRejected => setIsLoading false (setMessage (Some error_message) s)
  end.

(** ** Lemmas *)

Lemma submit_start_refused s :
  validation_fails (formData s) = true ->
  submit_start s = (mkState (formData s) false (Some validation_message) None, None).
Proof. intros H. unfold submit_start. simpl. by rewrite H. Qed.

Lemma submit_start_sent s :
  validation_fails (formData s) = false ->
  submit_start s = (mkState (formData s) true None None, Some (dataToSend (formData s))).
Proof. intros H. unfold submit_start. simpl. by rewrite H. Qed.

Lemma validation_fails_iff f :
  validation_fails f = false <-> truthy (consultas f) = true /\ truthy (oportunidadesPerdidas f) = true.
Proof. unfold validation_fails. rewrite orb_false_iff, !negb_false_iff. done. Qed.

Lemma optional_number_None v : optional_number v = None <-> truthy v = false.
Proof. unfold optional_number. destruct (truthy v); split; congruence. Qed.

Lemma lookup_key_snoc k kvs v : lookup_key k (kvs ++ [(k, v)]) = Some v.
Proof. unfold lookup_key. rewrite fold_left_app. simpl. by rewrite bool_decide_eq_true_2. Qed.

(** ** Properties *)

(** C6. The submit handler refuses exactly when a mandatory field is
    falsy and sends exactly when both are truthy: when [consultas] or
    [oportunidadesPerdidas] is falsy it shows the validation message,
    turns loading off, clears the previous result and keeps the form;
    when both are truthy loading is on, message and result are cleared
    and the body built from the form is sent. *)
Theorem submit_start_validation (s : State) :
  ((truthy (consultas (formData s)) = false \/ truthy (oportunidadesPerdidas (formData s)) = false) ->
   submit_start s = (mkState (formData s) false (Some validation_message) None, None)) /\
  (truthy (consultas (formData s)) = true -> truthy (oportunidadesPerdidas (formData s)) = true ->
   submit_start s = (mkState (formData s) true None None, Some (dataToSend (formData s)))).
Proof.
  split.
  - intros H. apply submit_start_refused. unfold validation_fails.
    destruct H as [-> | ->]; [done|apply orb_true_r].
  - intros Hc Ho. by apply submit_start_sent, validation_fails_iff.
Qed.


(** C29. The request body field by field: the mandatory fields are sent as
    [Number] of their own value; each optional field is sent as [null]
    when it is falsy (empty, 0 or NaN) and as [Number] of its own value
    when it is truthy. *)
Theorem dataToSend_fields (f : FormData) :
  b_consultas (dataToSend f) = Number (consultas f) /\
  b_oportunidadesPerdidas (dataToSend f) = Number (oportunidadesPerdidas f) /\
  (truthy (consultasConversion f) = false -> b_consultasConversion (dataToSend f) = None) /\
  (truthy (consultasConversion f) = true ->
     b_consultasConversion (dataToSend f) = Some (Number (consultasConversion f))) /\
  (truthy (tiempoSemanal f) = false -> b_tiempoSemanal (dataToSend f) = None) /\
  (truthy (tiempoSemanal f) = true -> b_tiempoSemanal (dataToSend f) = Some (Number (tiempoSemanal f))) /\
  (truthy (ticket f) = false -> b_ticket (dataToSend f) = None) /\
  (truthy (ticket f) = true -> b_ticket (dataToSend f) = Some (Number (ticket f))).
Proof. unfold dataToSend, optional_number. simpl. split_and!; try done; intros ->; done. Qed.

(** The spec's submission property: with only the two mandatory fields
    filled, the request body carries their numbers and [null] for the three
    others. *)
Theorem submit_mandatory_only (s : State) (c o : jsnum) :
  formData s = mkForm (VNum c) (VStr []) (VNum o) (VStr []) (VStr []) ->
  num_truthy c = true -> num_truthy o = true ->
  snd (submit_start s) = Some (mkBody c None o None None) /\
  body_json (mkBody c None o None None) =
    JsonObj [(js "consultas", num_json c); (js "consultasConversion", JsonNull);
             (js "oportunidadesPerdidas", num_json o); (js "tiempoSemanal", JsonNull);
             (js "ticket", JsonNull)].
Proof.
  intros Hf Hc Ho. split; [|done].
  rewrite submit_start_sent; [by rewrite Hf|].
  apply validation_fails_iff. by rewrite Hf.
Qed.

(** C10. On a non-ok status or a rejected request the handler shows the
    error message and turns loading off; the entered fields and the
    (cleared) result are kept. *)
Theorem submit_finish_failure (s : State) (r : response) :
  r = RNotOk \/ r = RRejected ->
  submit_finish r s = mkState (formData s) false (Some error_message) (roiResult s).
Proof. by intros [-> | ->]. Qed.

(** C11. On success the handler stores the interpreted answer, shows the
    success message, clears the form and turns loading off. *)
Theorem submit_finish_success (s : State) (body : jsstring) (parsed : option json) :
  submit_finish (ROk body parsed) s =
  mkState empty_form false (Some success_message) (Some (parse_result parsed body)).
Proof. reflexivity. Qed.

(** C30. The stored answer is the raw text unless [JSON.parse] gives an
    object whose (last) "response" key holds a truthy value, which is then
    stored as it is, whatever its type. *)
Theorem parse_result_cases (parsed : option json) (body : jsstring) :
  ((forall kvs, parsed <> Some (JsonObj kvs)) -> parse_result parsed body = JsonStr body) /\
  (forall kvs r, parsed = Some (JsonObj kvs) -> lookup_key RESPONSE_KEY kvs = Some r ->
     json_truthy r = true -> parse_result parsed body = r) /\
  (forall kvs, parsed = Some (JsonObj kvs) ->
     (forall r, lookup_key RESPONSE_KEY kvs = Some r -> json_truthy r = false) ->
     parse_result parsed body = JsonStr body).
Proof.
  split_and!.
  - intros H. destruct parsed as [v|]; [|done].
    destruct v; simpl; try done. by destruct (H kvs).
  - intros kvs r -> Hk Hr. simpl. by rewrite Hk, Hr.
  - intros kvs -> Hk. simpl. destruct (lookup_key RESPONSE_KEY kvs) as [r|] eqn:E; [|done].
    by rewrite (Hk r eq_refl).
Qed.

(** The body text {"response":""} (34 is the double quote). *)
Definition empty_response_body : jsstring :=
  js "{" ++ [34%N] ++ RESPONSE_KEY ++ [34%N] ++ js ":" ++ [34%N; 34%N] ++ js "}".

(** An answer whose "response" field is the empty string is shown as
    the raw JSON text of the whole body, braces and key included. *)
Example empty_response_field_shows_json :
  parse_result (Some (JsonObj [(RESPONSE_KEY, JsonStr [])])) empty_response_body =
  JsonStr empty_response_body.
Proof. reflexivity. Qed.

(** The user types "0" in the first field and "6" in the third. *)
Definition zero_consultas_state : State :=
  setFormData
    (handleInputChange (mkChange FOportunidadesPerdidas (js "6") INumber)
       (handleInputChange (mkChange FConsultas (js "0") INumber) empty_form))
    initial_state.


Definition mandatory_only_state : State :=
  setFormData (mkForm (VNum (JNum 100)) (VStr []) (VNum (JNum 6)) (VStr []) (VStr []))
    initial_state.

Lemma submit_mandatory_only_witness :
  formData mandatory_only_state = mkForm (VNum (JNum 100)) (VStr []) (VNum (JNum 6)) (VStr []) (VStr []) /\
  num_truthy (JNum 100) = true /\ num_truthy (JNum 6) = true /\
  snd (submit_start mandatory_only_state) = Some (mkBody (JNum 100) None (JNum 6) None None) /\
  body_json (mkBody (JNum 100) None (JNum 6) None None) =
    JsonObj [(js "consultas", num_json (JNum 100)); (js "consultasConversion", JsonNull);
             (js "oportunidadesPerdidas", num_json (JNum 6)); (js "tiempoSemanal", JsonNull);
             (js "ticket", JsonNull)].
Proof.
  assert (Hf : formData mandatory_only_state =
    mkForm (VNum (JNum 100)) (VStr []) (VNum (JNum 6)) (VStr []) (VStr [])) by reflexivity.
  assert (Hc : num_truthy (JNum 100) = true) by reflexivity.
  assert (Ho : num_truthy (JNum 6) = true) by reflexivity.
  destruct (submit_mandatory_only _ _ _ Hf Hc Ho) as [H1 H2].
  split_and!; [exact Hf|exact Hc|exact Ho|exact H1|exact H2].
Defined.

Lemma submit_finish_failure_witness :
  (RNotOk = RNotOk \/ RNotOk = RRejected) /\
  submit_finish RNotOk mandatory_only_state =
    mkState (formData mandatory_only_state) false (Some error_message) (roiResult mandatory_only_state).
Proof.
  assert (H : RNotOk = RNotOk \/ RNotOk = RRejected) by (left; reflexivity).
  split; [exact H|exact (submit_finish_failure _ _ H)].
Defined.

Lemma submit_start_validation_witness :
  (truthy (consultas (formData zero_consultas_state)) = false \/
   truthy (oportunidadesPerdidas (formData zero_consultas_state)) = false) /\
  submit_start zero_consultas_state =
    (mkState (formData zero_consultas_state) false (Some validation_message) None, None) /\
  truthy (consultas (formData mandatory_only_state)) = true /\
  truthy (oportunidadesPerdidas (formData mandatory_only_state)) = true /\
  submit_start mandatory_only_state =
    (mkState (formData mandatory_only_state) true None None,
     Some (dataToSend (formData mandatory_only_state))).
Proof.
  assert (H1 : truthy (consultas (formData zero_consultas_state)) = false \/
               truthy (oportunidadesPerdidas (formData zero_consultas_state)) = false)
    by (left; vm_compute; reflexivity).
  assert (H2 : truthy (consultas (formData mandatory_only_state)) = true) by (vm_compute; reflexivity).
  assert (H3 : truthy (oportunidadesPerdidas (formData mandatory_only_state)) = true)
    by (vm_compute; reflexivity).
  split_and!; [exact H1|exact (proj1 (submit_start_validation _) H1)|exact H2|exact H3|].
  exact (proj2 (submit_start_validation _) H2 H3).
Defined.
