(* ===== verification/FormView.v ===== *)
(** * The form markup and the browser's number inputs (CalculadoraROI.tsx, lines 361-527)

    The form has five [<input type="number">] elements (lines 385-483),
    each with a [name] that [handleInputChange] uses as the key of
    [FormData], [min="0"], a [step] on two of them, and [required] on
    the two mandatory ones. The browser, not the component, does two
    things with these attributes, which the component relies on:

    - value sanitization: the [value] a number input reports (and passes
      to [onChange]) is the text typed when it is a valid floating-point
      number (HTML, 2.3.4.3) and the empty string otherwise;
    - constraint validation: a submission is blocked, and [onSubmit] never
      runs, when a required input is empty, a value is below [min], is not
      a whole number of [step]s above [min], or the input is a bad input
      (text typed that is not a number).

    This file holds the markup as data ([form_inputs]), those two browser
    algorithms, and the elements of the form card: the inputs, the message
    box (lines 490-498) and the submit button (lines 500-520). Numbers are
    exact rationals, as in [FormState]: the rounding of doubles is not
    modelled. *)

From stdpp Require Import strings.
From Stdlib Require Import QArith.
From S2P Require Import Prelude JsString Jsx FormState Submit.

(** ** The [name] attributes and the keys of [FormData] *)

Definition field_name (x : field) : jsstring :=
  match x with
  | FConsultas => js "consultas"
  | FConsultasConversion => js "consultasConversion"
  | FOportunidadesPerdidas => js "oportunidadesPerdidas"
  | FTiempoSemanal => js "tiempoSemanal"
  | FTicket => js "ticket"
  end.

(** [{ ...prev, [name]: ... }] updates the key spelled [name]: the field
    of that name, when there is one. *)
Definition field_of_name (n : jsstring) : option field :=
  if decide (n = js "consultas") then Some FConsultas
  else if decide (n = js "consultasConversion") then Some FConsultasConversion
  else if decide (n = js "oportunidadesPerdidas") then Some FOportunidadesPerdidas
  else if decide (n = js "tiempoSemanal") then Some FTiempoSemanal
  else if decide (n = js "ticket") then Some FTicket
  else None.

(** ** Valid floating-point numbers (HTML 2.3.4.3)

    An optional '-', then digits, or digits '.' digits, or '.' digits,
    then optionally 'e' or 'E', an optional sign and digits. Unlike
    [Number], no '+' in front, no white space, no "1." and no empty
    string. *)

Definition exp_ok (r : jsstring) : bool :=
  match read_exponent r with Some (_, []) => true | _ => false end.

Definition valid_float (s : jsstring) : bool :=
  let r0 := match s with c :: r => if (c =? 45)%N then r else s | [] => [] end in
  let '(_, ni, r1) := read_digits r0 0 0 in
  match r1 with
  | c :: r =>
      if (c =? 46)%N then let '(_, nf, r2) := read_digits r 0 0 in (0 <? nf)%nat && exp_ok r2
      else (0 <? ni)%nat && exp_ok r1
  | [] => (0 <? ni)%nat
  end.

(** The value sanitization algorithm of [<input type="number">]. *)
Definition sanitize (raw : jsstring) : jsstring := if valid_float raw then raw else [].

(** [validity.badInput]: something was typed that is not a number. *)
Definition badInput (raw : jsstring) : bool := str_truthy raw && negb (valid_float raw).

(** The code units a valid floating-point number is made of. *)
Definition float_char (c : N) : bool :=
  is_digit c || (c =? 45)%N || (c =? 43)%N || (c =? 46)%N || (c =? 101)%N || (c =? 69)%N.

(** ** Lemmas on the recogniser *)

Lemma read_digits_indep s a b k :
  (read_digits s a k).1.2 = (read_digits s b k).1.2 /\
  (read_digits s a k).2 = (read_digits s b k).2.
Proof.
  revert a b k. induction s as [|c s IH]; intros a b k; simpl; [done|].
  destruct (is_digit c); [apply IH|done].
Qed.

Lemma read_digits_chars s a k :
  exists d, s = d ++ (read_digits s a k).2 /\ Forall (fun c => float_char c = true) d.
Proof.
  revert a k. induction s as [|c s IH]; intros a k; simpl; [by exists []|].
  destruct (is_digit c) eqn:D; [|by exists []].
  destruct (IH (a * 10 + Z.of_N (c - 48))%Z (S k)) as (d & Hd & Hf).
  exists (c :: d). split; [by rewrite <- app_comm_cons, <- Hd|].
  constructor; [|done]. unfold float_char. by rewrite D.
Qed.

Lemma read_exponent_chars r e :
  read_exponent r = Some (e, []) -> Forall (fun c => float_char c = true) r.
Proof.
  destruct r as [|c r]; [done|]. simpl.
  destruct ((c =? 101)%N || (c =? 69)%N) eqn:Ec; [|congruence].
  destruct (read_sign r) as [sg r1] eqn:Es.
  destruct (read_digits r1 0 0) as [[v k] r2] eqn:Ed.
  destruct (k =? 0)%nat; [done|]. intros [= _ ->].
  constructor; [unfold float_char; apply orb_true_iff in Ec as [-> | ->];
                rewrite ?orb_true_r; done|].
  destruct (read_digits_chars r1 0 0) as (d & Hd & Hf). rewrite Ed in Hd. simpl in Hd.
  rewrite app_nil_r in Hd. subst r1.
  destruct r as [|c' r]; simpl in Es; [by injection Es as _ <-|].
  destruct (c' =? 45)%N eqn:E1; [injection Es as _ <-; constructor; [|done];
    unfold float_char; by rewrite E1, ?orb_true_r|].
  destruct (c' =? 43)%N eqn:E2; injection Es as _ <-; [|done].
  constructor; [|done]. unfold float_char. by rewrite E2, ?orb_true_r.
Qed.

Lemma float_char_not_ws c : float_char c = true -> is_ws c = false.
Proof.
  intros H. destruct (is_ws c) eqn:E; [exfalso|done].
  unfold is_ws in E. apply orb_true_iff in E as [E|E].
  - apply existsb_exists in E as (u & Hu & Eu). apply N.eqb_eq in Eu. subst u.
    unfold ws_units in Hu. simpl in Hu.
    repeat (destruct Hu as [<-|Hu]; [vm_compute in H; discriminate|]). done.
  - apply andb_true_iff in E as [E1 E2]. apply N.leb_le in E1, E2.
    unfold float_char, is_digit in H.
    repeat match goal with
           | H : _ || _ = true |- _ => apply orb_true_iff in H as [H|H]
           end;
    first [apply andb_true_iff in H as [H1 H2]; apply N.leb_le in H1, H2; lia
          |apply N.eqb_eq in H; lia].
Qed.

Lemma valid_float_sign s :
  valid_float s = true ->
  exists sg, read_sign s = (sg, match s with c :: r => if (c =? 45)%N then r else s | [] => [] end) /\
             Forall (fun c => float_char c = true)
               (take (length s - length (match s with c :: r => if (c =? 45)%N then r else s | [] => [] end)) s).
Proof.
  destruct s as [|c r]; [done|]. simpl.
  destruct (c =? 45)%N eqn:E1.
  - intros _. exists (-1)%Z. split; [done|].
    replace (S (length r) - length r) with 1 by lia. simpl.
    constructor; [|done]. unfold float_char. by rewrite E1, ?orb_true_r.
  - destruct (c =? 43)%N eqn:E2.
    + apply N.eqb_eq in E2. subst c. vm_compute. done.
    + intros _. exists 1%Z. split; [done|]. by rewrite Nat.sub_diag.
Qed.

Lemma valid_float_spec s :
  valid_float s = true ->
  s <> [] /\ Forall (fun c => float_char c = true) s /\ exists q, parse_decimal s = Some q.
Proof.
  intros Hv. assert (Hne : s <> []) by (by intros ->).
  destruct (valid_float_sign s Hv) as (sg & Hsg & Hpre).
  unfold valid_float, parse_decimal in *. rewrite Hsg.
  set (r0 := match s with c :: r => if (c =? 45)%N then r else s | [] => [] end) in *.
  assert (Hs : s = take (length s - length r0) s ++ r0).
  { subst r0. destruct s as [|c r]; [done|]. simpl. destruct (c =? 45)%N; simpl.
    - by replace (S (length r) - length r) with 1 by lia.
    - by rewrite Nat.sub_diag. }
  destruct (read_digits_chars r0 0 0) as (d1 & Hd1 & Hf1).
  destruct (read_digits r0 0 0) as [[ip ni] r1] eqn:E1. simpl in Hd1.
  assert (Hall : Forall (fun c => float_char c = true) r1 -> Forall (fun c => float_char c = true) s).
  { intros Hr1. rewrite Hs. apply Forall_app; split; [done|]. rewrite Hd1. by apply Forall_app. }
  destruct r1 as [|c r].
  - apply Nat.ltb_lt in Hv. split_and!; [done|by apply Hall|].
    rewrite Nat.add_0_r. destruct (ni =? 0)%nat eqn:En; [apply Nat.eqb_eq in En; lia|]. by eexists.
  - destruct (c =? 46)%N eqn:Ed.
    + destruct (read_digits r 0 0) as [[v nf] r2] eqn:E2.
      destruct (read_digits_indep r ip 0 0) as [I1 I2]. rewrite E2 in I1, I2. simpl in I1, I2.
      destruct (read_digits r ip 0) as [[m nf'] r2'] eqn:E3. simpl in I1, I2. subst nf' r2'.
      apply andb_true_iff in Hv as [Hn He]. apply Nat.ltb_lt in Hn.
      unfold exp_ok in He. destruct (read_exponent r2) as [[e [|x y]]|] eqn:Ee; try done.
      split_and!.
      * done.
      * apply Hall. constructor; [unfold float_char; by rewrite Ed, ?orb_true_r|].
        destruct (read_digits_chars r 0 0) as (d2 & Hd2 & Hf2). rewrite E2 in Hd2. simpl in Hd2.
        rewrite Hd2. apply Forall_app; split; [done|]. by apply (read_exponent_chars _ e).
      * destruct (ni + nf =? 0)%nat eqn:En; [apply Nat.eqb_eq in En; lia|]. by eexists.
    + apply andb_true_iff in Hv as [Hn He]. apply Nat.ltb_lt in Hn.
      unfold exp_ok in He. destruct (read_exponent (c :: r)) as [[e [|x y]]|] eqn:Ee; try done.
      split_and!.
      * done.
      * apply Hall. by apply (read_exponent_chars _ e).
      * rewrite Nat.add_0_r. destruct (ni =? 0)%nat eqn:En; [apply Nat.eqb_eq in En; lia|].
        by eexists.
Qed.

(** [Number(v)] on a sanitized value: the number it denotes, never NaN. *)
Lemma js_Number_valid s :
  valid_float s = true -> exists q, js_Number s = JNum q /\ parse_decimal s = Some q.
Proof.
  intros Hv. destruct (valid_float_spec s Hv) as (Hne & Hf & q & Hq).
  exists q. split; [|done]. unfold js_Number.
  rewrite trim_no_ws by (eapply Forall_impl; [exact Hf|exact float_char_not_ws]).
  destruct s; [done|]. by rewrite Hq.
Qed.

(** ** The five inputs (lines 386-483), as data *)

Record input_spec := mkInput {
  in_field : field;
  in_label : jsstring;
  in_required : bool;
  in_min : jsstring;
  in_step : option jsstring;
  in_placeholder : jsstring
}.

(** "Número de consultas mensuales? *", "Cuántas de estas consultas se
    convierten en visitas reales?", "¿Cuántas oportunidades crees que se
    pierden por no responder a tiempo o por falta de seguimiento? *",
    "¿Cuánto tiempo dedicas tú o tu equipo a responder consultas cada
    semana? (en horas)", "Ticket promedio por cliente (USD)". *)
Definition consultas_input : input_spec :=
  mkInput FConsultas (js "N" ++ [250%N] ++ js "mero de consultas mensuales? *")
    true (js "0") None (js "Ej: 100").
Definition consultasConversion_input : input_spec :=
  mkInput FConsultasConversion
    (js "Cu" ++ [225%N] ++ js "ntas de estas consultas se convierten en visitas reales?")
    false (js "0") None (js "Ej: 10").
Definition oportunidadesPerdidas_input : input_spec :=
  mkInput FOportunidadesPerdidas
    ([191%N] ++ js "Cu" ++ [225%N] ++ js "ntas oportunidades crees que se pierden por no responder a tiempo o por falta de seguimiento? *")
    true (js "0") None (js "Ej: 6").
Definition tiempoSemanal_input : input_spec :=
  mkInput FTiempoSemanal
    ([191%N] ++ js "Cu" ++ [225%N] ++ js "nto tiempo dedicas t" ++ [250%N] ++
     js " o tu equipo a responder consultas cada semana? (en horas)")
    false (js "0") (Some (js "0.5")) (js "Ej: 10").
Definition ticket_input : input_spec :=
  mkInput FTicket (js "Ticket promedio por cliente (USD)")
    false (js "0") (Some (js "0.01")) (js "Ej: 5000").

Definition form_inputs : list input_spec :=
  [consultas_input; consultasConversion_input; oportunidadesPerdidas_input;
   tiempoSemanal_input; ticket_input].

(** ** Constraint validation (HTML 4.10.21.2) of a number input

    [raw] is the text in the input. The minimum is the [min] attribute
    parsed; the allowed step is the [step] attribute parsed, or the
    default step 1 when it is absent, unparsable or not positive; the
    step base is the minimum. *)

Definition min_value (sp : input_spec) : option Q := parse_decimal (in_min sp).

Definition allowed_step (sp : input_spec) : Q :=
  match in_step sp with
  | Some t => match parse_decimal t with Some q => if Qle_bool q 0 then 1 else q | None => 1 end
  | None => 1
  end.

Definition is_whole (q : Q) : bool := (Qden (Qred q) =? 1)%positive.

Definition value_missing (sp : input_spec) (raw : jsstring) : bool :=
  in_required sp && negb (str_truthy (sanitize raw)).

Definition range_underflow (sp : input_spec) (v : Q) : bool :=
  match min_value sp with Some m => negb (Qle_bool m v) | None => false end.

Definition step_mismatch (sp : input_spec) (v : Q) : bool :=
  let base := match min_value sp with Some m => m | None => 0%Q end in
  negb (is_whole ((v - base) / allowed_step sp)%Q).

Definition input_valid (sp : input_spec) (raw : jsstring) : bool :=
  negb (badInput raw) && negb (value_missing sp raw) &&
  match parse_decimal (sanitize raw) with
  | Some v => negb (range_underflow sp v) && negb (step_mismatch sp v)
  | None => true
  end.

(** The form may be submitted: every input satisfies its constraints. *)
Definition form_valid (dom : field -> jsstring) : bool :=
  forallb (fun sp => input_valid sp (dom (in_field sp))) form_inputs.

(** ** The elements of the form card *)

Definition label_class : string :=
  "block text-sm font-semibold text-black mb-3 group-focus-within:text-cyan-600 transition-colors duration-200".
Definition input_class : string :=
  "w-full px-3 py-3 sm:px-4 sm:py-4 bg-white/60 backdrop-blur-sm border border-cyan-200/40 rounded-xl text-slate-700 placeholder-slate-400 focus:outline-none focus:ring-2 focus:ring-cyan-500/50 focus:border-cyan-500/50 hover:bg-white/70 transition-all duration-300 group-focus-within:shadow-lg group-focus-within:shadow-cyan-500/20 text-sm sm:text-base".
Definition glow_class : string :=
  "absolute inset-0 rounded-xl bg-gradient-to-r from-cyan-500/0 via-blue-500/0 to-teal-500/0 group-focus-within:from-cyan-500/10 group-focus-within:via-blue-500/5 group-focus-within:to-teal-500/10 transition-all duration-300 pointer-events-none".

(** One input group. [raw] is the text the input holds, which React's
    [value={formData.x}] keeps in step with the state ([Page] proves
    that they agree). *)
Definition input_group (sp : input_spec) (raw : jsstring) : node :=
  let n := field_name (in_field sp) in
  Elem "div" None [ClassName "group"]
    [Elem "label" None [Attr "htmlFor" n; ClassName label_class] [Text (in_label sp)];
     Elem "div" None [ClassName "relative"]
       [Elem "input" None
          ([Attr "type" (js "number"); Attr "id" n; Attr "name" n; Attr "value" raw] ++
           (if in_required sp then [Flag "required"] else []) ++ [Attr "min" (in_min sp)] ++
           (match in_step sp with Some t => [Attr "step" t] | None => [] end) ++
           [ClassName input_class; Attr "placeholder" (in_placeholder sp)]) [];
        Elem "div" None [ClassName glow_class] []]].

(** Lines 490-498: the class depends on [message.type]. *)
Definition message_class (k : msg_kind) : string :=
  "p-4 rounded-xl text-center font-semibold backdrop-blur-sm border transition-all duration-300 " ++
  match k with
  | MsgSuccess => "bg-green-50/80 text-green-700 border-green-300/50 shadow-lg shadow-green-400/20"
  | MsgError => "bg-red-50/80 text-red-700 border-red-300/50 shadow-lg shadow-red-400/20"
  end.

Definition message_view (m : option Message) : list node :=
  match m with
  | Some m => [Elem "div" None [ClassName (message_class (msg_type m))] [Text (msg_text m)]]
  | None => []
  end.

Definition button_class : string :=
  "w-full relative overflow-hidden bg-gradient-to-r from-cyan-500 via-blue-500 to-teal-500 text-white font-bold py-3 px-4 sm:py-4 sm:px-6 rounded-xl hover:from-cyan-400 hover:via-blue-400 hover:to-teal-400 focus:outline-none focus:ring-2 focus:ring-cyan-400/50 transition-all duration-300 disabled:opacity-50 disabled:cursor-not-allowed transform hover:scale-[1.02] active:scale-[0.98] shadow-xl shadow-cyan-500/25 group text-sm sm:text-base".

(** Lines 500-517. *)
Definition submit_button (isLoading : bool) : node :=
  Elem "button" None
    ([Attr "type" (js "submit")] ++ (if isLoading then [Flag "disabled"] else []) ++
     [ClassName button_class])
    [Elem "div" None [ClassName "absolute inset-0 bg-gradient-to-r from-white/0 via-white/20 to-white/0 transform -skew-x-12 -translate-x-full group-hover:translate-x-full transition-transform duration-700"] [];
     Elem "div" None [ClassName "relative z-10"]
       [if isLoading then
          Elem "div" None [ClassName "flex items-center justify-center"]
            [Elem "div" None [ClassName "animate-spin rounded-full h-6 w-6 border-b-2 border-white mr-3"] [];
             Text (js "Calculando tu ROI...")]
        else Text (js "Calcular ROI")]].

(** Lines 380-519: the card, the form and its children in order. *)
Definition form_card (s : State) (dom : field -> jsstring) : node :=
  Elem "div" None [ClassName "backdrop-blur-xl bg-white/80 rounded-2xl sm:rounded-3xl border border-cyan-200/30 p-6 sm:p-8 shadow-2xl shadow-cyan-500/10 relative overflow-hidden"]
    [Elem "div" None [ClassName "absolute inset-0 bg-gradient-to-br from-cyan-50/50 to-blue-50/30 rounded-3xl"] [];
     Elem "form" None [ClassName "space-y-5 sm:space-y-6 relative z-10"]
       (map (fun sp => input_group sp (dom (in_field sp))) form_inputs ++
        message_view (message s) ++ [submit_button (isLoading s)])].

(** Lines 224-234. *)
Definition loading_overlay : node :=
  Elem "div" None [ClassName "fixed inset-0 bg-black/50 backdrop-blur-sm flex items-center justify-center z-50"]
    [Elem "div" None [ClassName "bg-white/90 backdrop-blur-xl rounded-3xl p-8 text-center shadow-2xl border border-cyan-200/30"]
       [Elem "div" None [ClassName "mb-6"]
          [Elem "div" None [ClassName "w-16 h-16 mx-auto border-4 border-cyan-200 border-t-cyan-600 rounded-full animate-spin"] []];
        Elem "h3" None [ClassName "text-2xl font-bold text-slate-800 mb-2"] [Text (js "Calculando tu ROI")];
        Elem "p" None [ClassName "text-slate-600"] [Text (js "Analizando tus datos...")]]].

(** Lines 521-524. *)
Definition required_note : node :=
  Elem "p" None [ClassName "text-center text-slate-600 text-xs sm:text-sm mt-6 sm:mt-8 font-medium"]
    [Text (js "* Campos obligatorios")].

(** ** Lemmas on the markup and the constraints *)

Lemma field_of_name_spec n x : field_of_name n = Some x <-> n = field_name x.
Proof.
  split; [|intros ->; by destruct x].
  unfold field_of_name. repeat case_decide; intros Hx; simplify_eq; done.
Qed.

Lemma form_inputs_min_step sp :
  sp ∈ form_inputs -> min_value sp = Some 0%Q /\ (0 < allowed_step sp)%Q.
Proof.
  intros H. repeat (apply elem_of_cons in H as [->|H]; [split; [reflexivity|by vm_compute]|]).
  by apply elem_of_nil in H.
Qed.

Lemma sanitize_valid raw :
  str_truthy (sanitize raw) = true -> valid_float raw = true /\ sanitize raw = raw.
Proof. unfold sanitize. by destruct (valid_float raw). Qed.

Lemma sanitize_nil_or raw : sanitize raw = [] \/ (valid_float raw = true /\ sanitize raw = raw).
Proof. unfold sanitize. destruct (valid_float raw); auto. Qed.

Lemma is_whole_spec q : is_whole q = true -> exists k, q == inject_Z k.
Proof.
  unfold is_whole. intros H. exists (Qnum (Qred q)).
  transitivity (Qred q); [symmetry; apply Qred_correct|].
  destruct (Qred q) as [a [b|b|]]; simpl in *; try discriminate. reflexivity.
Qed.

(** A value [q] at least 0 that is a whole number of positive steps
    [d] is [k * d] for a natural [k]. *)
Lemma whole_steps q d k :
  (0 < d)%Q -> (0 <= q)%Q -> (q - 0) / d == inject_Z k -> (0 <= k)%Z /\ q == inject_Z k * d.
Proof.
  intros Hd Hq Hk. assert (Hq' : q == inject_Z k * d).
  { rewrite <- Hk. field. intros E. rewrite E in Hd. discriminate. }
  split; [|done]. rewrite Zle_Qle. change (inject_Z 0) with 0%Q.
  apply (Qmult_le_r _ _ d Hd). rewrite <- Hq', Qmult_0_l. exact Hq.
Qed.

Lemma input_valid_number sp raw :
  sp ∈ form_inputs -> input_valid sp raw = true -> str_truthy (sanitize raw) = true ->
  exists q, js_Number raw = JNum q /\ (0 <= q)%Q /\ is_whole ((q - 0) / allowed_step sp) = true.
Proof.
  intros Hsp Hv Hs. destruct (sanitize_valid raw Hs) as [Hf Hsan].
  destruct (js_Number_valid raw Hf) as (q & Hq & Hp).
  destruct (form_inputs_min_step sp Hsp) as [Hmin _].
  unfold input_valid, range_underflow, step_mismatch in Hv. rewrite Hsan, Hp, Hmin in Hv.
  apply andb_true_iff in Hv as [_ Hv]. apply andb_true_iff in Hv as [Hr Hm].
  rewrite !negb_involutive in Hr, Hm.
  exists q. split_and!; [done|by apply Qle_bool_iff|done].
Qed.

Lemma input_valid_steps sp raw :
  sp ∈ form_inputs -> input_valid sp raw = true -> str_truthy (sanitize raw) = true ->
  exists q k, js_Number raw = JNum q /\ (0 <= k)%Z /\ q == inject_Z k * allowed_step sp.
Proof.
  intros Hsp Hv Hs. destruct (input_valid_number sp raw Hsp Hv Hs) as (q & Hq & Hq0 & Hw).
  destruct (is_whole_spec _ Hw) as [k Hk].
  destruct (whole_steps q _ k (proj2 (form_inputs_min_step sp Hsp)) Hq0 Hk) as [H1 H2].
  by exists q, k.
Qed.

Lemma form_valid_input dom sp :
  form_valid dom = true -> sp ∈ form_inputs -> input_valid sp (dom (in_field sp)) = true.
Proof.
  unfold form_valid. rewrite forallb_forall. intros H Hsp. apply H.
  by apply list_elem_of_In.
Qed.

Lemma input_valid_bad sp raw : badInput raw = true -> input_valid sp raw = false.
Proof. unfold input_valid. by intros ->. Qed.

Lemma input_valid_missing sp raw :
  in_required sp = true -> sanitize raw = [] -> input_valid sp raw = false.
Proof. unfold input_valid, value_missing. intros -> ->. by rewrite andb_false_r. Qed.

(** The [<input>] element of an input group. *)
Definition group_input (g : node) : option node :=
  match node_children g with [_; r] => head (node_children r) | _ => None end.

(** ** Properties *)

(** Round trip of the [name] attributes: the key that
    [{ ...prev, [name]: v }] writes is a field exactly when [name] is
    that field's name. *)
Theorem field_name_roundtrip (n : jsstring) (x : field) :
  field_of_name n = Some x <-> n = field_name x.
Proof. apply field_of_name_spec. Qed.

(** The inputs are typed by [FormData]: there is exactly one input per
    field, in the order of the interface; the [name] and [id] of each
    input and the [htmlFor] of its label are the field's name, so
    [handleInputChange] only ever writes a key of [FormData]. *)
Theorem input_names_typed :
  map in_field form_inputs =
    [FConsultas; FConsultasConversion; FOportunidadesPerdidas; FTiempoSemanal; FTicket] /\
  forall sp raw, sp ∈ form_inputs ->
    exists i, group_input (input_group sp raw) = Some i /\
      attr_value i "name" = Some (field_name (in_field sp)) /\
      attr_value i "id" = Some (field_name (in_field sp)) /\
      attr_value i "value" = Some raw /\
      field_of_name (field_name (in_field sp)) = Some (in_field sp).
Proof.
  split; [reflexivity|]. intros sp raw _. eexists. split; [reflexivity|].
  split_and!; [reflexivity|reflexivity|reflexivity|by apply field_of_name_spec].
Qed.

(** C15. Bounds of what the browser lets through: a non-empty value of an
    input that satisfies its constraints is, read by [Number], a number
    (never NaN) equal to [k] steps for a natural [k]: a whole number for
    the first three inputs, a multiple of 0.5 hours and of 0.01 USD for
    the last two. *)
Theorem accepted_number_bounds (sp : input_spec) (raw : jsstring) :
  sp ∈ form_inputs -> input_valid sp raw = true -> str_truthy (sanitize raw) = true ->
  exists q k, js_Number raw = JNum q /\ (0 <= k)%Z /\ q == inject_Z k * allowed_step sp.
Proof. apply input_valid_steps. Qed.

(** C18. The browser blocks the submission, and [handleSubmit] never runs,
    when an input holds text that is not a number, or when one of the two
    required inputs is empty. *)
Theorem form_blocked (dom : field -> jsstring) (x : field) :
  badInput (dom x) = true \/
  (sanitize (dom x) = [] /\ (x = FConsultas \/ x = FOportunidadesPerdidas)) ->
  form_valid dom = false.
Proof.
  intros H. assert (Hx : exists sp, sp ∈ form_inputs /\ in_field sp = x /\ input_valid sp (dom x) = false).
  { destruct H as [H|[H [-> | ->]]].
    - destruct x; (eexists; split; [by repeat constructor|split; [reflexivity|by apply input_valid_bad]]).
    - eexists; split; [by repeat constructor|split; [reflexivity|by apply input_valid_missing]].
    - eexists; split; [by repeat constructor|split; [reflexivity|by apply input_valid_missing]]. }
  destruct Hx as (sp & Hsp & <- & Hf). unfold form_valid. apply not_true_iff_false.
  rewrite forallb_forall. intros Hall. rewrite Hall in Hf; [done|]. by apply list_elem_of_In.
Qed.

Lemma accepted_number_bounds_witness :
  tiempoSemanal_input ∈ form_inputs /\ input_valid tiempoSemanal_input (js "1.5") = true /\
  str_truthy (sanitize (js "1.5")) = true /\
  exists q k, js_Number (js "1.5") = JNum q /\ (0 <= k)%Z /\
              q == inject_Z k * allowed_step tiempoSemanal_input.
Proof.
  assert (H1 : tiempoSemanal_input ∈ form_inputs) by (by repeat constructor).
  assert (H2 : input_valid tiempoSemanal_input (js "1.5") = true) by (vm_compute; reflexivity).
  assert (H3 : str_truthy (sanitize (js "1.5")) = true) by (vm_compute; reflexivity).
  split_and!; [exact H1|exact H2|exact H3|].
  exact (accepted_number_bounds _ _ H1 H2 H3).
Defined.

Lemma form_blocked_witness :
  (badInput (js "1e") = true \/
   (sanitize (js "1e") = [] /\ (FConsultas = FConsultas \/ FConsultas = FOportunidadesPerdidas))) /\
  form_valid (fun _ => js "1e") = false.
Proof.
  assert (H : badInput ((fun _ : field => js "1e") FConsultas) = true \/
   (sanitize ((fun _ : field => js "1e") FConsultas) = [] /\
    (FConsultas = FConsultas \/ FConsultas = FOportunidadesPerdidas))) by (left; reflexivity).
  split; [exact H|exact (form_blocked _ FConsultas H)].
Defined.
