(* ===== verification/App.v ===== *)
(** * The component as a state machine (CalculadoraROI.tsx, lines 19-528)

    The page delivers four kinds of events to the component: an input's
    [onChange] ([handleInputChange]), the form's [onSubmit]
    ([handleSubmit], up to its [await]), the settling of the awaited
    request (the rest of [handleSubmit]) and the "Cerrar" button
    ([setRoiResult(null)], line 263). [App] is the hook state plus the
    request the handler is waiting on; [app_step] is one event, refused
    ([None]) when the rendered page cannot deliver it: the submit button
    is [disabled={isLoading}] (line 503), the close button exists only
    while the result overlay is shown (line 237), and once a render has
    thrown ([crashed]) React has unmounted the page and nothing is
    delivered at all.

    [render] computes what the page shows: the loading overlay (line
    224), the result overlay with [formatRoiResult(roiResult)] (lines
    237-271), the hidden PDF container (lines 274-359) and the message
    (lines 490-498); it fails when [roiResult] is a truthy non-string,
    on which [result.replace] throws a TypeError. [generatePDF] (lines
    33-76) is modelled with its DOM style changes, although no element
    of the page calls it. *)

From stdpp Require Import strings.
From Stdlib Require Import QArith.
From S2P Require Import Prelude JsString Jsx Classify ScreenFormat PdfFormat FormState Submit.

(** ** States and events *)

Record App := mkApp { st : State; inflight : option RequestBody }.

Definition app_init : App := mkApp initial_state None.

Inductive event :=
| EvInput (e : change_event)
| EvSubmit
| EvResponse (r : response)
| EvClose.

(** [roiResult && ...] *)
Definition result_truthy (s : State) : bool :=
  match roiResult s with Some v => json_truthy v | None => false end.

(** Line 237: [roiResult && !isLoading]. *)
Definition result_shown (s : State) : bool := result_truthy s && negb (isLoading s).

Inductive shown_result := NoResult | ResultText (t : jsstring) | ResultTypeError.

Definition result_of (s : State) : shown_result :=
  match roiResult s with
  | Some v =>
      if json_truthy v then match v with JsonStr t => ResultText t | _ => ResultTypeError end
      else NoResult
  | None => NoResult
  end.

(** The render throws when [roiResult] is a truthy non-string (line 256
    calls [result.replace] on it). There is no error boundary, so React
    unmounts the whole tree: the page is blank, no input or button is
    left, and no event reaches the component any more. *)
Definition crashed (s : State) : bool :=
  match result_of s with ResultTypeError => true | _ => false end.

(** The answers after which the render throws: a successful one whose
    [parse_result] is a truthy value that is not a string. *)
Definition response_crashes (r : response) : bool :=
  match r with
  | ROk body parsed =>
      match parse_result parsed body with JsonStr _ => false | v => json_truthy v end
  | RNotOk | RRejected => false
  end.

Definition app_step (a : App) (ev : event) : option App :=
  if crashed (st a) then None else
  match ev with
  | EvInput e =>
      Some (mkApp (setFormData (handleInputChange e (formData (st a))) (st a)) (inflight a))
  | EvSubmit =>
      if isLoading (st a) then None
      else let '(s', req) := submit_start (st a) in Some (mkApp s' req)
  | EvResponse r =>
      match inflight a with
      | Some _ => Some (mkApp (submit_finish r (st a)) None)
      | None => None
      end
  | EvClose =>
      if result_shown (st a) then Some (mkApp (setRoiResult None (st a)) (inflight a)) else None
  end.

(** A run of events from a state. *)
Fixpoint run (a : App) (evs : list event) : option App :=
  match evs with
  | [] => Some a
  | ev :: evs' => match app_step a ev with Some a' => run a' evs' | None => None end
  end.

Inductive reachable : App -> Prop :=
| reach_init : reachable app_init
| reach_step a ev a' : reachable a -> app_step a ev = Some a' -> reachable a'.

(** ** What the page shows *)


Record View := mkView {
  v_loading_overlay : bool;
  v_result_overlay : option (list node);
  v_pdf_container : option node;
  v_message : option Message;
  v_submit_disabled : bool
}.

(** [date] is [new Date().toLocaleDateString('es-ES')]. *)
Definition render (s : State) (date : jsstring) : option View :=
  match result_of s with
  | ResultTypeError => None
  | NoResult => Some (mkView (isLoading s) None None (message s) (isLoading s))
  | ResultText t =>
      Some (mkView (isLoading s)
              (if isLoading s then None else Some (formatRoiResult t))
              (Some (pdf_document t date)) (message s) (isLoading s))
  end.

(** ** [generatePDF] (lines 33-76)

    The function reads [pdfContentRef.current], which React sets while the
    hidden container is mounted; it makes the container visible through
    its inline style, starts [html2pdf().set(options).from(element).save()]
    and hides the container again in the promise's [.then]. The [try] only
    catches a synchronous throw, which shows an alert. *)

Record ElemStyle := mkStyle {
  sty_position : string; sty_top : string; sty_left : string;
  sty_zIndex : string; sty_backgroundColor : string
}.

(** Lines 46-62: [margin], [filename], [image], [html2canvas] (scale,
    useCORS, letterRendering, allowTaint, backgroundColor) and [jsPDF]. *)
Record PdfOptions := mkPdfOptions {
  opt_margin : Q; opt_filename : jsstring; opt_image_type : string;
  opt_image_quality : Q; opt_scale : nat; opt_useCORS : bool;
  opt_letterRendering : bool; opt_allowTaint : bool; opt_backgroundColor : string;
  opt_unit : string; opt_format : string; opt_orientation : string
}.

(** [isoDate] is [new Date().toISOString().split('T')[0]]. *)
Definition pdf_options (isoDate : jsstring) : PdfOptions :=
  mkPdfOptions (1 # 2) (js "Analisis_ROI_Setterless_" ++ isoDate ++ js ".pdf")
    "jpeg" (98 # 100) 2 true true true "#ffffff" "in" "a4" "portrait".

(** Lines 40-44 and 66-69. *)
Definition shown_style (prev : ElemStyle) : ElemStyle :=
  mkStyle "fixed" "0" "0" "9999" "white".
Definition hidden_style (prev : ElemStyle) : ElemStyle :=
  mkStyle "fixed" "-9999px" "0" "-1" (sty_backgroundColor prev).

(** How the export call ends: the [save()] promise resolves or rejects,
    or [html2pdf()] throws before returning a promise. *)
Inductive save_outcome := SaveResolved | SaveRejected | SaveThrows.

Record PdfEffects := mkEffects {
  eff_style : ElemStyle;
  eff_saved : option (PdfOptions * node);
  eff_alert : bool
}.

(** [pdfContentRef.current]: the container, when the render mounts it. *)
Definition pdf_ref (s : State) (date : jsstring) : option node :=
  match render s date with Some v => v_pdf_container v | None => None end.

Definition generatePDF (s : State) (date isoDate : jsstring) (style : ElemStyle)
    (o : save_outcome) : PdfEffects :=
  match pdf_ref s date with
  | None => mkEffects style None false
  | Some element =>
      if negb (result_truthy s) then mkEffects style None false
      else match o with
           | SaveResolved =>
               mkEffects (hidden_style (shown_style style))
                 (Some (pdf_options isoDate, element)) false
           | SaveRejected => mkEffects (shown_style style) None false
           | SaveThrows => mkEffects (shown_style style) None true
           end
  end.

(** ** The invariant of reachable states *)

(** Loading is on exactly while a request is in flight, and then no
    result and no message are shown. *)
Definition app_inv (a : App) : Prop :=
  (isLoading (st a) = true <-> is_Some (inflight a)) /\
  (isLoading (st a) = true -> roiResult (st a) = None /\ message (st a) = None).

Lemma app_inv_init : app_inv app_init.
Proof. split; [split; [discriminate|by intros []]|discriminate]. Qed.

(** A crashed page takes no step: discharge that case of [app_step]. *)
Ltac alive H :=
  match type of H with
  | context [crashed ?s] => destruct (crashed s); [discriminate H|]
  end.

(** Unfold a step that happened: the page had not crashed. *)
Ltac step_alive H := unfold app_step in H; cbn [st inflight] in H; alive H.

Lemma app_step_inv a ev a' : app_inv a -> app_step a ev = Some a' -> app_inv a'.
Proof.
  intros [Hl Hr] Hstep. destruct a as [s fl]. step_alive Hstep.
  destruct ev as [e| |r|]; simpl in *.
  - injection Hstep as <-. done.
  - destruct (isLoading s) eqn:L; [discriminate|].
    destruct (validation_fails (formData s)) eqn:V.
    + rewrite submit_start_refused in Hstep by done. injection Hstep as <-.
      split; [split; [discriminate|by intros []]|discriminate].
    + rewrite submit_start_sent in Hstep by done. injection Hstep as <-.
      split; [split; [by eexists|done]|done].
  - destruct fl as [req|]; [|discriminate]. injection Hstep as <-.
    destruct r; split; try (split; [discriminate|by intros []]); discriminate.
  - destruct (result_shown s) eqn:R; [|discriminate]. injection Hstep as <-.
    unfold result_shown in R. apply andb_true_iff in R as [_ R].
    apply negb_true_iff in R. unfold app_inv. simpl. rewrite R. rewrite R in Hl.
    split; [exact Hl|discriminate].
Qed.

Lemma reachable_inv_holds a : reachable a -> app_inv a.
Proof.
  induction 1 as [|a ev a' _ IH Hstep]; [apply app_inv_init|].
  by apply (app_step_inv a ev).
Qed.

Lemma run_reachable a evs a' : reachable a -> run a evs = Some a' -> reachable a'.
Proof.
  revert a. induction evs as [|ev evs IH]; intros a Ha Hrun; simpl in Hrun.
  - by injection Hrun as <-.
  - destruct (app_step a ev) as [b|] eqn:E; [|discriminate].
    apply (IH b); [by apply (reach_step a ev b)|done].
Qed.

Lemma reachable_run a : reachable a -> exists evs, run app_init evs = Some a.
Proof.
  induction 1 as [|a ev a' _ [evs Hevs] Hstep]; [by exists []|].
  exists (evs ++ [ev]). revert Hevs. generalize app_init. induction evs as [|e es IHe]; intros b Hb.
  - simpl in *. injection Hb as ->. by rewrite Hstep.
  - simpl in *. destruct (app_step b e); [by apply IHe|discriminate].
Qed.

Lemma render_result_text s t date :
  result_of s = ResultText t ->
  render s date = Some (mkView (isLoading s)
                          (if isLoading s then None else Some (formatRoiResult t))
                          (Some (pdf_document t date)) (message s) (isLoading s)).
Proof. unfold render. by intros ->. Qed.

(** While a request is in flight no result is stored, so the page has
    not crashed. *)
Lemma inflight_not_crashed a : reachable a -> is_Some (inflight a) -> crashed (st a) = false.
Proof.
  intros Hr Hin. destruct (reachable_inv_holds a Hr) as [[_ Hl] Hres].
  unfold crashed, result_of. by rewrite (proj1 (Hres (Hl Hin))).
Qed.

Lemma step_response a r :
  reachable a -> is_Some (inflight a) ->
  app_step a (EvResponse r) = Some (mkApp (submit_finish r (st a)) None).
Proof.
  intros Hr Hin. unfold app_step. rewrite (inflight_not_crashed a Hr Hin).
  destruct Hin as [req Hreq]. simpl. by rewrite Hreq.
Qed.

Lemma crashed_after_response a r :
  reachable a -> is_Some (inflight a) -> crashed (submit_finish r (st a)) = response_crashes r.
Proof.
  intros Hr Hin. destruct r as [body parsed| |]; unfold crashed, result_of.
  - cbn [submit_finish response_crashes roiResult setIsLoading setFormData setMessage setRoiResult].
    destruct (parse_result parsed body); cbn; try done;
    match goal with |- context [if ?c then _ else _] => by destruct c end.
  - pose proof (inflight_not_crashed a Hr Hin) as C. unfold crashed, result_of in C. by destruct (st a).
  - pose proof (inflight_not_crashed a Hr Hin) as C. unfold crashed, result_of in C. by destruct (st a).
Qed.

(** ** A concrete session *)

(** The user types 100 and 6 in the two mandatory fields and submits. *)
Definition demo_events : list event :=
  [EvInput (mkChange FConsultas (js "100") INumber);
   EvInput (mkChange FOportunidadesPerdidas (js "6") INumber);
   EvSubmit].

Definition demo_app : App :=
  match run app_init demo_events with Some a => a | None => app_init end.

Lemma demo_app_run : run app_init demo_events = Some demo_app.
Proof. vm_compute. reflexivity. Qed.

Lemma demo_app_reachable : reachable demo_app.
Proof. exact (run_reachable _ _ _ reach_init demo_app_run). Qed.

(** ** Properties *)

(** C3. Invariant of every reachable state: loading is on exactly while a
    request is in flight, and while it is on no result and no message
    are shown. *)
Theorem reachable_invariant (a : App) :
  reachable a ->
  (isLoading (st a) = true <-> is_Some (inflight a)) /\
  (isLoading (st a) = true -> roiResult (st a) = None /\ message (st a) = None).
Proof. apply reachable_inv_holds. Qed.

(** C4. At most one request is in flight: the page accepts a submit only
    when no request is pending, and the request it then sends is the
    body built from the form as it is at that moment. *)
Theorem single_request_in_flight (a a' : App) :
  reachable a -> app_step a EvSubmit = Some a' ->
  inflight a = None /\
  (inflight a' = None \/ inflight a' = Some (dataToSend (formData (st a)))).
Proof.
  intros Hr Hstep. destruct (reachable_inv_holds a Hr) as [Hl _].
  destruct a as [s fl]. step_alive Hstep. simpl in *.
  destruct (isLoading s) eqn:L; [discriminate|].
  split; [destruct fl; [discriminate (proj2 Hl ltac:(by eexists))|done]|].
  destruct (validation_fails (formData s)) eqn:V.
  - rewrite submit_start_refused in Hstep by done. injection Hstep as <-. by left.
  - rewrite submit_start_sent in Hstep by done. injection Hstep as <-. by right.
Qed.

(** C31. A request in flight can always settle, whatever the outcome, and
    settling turns loading off and leaves nothing in flight. *)
Theorem response_settles (a : App) (r : response) :
  reachable a -> is_Some (inflight a) ->
  exists a', app_step a (EvResponse r) = Some a' /\
             isLoading (st a') = false /\ inflight a' = None.
Proof.
  intros Hr H. eexists. split; [by apply step_response|]. by destruct r.
Qed.

(** C32. When the webhook answers with a non-empty text (raw, or in the
    "response" field of a JSON object), the page shows the result
    overlay with [formatRoiResult] of that text, the PDF container with
    it, the success message, and enables the form again. *)
Theorem success_shows_report (a : App) (body t date : jsstring) (parsed : option json) :
  reachable a -> is_Some (inflight a) ->
  parse_result parsed body = JsonStr t -> str_truthy t = true ->
  exists a', app_step a (EvResponse (ROk body parsed)) = Some a' /\
    render (st a') date =
      Some (mkView false (Some (formatRoiResult t)) (Some (pdf_document t date))
              (Some success_message) false).
Proof.
  intros Hr Hin Hp Ht. eexists. split; [by apply step_response|].
  rewrite (render_result_text _ t); [done|]. unfold result_of. simpl.
  rewrite Hp. simpl. by rewrite Ht.
Qed.

(** C33. When the webhook's JSON carries a truthy "response" that is not
    a string (a number, [true], an object or an array), the handler
    stores it as it is; the next render throws ([formatRoiResult] calls
    [result.replace] on it), React unmounts the page, and from then on
    no event reaches the component: the user is left with a blank page. *)
Theorem nonstring_response_crashes (a : App) (body : jsstring)
    (kvs : list (jsstring * json)) (v : json) :
  reachable a -> is_Some (inflight a) ->
  lookup_key RESPONSE_KEY kvs = Some v -> json_truthy v = true -> (forall t, v <> JsonStr t) ->
  exists a', app_step a (EvResponse (ROk body (Some (JsonObj kvs)))) = Some a' /\
    roiResult (st a') = Some v /\ (forall date, render (st a') date = None) /\
    (forall ev, app_step a' ev = None).
Proof.
  intros Hr Hin Hk Hv Hs. eexists. split; [by apply step_response|].
  assert (Hp : parse_result (Some (JsonObj kvs)) body = v) by (simpl; by rewrite Hk, Hv).
  assert (Hc : result_of (submit_finish (ROk body (Some (JsonObj kvs))) (st a)) = ResultTypeError).
  { unfold result_of.
    change (roiResult (submit_finish (ROk body (Some (JsonObj kvs))) (st a)))
      with (Some (parse_result (Some (JsonObj kvs)) body)).
    rewrite Hp, Hv. destruct v; try done. by destruct (Hs s). }
  split_and!; [exact (f_equal Some Hp)| |].
  - intros date. unfold render. cbn [st]. by rewrite Hc.
  - intros ev. unfold app_step, crashed. cbn [st]. by rewrite Hc.
Qed.


Definition demo_filled : App :=
  match run app_init (take 2 demo_events) with Some a => a | None => app_init end.

Lemma demo_filled_reachable : reachable demo_filled.
Proof. apply (run_reachable app_init (take 2 demo_events)); [constructor|vm_compute; reflexivity]. Qed.

Lemma reachable_invariant_witness :
  reachable demo_app /\
  ((isLoading (st demo_app) = true <-> is_Some (inflight demo_app)) /\
   (isLoading (st demo_app) = true -> roiResult (st demo_app) = None /\ message (st demo_app) = None)).
Proof. split; [exact demo_app_reachable|exact (reachable_invariant _ demo_app_reachable)]. Defined.

Lemma single_request_in_flight_witness :
  reachable demo_filled /\ app_step demo_filled EvSubmit = Some demo_app /\
  (inflight demo_filled = None /\
   (inflight demo_app = None \/ inflight demo_app = Some (dataToSend (formData (st demo_filled))))).
Proof.
  assert (H : app_step demo_filled EvSubmit = Some demo_app) by (vm_compute; reflexivity).
  split; [exact demo_filled_reachable|split; [exact H|]].
  exact (single_request_in_flight _ _ demo_filled_reachable H).
Defined.

Lemma response_settles_witness :
  reachable demo_app /\ is_Some (inflight demo_app) /\
  exists a', app_step demo_app (EvResponse RNotOk) = Some a' /\
             isLoading (st a') = false /\ inflight a' = None.
Proof.
  assert (H : is_Some (inflight demo_app)) by (vm_compute; eexists; reflexivity).
  split; [exact demo_app_reachable|split; [exact H|]].
  exact (response_settles _ RNotOk demo_app_reachable H).
Defined.

Lemma success_shows_report_witness :
  reachable demo_app /\ is_Some (inflight demo_app) /\
  parse_result None (js "Listo") = JsonStr (js "Listo") /\ str_truthy (js "Listo") = true /\
  exists a', app_step demo_app (EvResponse (ROk (js "Listo") None)) = Some a' /\
    render (st a') (js "9/11/2026") =
      Some (mkView false (Some (formatRoiResult (js "Listo")))
              (Some (pdf_document (js "Listo") (js "9/11/2026"))) (Some success_message) false).
Proof.
  assert (H1 : is_Some (inflight demo_app)) by (vm_compute; eexists; reflexivity).
  assert (H2 : parse_result None (js "Listo") = JsonStr (js "Listo")) by reflexivity.
  assert (H3 : str_truthy (js "Listo") = true) by reflexivity.
  split; [exact demo_app_reachable|split; [exact H1|split; [exact H2|split; [exact H3|]]]].
  exact (success_shows_report _ _ _ _ _ demo_app_reachable H1 H2 H3).
Defined.

Lemma result_of_text s t : result_of s = ResultText t -> result_truthy s = true.
Proof.
  unfold result_of, result_truthy. destruct (roiResult s) as [v|]; [|discriminate].
  destruct (json_truthy v); [done|discriminate].
Qed.

Lemma generatePDF_text s t date iso style o :
  result_of s = ResultText t ->
  generatePDF s date iso style o =
  match o with
  | SaveResolved => mkEffects (hidden_style (shown_style style))
                      (Some (pdf_options iso, pdf_document t date)) false
  | SaveRejected => mkEffects (shown_style style) None false
  | SaveThrows => mkEffects (shown_style style) None true
  end.
Proof.
  intros H. unfold generatePDF, pdf_ref. rewrite (render_result_text _ t) by done.
  simpl. by rewrite (result_of_text s t H).
Qed.

(** C35. When the result is a text, [generatePDF] with a [save()] that
    resolves exports the PDF container of that text (header, formatted
    body, footer) under "Analisis_ROI_Setterless_<date>.pdf", and the
    container is hidden again afterwards. *)
Theorem generatePDF_saves_report (s : State) (t date iso : jsstring) (style : ElemStyle) :
  result_of s = ResultText t ->
  generatePDF s date iso style SaveResolved =
  mkEffects (hidden_style (shown_style style))
    (Some (pdf_options iso, pdf_document t date)) false /\
  opt_filename (pdf_options iso) = js "Analisis_ROI_Setterless_" ++ iso ++ js ".pdf" /\
  sty_top (hidden_style (shown_style style)) = "-9999px".
Proof. intros H. split; [by rewrite (generatePDF_text _ t)|done]. Qed.

(** C36. When [save()] rejects, the [.then] that hides the container never
    runs and the [try]/[catch] does not see the asynchronous rejection:
    the container stays fixed at the top left with z-index 9999, over
    the page, and no alert is shown. *)
Theorem generatePDF_rejection_leaves_overlay (s : State) (t date iso : jsstring) (style : ElemStyle) :
  result_of s = ResultText t ->
  generatePDF s date iso style SaveRejected = mkEffects (shown_style style) None false /\
  sty_zIndex (shown_style style) = "9999" /\ sty_top (shown_style style) = "0".
Proof. intros H. split; [by rewrite (generatePDF_text _ t)|done]. Qed.

(** The state after a successful answer "Listo" to the demo session. *)
Definition listo_state : State := submit_finish (ROk (js "Listo") None) (st demo_app).

Definition blank_style : ElemStyle := mkStyle "" "" "" "" "".

Lemma generatePDF_saves_report_witness :
  result_of listo_state = ResultText (js "Listo") /\
  (generatePDF listo_state (js "9/11/2026") (js "2026-11-09") blank_style SaveResolved =
   mkEffects (hidden_style (shown_style blank_style))
     (Some (pdf_options (js "2026-11-09"), pdf_document (js "Listo") (js "9/11/2026"))) false /\
   opt_filename (pdf_options (js "2026-11-09")) =
     js "Analisis_ROI_Setterless_" ++ js "2026-11-09" ++ js ".pdf" /\
   sty_top (hidden_style (shown_style blank_style)) = "-9999px").
Proof.
  assert (H : result_of listo_state = ResultText (js "Listo")) by (vm_compute; reflexivity).
  split; [exact H|exact (generatePDF_saves_report _ _ _ _ _ H)].
Defined.

Lemma generatePDF_rejection_leaves_overlay_witness :
  result_of listo_state = ResultText (js "Listo") /\
  (generatePDF listo_state (js "9/11/2026") (js "2026-11-09") blank_style SaveRejected =
   mkEffects (shown_style blank_style) None false /\
   sty_zIndex (shown_style blank_style) = "9999" /\ sty_top (shown_style blank_style) = "0").
Proof.
  assert (H : result_of listo_state = ResultText (js "Listo")) by (vm_compute; reflexivity).
  split; [exact H|exact (generatePDF_rejection_leaves_overlay _ _ _ _ _ H)].
Defined.

(** The state after the demo session when the webhook answers 42 in its
    "response" field. *)
Definition crash_kvs : list (jsstring * json) := [(RESPONSE_KEY, JsonNum 42)].

Lemma nonstring_response_crashes_witness :
  reachable demo_app /\ is_Some (inflight demo_app) /\
  lookup_key RESPONSE_KEY crash_kvs = Some (JsonNum 42) /\ json_truthy (JsonNum 42) = true /\
  (forall t, JsonNum 42 <> JsonStr t) /\
  exists a', app_step demo_app (EvResponse (ROk (js "ignored") (Some (JsonObj crash_kvs)))) = Some a' /\
    roiResult (st a') = Some (JsonNum 42) /\ (forall date, render (st a') date = None) /\
    (forall ev, app_step a' ev = None).
Proof.
  assert (H1 : is_Some (inflight demo_app)) by (vm_compute; eexists; reflexivity).
  assert (H2 : lookup_key RESPONSE_KEY crash_kvs = Some (JsonNum 42)) by reflexivity.
  assert (H3 : json_truthy (JsonNum 42) = true) by reflexivity.
  assert (H4 : forall t, JsonNum 42 <> JsonStr t) by discriminate.
  split_and!; [exact demo_app_reachable|exact H1|exact H2|exact H3|exact H4|].
  exact (nonstring_response_crashes _ _ _ _ demo_app_reachable H1 H2 H3 H4).
Defined.

