(* ===== verification/Page.v ===== *)
(** * The component in the browser: inputs, constraint validation, React

    [App] is the component's own state machine. In the page the user does
    not produce its events directly: typing goes through the number
    inputs, whose value the browser sanitizes before [onChange] sees it;
    a submission goes through the browser's constraint validation, and
    [onSubmit] runs only when every input is valid; after each state
    change React writes the controlled [value={formData.x}] back into the
    inputs. A [Page] is the component's state and the text held by the
    five inputs ([Dom]); [page_step] is one user or network event.

    The theorems show that the page refines [App] (every page step is a
    step of [App] or none), that the page never reaches the case of
    React's reconciliation the model leaves out (it would print a number
    back into an input), that in every reachable page the state is the
    [Number] of what the inputs show, and, as consequences, that no field
    ever holds NaN, the bounds of every request sent, and that the
    component's own validation message can only appear for a 0. Every
    interaction on a page that has not crashed ends in an idle page, and
    text typed during a request is accepted and settled by its answer. *)

From stdpp Require Import strings.
From Stdlib Require Import QArith.
From S2P Require Import Prelude JsString Jsx FormState Submit FormView App.

(** ** The text in the five inputs *)

Record Dom := mkDom {
  d_consultas : jsstring;
  d_consultasConversion : jsstring;
  d_oportunidadesPerdidas : jsstring;
  d_tiempoSemanal : jsstring;
  d_ticket : jsstring
}.

Definition dom_empty : Dom := mkDom [] [] [] [] [].

Definition dom_get (d : Dom) (x : field) : jsstring :=
  match x with
  | FConsultas => d_consultas d
  | FConsultasConversion => d_consultasConversion d
  | FOportunidadesPerdidas => d_oportunidadesPerdidas d
  | FTiempoSemanal => d_tiempoSemanal d
  | FTicket => d_ticket d
  end.

(** The user leaves the text [raw] in the input [x]. *)
Definition dom_set (d : Dom) (x : field) (raw : jsstring) : Dom :=
  match x with
  | FConsultas => mkDom raw (d_consultasConversion d) (d_oportunidadesPerdidas d) (d_tiempoSemanal d) (d_ticket d)
  | FConsultasConversion => mkDom (d_consultas d) raw (d_oportunidadesPerdidas d) (d_tiempoSemanal d) (d_ticket d)
  | FOportunidadesPerdidas => mkDom (d_consultas d) (d_consultasConversion d) raw (d_tiempoSemanal d) (d_ticket d)
  | FTiempoSemanal => mkDom (d_consultas d) (d_consultasConversion d) (d_oportunidadesPerdidas d) raw (d_ticket d)
  | FTicket => mkDom (d_consultas d) (d_consultasConversion d) (d_oportunidadesPerdidas d) (d_tiempoSemanal d) raw
  end.

(** ** React's update of a controlled number input

    With [value] the state's value and [node.value] the input's sanitized
    value, React DOM writes [node.value = String(value)] when
    [(value === 0 && node.value === '') || node.value != value], the
    second test being JavaScript's loose equality (a number against the
    [Number] of the string; NaN equals nothing). Writing a string runs
    the sanitization again. Writing a number back needs
    [Number.prototype.toString], which is not modelled: that case is
    [None], and [page_step_complete] shows no reachable page meets it. *)

Definition jsnum_eqb (a b : jsnum) : bool :=
  match a, b with JNum p, JNum q => Qeq_bool p q | _, _ => false end.

Definition is_zero (n : jsnum) : bool := match n with JNum q => Qeq_bool q 0 | JNaN => false end.

Definition reconcile_input (v : fvalue) (raw : jsstring) : option jsstring :=
  let value := sanitize raw in
  match v with
  | VStr s => Some (if decide (value = s) then raw else sanitize s)
  | VNum n =>
      if (is_zero n && negb (str_truthy value)) || negb (jsnum_eqb (js_Number value) n)
      then None else Some raw
  end.

Definition reconcile (f : FormData) (d : Dom) : option Dom :=
  r1 ← reconcile_input (consultas f) (d_consultas d);
  r2 ← reconcile_input (consultasConversion f) (d_consultasConversion d);
  r3 ← reconcile_input (oportunidadesPerdidas f) (d_oportunidadesPerdidas d);
  r4 ← reconcile_input (tiempoSemanal f) (d_tiempoSemanal d);
  r5 ← reconcile_input (ticket f) (d_ticket d);
  Some (mkDom r1 r2 r3 r4 r5).

(** ** Pages and events *)

Record Page := mkPage { app : App; dom : Dom }.

Definition page_init : Page := mkPage app_init dom_empty.

Inductive pevent :=
| PType (x : field) (raw : jsstring)
| PSubmit
| PResponse (r : response)
| PClose.

(** The component's event a page event delivers. *)
Definition app_event (ev : pevent) : event :=
  match ev with
  | PType x raw => EvInput (mkChange x (sanitize raw) INumber)
  | PSubmit => EvSubmit
  | PResponse r => EvResponse r
  | PClose => EvClose
  end.

(** The component takes the event, then React re-renders the inputs. *)
Definition commit (a : App) (ev : event) (d : Dom) : option Page :=
  a' ← app_step a ev;
  d' ← reconcile (formData (st a')) d;
  Some (mkPage a' d').

(** While loading the button is disabled and nothing submits the form;
    otherwise the browser validates the inputs first and, when one is
    invalid, blocks the submission and leaves the page as it is. *)
Definition page_step (p : Page) (ev : pevent) : option Page :=
  match ev with
  | PType x raw => commit (app p) (app_event ev) (dom_set (dom p) x raw)
  | PSubmit =>
      if isLoading (st (app p)) then None
      else if form_valid (dom_get (dom p)) then commit (app p) EvSubmit (dom p)
      else Some p
  | PResponse _ | PClose => commit (app p) (app_event ev) (dom p)
  end.

Fixpoint page_run (p : Page) (evs : list pevent) : option Page :=
  match evs with
  | [] => Some p
  | ev :: evs' => match page_step p ev with Some p' => page_run p' evs' | None => None end
  end.

Inductive page_reachable : Page -> Prop :=
| preach_init : page_reachable page_init
| preach_step p ev p' : page_reachable p -> page_step p ev = Some p' -> page_reachable p'.

(** What a sanitized input value means for the state: [''] or its [Number]. *)
Definition field_of_text (v : jsstring) : fvalue :=
  match v with [] => VStr [] | _ => VNum (js_Number v) end.

Definition dom_agrees (f : FormData) (d : Dom) : Prop :=
  forall x, get_field f x = field_of_text (sanitize (dom_get d x)).

(** ** Lemmas *)

Lemma dom_get_set_eq d x raw : dom_get (dom_set d x raw) x = raw.
Proof. by destruct x. Qed.

Lemma dom_get_set_ne d x y raw : y <> x -> dom_get (dom_set d x raw) y = dom_get d y.
Proof. intros H. destruct x, y; done. Qed.

Lemma handleInputChange_text f x v :
  handleInputChange (mkChange x v INumber) f = set_field f x (field_of_text v).
Proof. by destruct v. Qed.

Lemma sanitize_nil : sanitize [] = [].
Proof. reflexivity. Qed.

Lemma reconcile_input_agree v raw :
  v = field_of_text (sanitize raw) -> reconcile_input v raw = Some raw.
Proof.
  intros ->. unfold reconcile_input. destruct (sanitize_nil_or raw) as [E|[Hv E]].
  - by rewrite E.
  - rewrite E. destruct (js_Number_valid raw Hv) as (q & Hq & _).
    destruct raw as [|c r]; [done|]. cbn [field_of_text]. rewrite Hq.
    simpl. by rewrite Qeq_bool_refl, andb_false_r.
Qed.

Lemma reconcile_agrees f d : dom_agrees f d -> reconcile f d = Some d.
Proof.
  intros H. destruct d as [c1 c2 c3 c4 c5]. unfold reconcile.
  rewrite !reconcile_input_agree; try done;
    [apply (H FConsultas)|apply (H FConsultasConversion)|apply (H FOportunidadesPerdidas)
    |apply (H FTiempoSemanal)|apply (H FTicket)].
Qed.

Lemma reconcile_input_empty raw :
  exists r, reconcile_input (VStr []) raw = Some r /\ sanitize r = [].
Proof.
  unfold reconcile_input. case_decide; eexists; (split; [reflexivity|done]).
Qed.

Lemma reconcile_empty d : exists d', reconcile empty_form d = Some d' /\ dom_agrees empty_form d'.
Proof.
  destruct d as [c1 c2 c3 c4 c5]. unfold reconcile, empty_form.
  cbn [consultas consultasConversion oportunidadesPerdidas tiempoSemanal ticket
       d_consultas d_consultasConversion d_oportunidadesPerdidas d_tiempoSemanal d_ticket].
  destruct (reconcile_input_empty c1) as (r1 & -> & H1).
  destruct (reconcile_input_empty c2) as (r2 & -> & H2).
  destruct (reconcile_input_empty c3) as (r3 & -> & H3).
  destruct (reconcile_input_empty c4) as (r4 & -> & H4).
  destruct (reconcile_input_empty c5) as (r5 & -> & H5).
  eexists. split; [reflexivity|]. intros []; simpl; by rewrite ?H1, ?H2, ?H3, ?H4, ?H5.
Qed.

Lemma agrees_set f d x raw :
  dom_agrees f d ->
  dom_agrees (set_field f x (field_of_text (sanitize raw))) (dom_set d x raw).
Proof.
  intros H y. destruct (decide (y = x)) as [->|Hne].
  - by rewrite get_set_field_eq, dom_get_set_eq.
  - rewrite get_set_field_ne, dom_get_set_ne by done. apply H.
Qed.

(** Apart from an input, an event keeps the form or clears it. *)
Lemma app_step_formData a ev a' :
  app_step a ev = Some a' -> (forall e, ev <> EvInput e) ->
  formData (st a') = formData (st a) \/ formData (st a') = empty_form.
Proof.
  intros Hs Hev. destruct a as [s fl]. step_alive Hs. destruct ev as [e| |r|]; simpl in Hs.
  - by destruct (Hev e).
  - destruct (isLoading s); [discriminate|].
    destruct (validation_fails (formData s)) eqn:V;
      [rewrite submit_start_refused in Hs by done|rewrite submit_start_sent in Hs by done];
      injection Hs as <-; by left.
  - destruct fl; [|discriminate]. injection Hs as <-. destruct r; [right|left|left]; done.
  - destruct (result_shown s); [|discriminate]. injection Hs as <-. by left.
Qed.

Lemma commit_inv a ev d p' :
  commit a ev d = Some p' -> (forall e, ev <> EvInput e) ->
  dom_agrees (formData (st a)) d ->
  app_step a ev = Some (app p') /\ dom_agrees (formData (st (app p'))) (dom p').
Proof.
  unfold commit. intros Hc Hev Hd.
  destruct (app_step a ev) as [a'|] eqn:Hs; [|discriminate]. simpl in Hc.
  destruct (app_step_formData a ev a' Hs Hev) as [E|E]; rewrite E in Hc.
  - rewrite reconcile_agrees in Hc by done. injection Hc as <-. simpl. by rewrite E.
  - destruct (reconcile_empty d) as (d' & Hr & Ha). rewrite Hr in Hc.
    injection Hc as <-. simpl. by rewrite E.
Qed.

Lemma commit_app a ev d p' : commit a ev d = Some p' -> app_step a ev = Some (app p').
Proof.
  unfold commit. destruct (app_step a ev) as [a'|]; simpl; [|discriminate].
  destruct (reconcile _ d); simpl; [|discriminate]. by intros [= <-].
Qed.

Lemma page_step_refines_app p ev p' :
  page_step p ev = Some p' -> app p' = app p \/ app_step (app p) (app_event ev) = Some (app p').
Proof.
  destruct ev as [x raw| |r|]; cbn [page_step app_event]; try (intros H; right; exact (commit_app _ _ _ _ H)).
  destruct (isLoading (st (app p))); [discriminate|].
  destruct (form_valid (dom_get (dom p))); [intros H; right; exact (commit_app _ _ _ _ H)|].
  intros [= <-]. by left.
Qed.

(** The input event: the field becomes what the sanitized text means. *)
Lemma app_step_input a x raw a' :
  app_step a (EvInput (mkChange x (sanitize raw) INumber)) = Some a' ->
  a' = mkApp (setFormData (set_field (formData (st a)) x (field_of_text (sanitize raw))) (st a))
             (inflight a).
Proof.
  intros H. destruct a as [s fl]. step_alive H. simpl in H.
  rewrite handleInputChange_text in H. by injection H as <-.
Qed.

Definition page_inv (p : Page) : Prop :=
  reachable (app p) /\ dom_agrees (formData (st (app p))) (dom p).

Lemma page_step_inv p ev p' : page_inv p -> page_step p ev = Some p' -> page_inv p'.
Proof.
  intros [Hr Hd] Hs. split.
  { destruct (page_step_refines_app p ev p' Hs) as [-> | H]; [done|].
    exact (reach_step _ (app_event ev) _ Hr H). }
  destruct ev as [x raw| |r|]; cbn [page_step app_event] in Hs.
  - unfold commit in Hs. destruct (app_step _ _) as [a1|] eqn:E; [|discriminate].
    apply app_step_input in E. subst a1. simpl in Hs.
    rewrite reconcile_agrees in Hs by (by apply agrees_set).
    injection Hs as <-. by apply agrees_set.
  - destruct (isLoading (st (app p))); [discriminate|].
    destruct (form_valid (dom_get (dom p))); [|by injection Hs as <-].
    apply (commit_inv _ _ _ _ Hs); [discriminate|done].
  - apply (commit_inv _ _ _ _ Hs); [discriminate|done].
  - apply (commit_inv _ _ _ _ Hs); [discriminate|done].
Qed.

Lemma page_reachable_inv p : page_reachable p -> page_inv p.
Proof.
  induction 1 as [|p ev p' _ IH Hs]; [|by apply (page_step_inv p ev)].
  split; [constructor|]. by intros [].
Qed.

Lemma page_refines_app_reachable p : page_reachable p -> reachable (app p).
Proof. intros Hp. exact (proj1 (page_reachable_inv p Hp)). Qed.

Lemma reconcile_some f d : dom_agrees f d \/ f = empty_form -> exists d', reconcile f d = Some d'.
Proof.
  intros [H | ->]; [exists d; by apply reconcile_agrees|].
  destruct (reconcile_empty d) as (d' & H & _). by exists d'.
Qed.

Lemma page_run_reachable p evs p' : page_reachable p -> page_run p evs = Some p' -> page_reachable p'.
Proof.
  revert p. induction evs as [|ev evs IH]; intros p Hp Hrun; simpl in Hrun.
  - by injection Hrun as <-.
  - destruct (page_step p ev) as [q|] eqn:E; [|discriminate].
    apply (IH q); [by apply (preach_step p ev q)|done].
Qed.

(** A field's value in an agreeing page is [''] or a number, never NaN. *)
Lemma field_of_text_not_nan raw : field_of_text (sanitize raw) <> VNum JNaN.
Proof.
  destruct (sanitize_nil_or raw) as [-> | [Hv ->]]; [discriminate|].
  destruct (js_Number_valid raw Hv) as (q & Hq & _).
  destruct raw; [discriminate|]. simpl. rewrite Hq. discriminate.
Qed.

(** ** Requests the page sends *)

(** [n] is [k] steps of [d] for some [k >= 1]. *)
Definition step_multiple (d : Q) (n : jsnum) : Prop :=
  exists q k, n = JNum q /\ (1 <= k)%Z /\ q == inject_Z k * d.

Definition opt_step_multiple (d : Q) (o : option jsnum) : Prop :=
  match o with Some n => step_multiple d n | None => True end.

#[export] Instance step_multiple_proper : Proper (Qeq ==> eq ==> iff) step_multiple.
Proof.
  intros d d' Hd n ? <-. unfold step_multiple.
  split; intros (q & k & Hn & Hk & Hq); exists q, k; split_and!; try done;
    [rewrite <- Hd|rewrite Hd]; done.
Qed.

#[export] Instance opt_step_multiple_proper : Proper (Qeq ==> eq ==> iff) opt_step_multiple.
Proof. intros d d' Hd [n|] ? <-; simpl; [by rewrite Hd|done]. Qed.

(** A submission the page lets through: the browser accepted the inputs,
    the component's check passed, and the body is built from the form. *)
Lemma page_submit_sent p p' req :
  page_inv p -> page_step p PSubmit = Some p' -> inflight (app p') = Some req ->
  form_valid (dom_get (dom p)) = true /\ validation_fails (formData (st (app p))) = false /\
  req = dataToSend (formData (st (app p))).
Proof.
  intros [Hr _] Hs Hin. cbn [page_step] in Hs.
  destruct (isLoading (st (app p))) eqn:L; [discriminate|].
  destruct (form_valid (dom_get (dom p))); [|injection Hs as <-].
  - apply commit_app in Hs. destruct (app p) as [s fl]. step_alive Hs. simpl in Hs, L |- *.
    rewrite L in Hs. destruct (validation_fails (formData s)) eqn:V.
    + rewrite submit_start_refused in Hs by done. injection Hs as Hs. by rewrite <- Hs in Hin.
    + rewrite submit_start_sent in Hs by done. injection Hs as Hs. rewrite <- Hs in Hin.
      by injection Hin as <-.
  - destruct (reachable_inv_holds _ Hr) as [[_ Hl] _]. rewrite Hl in L; [discriminate|].
    by rewrite Hin.
Qed.

(** A truthy field of an agreeing page whose inputs are valid holds a
    number that is a positive whole number of its input's steps. *)
Lemma truthy_field_steps f d sp :
  dom_agrees f d -> form_valid (dom_get d) = true -> sp ∈ form_inputs ->
  truthy (get_field f (in_field sp)) = true ->
  step_multiple (allowed_step sp) (Number (get_field f (in_field sp))).
Proof.
  intros Hd Hv Hsp Ht. rewrite Hd in Ht |- *.
  pose proof (form_valid_input _ _ Hv Hsp) as Hi.
  destruct (sanitize_nil_or (dom_get d (in_field sp))) as [E|[Hf E]]; rewrite E in Ht |- *; [done|].
  destruct (input_valid_steps sp _ Hsp Hi) as (q & k & Hq & Hk & Hqk); [by rewrite E; destruct (dom_get d _)|].
  destruct (dom_get d (in_field sp)) as [|c r]; [done|]. cbn [field_of_text Number] in Ht |- *.
  rewrite Hq in Ht |- *. exists q, k. split_and!; [done| |done].
  destruct (Z.eq_dec k 0%Z) as [->|]; [|lia]. exfalso. simpl in Ht.
  apply negb_true_iff, not_true_iff_false in Ht. apply Ht, Qeq_bool_iff.
  rewrite Hqk. apply Qmult_0_l.
Qed.

Lemma optional_steps f d sp :
  dom_agrees f d -> form_valid (dom_get d) = true -> sp ∈ form_inputs ->
  opt_step_multiple (allowed_step sp) (optional_number (get_field f (in_field sp))).
Proof.
  intros Hd Hv Hsp. unfold optional_number.
  destruct (truthy (get_field f (in_field sp))) eqn:T; [|done]. by apply (truthy_field_steps f d sp).
Qed.

Lemma required_field_number f d sp :
  dom_agrees f d -> form_valid (dom_get d) = true -> sp ∈ form_inputs -> in_required sp = true ->
  exists q, get_field f (in_field sp) = VNum (JNum q).
Proof.
  intros Hd Hv Hsp Hreq. rewrite Hd. pose proof (form_valid_input _ _ Hv Hsp) as Hi.
  destruct (sanitize_nil_or (dom_get d (in_field sp))) as [E|[Hf ->]].
  - by rewrite input_valid_missing in Hi.
  - destruct (js_Number_valid _ Hf) as (q & Hq & _). exists q.
    destruct (dom_get d (in_field sp)); [done|]. simpl. by rewrite Hq.
Qed.

Lemma truthy_num_zero q : truthy (VNum (JNum q)) = false <-> q == 0.
Proof. simpl. by rewrite negb_false_iff, Qeq_bool_iff. Qed.

Lemma page_step_defined (p : Page) (ev : pevent) (a' : App) :
  page_reachable p -> app_step (app p) (app_event ev) = Some a' ->
  (ev = PSubmit -> form_valid (dom_get (dom p)) = true) ->
  exists d', page_step p ev = Some (mkPage a' d').
Proof.
  intros Hp Hs Hv. destruct (page_reachable_inv p Hp) as [_ Hd].
  assert (Hc : (forall e, app_event ev <> EvInput e) ->
               exists d', commit (app p) (app_event ev) (dom p) = Some (mkPage a' d')).
  { intros Hev. unfold commit. rewrite Hs. simpl.
    destruct (reconcile_some (formData (st a')) (dom p)) as [d' ->]; [|by exists d'].
    destruct (app_step_formData _ _ _ Hs Hev) as [E|E]; rewrite E; [by left|by right]. }
  destruct ev as [x raw| |r|]; cbn [page_step app_event] in Hs |- *.
  - unfold commit. rewrite Hs. simpl. rewrite (app_step_input _ _ _ _ Hs). simpl.
    rewrite reconcile_agrees by (by apply agrees_set). by eexists.
  - destruct (isLoading (st (app p))) eqn:L.
    + destruct (app p) as [s fl]. step_alive Hs. simpl in Hs, L. by rewrite L in Hs.
    + rewrite Hv by done. by apply Hc.
  - by apply Hc.
  - by apply Hc.
Qed.

(** ** Properties *)

(** The page refines the component: every page step leaves the
    component's state as it is (a submission blocked by the browser) or
    is exactly the [App] step of the event it delivers, so every state
    the page reaches is a reachable state of [App] and the theorems on
    [App] hold of the page. *)
Theorem page_refines_app (p p' : Page) (ev : pevent) :
  page_reachable p -> page_step p ev = Some p' ->
  reachable (app p') /\ (app p' = app p \/ app_step (app p) (app_event ev) = Some (app p')).
Proof.
  intros Hp Hs. split; [exact (proj1 (page_reachable_inv p' (preach_step _ _ _ Hp Hs)))|].
  exact (page_step_refines_app p ev p' Hs).
Qed.

(** C5. Invariant of every reachable page: each field of the form is what
    the text its input shows means once sanitized: [''] when the input
    is empty or holds no number, and [Number] of the text otherwise. *)
Theorem page_invariant (p : Page) :
  page_reachable p ->
  forall x, get_field (formData (st (app p))) x = field_of_text (sanitize (dom_get (dom p) x)).
Proof. intros Hp. apply (page_reachable_inv p Hp). Qed.

(** C13. The page never gets stuck: from a reachable page, every event the
    component accepts (and, for a submission, that the browser lets
    through) is a page step to the component's new state. In particular
    React never has to print a number back into an input, the case the
    model leaves out. *)
Theorem page_step_complete (p : Page) (ev : pevent) (a' : App) :
  page_reachable p -> app_step (app p) (app_event ev) = Some a' ->
  (ev = PSubmit -> form_valid (dom_get (dom p)) = true) ->
  exists d', page_step p ev = Some (mkPage a' d').
Proof. apply page_step_defined. Qed.

(** C16. No field of the form ever holds NaN: the browser hands
    [handleInputChange] only valid numbers or ''. *)
Theorem no_nan_in_form (p : Page) (x : field) :
  page_reachable p -> get_field (formData (st (app p))) x <> VNum JNaN.
Proof.
  intros Hp. destruct (page_reachable_inv p Hp) as [_ Hd]. rewrite Hd.
  apply field_of_text_not_nan.
Qed.

(** C7. Bounds of every request the page sends: the two mandatory fields
    are whole numbers at least 1; the optional ones are [null] or, in
    that order, a whole number at least 1, a multiple of 0.5 hours at
    least 0.5, and a multiple of 0.01 USD at least 0.01. No NaN and no
    negative number is ever sent. *)
Theorem sent_request_bounds (p p' : Page) (req : RequestBody) :
  page_reachable p -> page_step p PSubmit = Some p' -> inflight (app p') = Some req ->
  step_multiple 1 (b_consultas req) /\ opt_step_multiple 1 (b_consultasConversion req) /\
  step_multiple 1 (b_oportunidadesPerdidas req) /\
  opt_step_multiple (1 # 2) (b_tiempoSemanal req) /\ opt_step_multiple (1 # 100) (b_ticket req).
Proof.
  intros Hp Hs Hin. pose proof (page_reachable_inv p Hp) as Hi.
  destruct (page_submit_sent p p' req Hi Hs Hin) as (Hv & Hval & ->). destruct Hi as [_ Hd].
  apply validation_fails_iff in Hval as [Hc Ho].
  split_and!.
  - exact (truthy_field_steps _ _ consultas_input Hd Hv ltac:(by repeat constructor) Hc).
  - exact (optional_steps _ _ consultasConversion_input Hd Hv ltac:(by repeat constructor)).
  - exact (truthy_field_steps _ _ oportunidadesPerdidas_input Hd Hv ltac:(by repeat constructor) Ho).
  - assert (E : allowed_step tiempoSemanal_input == 1 # 2) by (vm_compute; reflexivity). rewrite <- E.
    exact (optional_steps _ _ tiempoSemanal_input Hd Hv ltac:(by repeat constructor)).
  - assert (E : allowed_step ticket_input == 1 # 100) by (vm_compute; reflexivity). rewrite <- E.
    exact (optional_steps _ _ ticket_input Hd Hv ltac:(by repeat constructor)).
Qed.

(** C14. The component's own check ([!formData.consultas ||
    !formData.oportunidadesPerdidas]) after the browser's: when the
    browser lets a submission through, the message "Por favor completa
    todos los campos obligatorios" appears exactly when one of the two
    mandatory fields holds the number 0, a value the user did enter. *)
Theorem validation_message_only_on_zero (p : Page) :
  page_reachable p -> crashed (st (app p)) = false ->
  isLoading (st (app p)) = false -> form_valid (dom_get (dom p)) = true ->
  exists p', page_step p PSubmit = Some p' /\
    (message (st (app p')) = Some validation_message <->
     (exists q, consultas (formData (st (app p))) = VNum (JNum q) /\ q == 0) \/
     (exists q, oportunidadesPerdidas (formData (st (app p))) = VNum (JNum q) /\ q == 0)).
Proof.
  intros Hp Cr L Hv. destruct (page_reachable_inv p Hp) as [_ Hd].
  destruct (required_field_number _ _ consultas_input Hd Hv ltac:(by repeat constructor) eq_refl)
    as [qc Hqc].
  destruct (required_field_number _ _ oportunidadesPerdidas_input Hd Hv ltac:(by repeat constructor) eq_refl)
    as [qo Hqo].
  cbn [page_step]. rewrite L, Hv. unfold commit, app_step.
  destruct (app p) as [s fl]. cbn [st] in *. rewrite Cr, L. cbn in Hqc, Hqo.
  destruct (reconcile_some (formData s) (dom p)) as [d' Hr]; [by left|].
  destruct (validation_fails (formData s)) eqn:V;
    [rewrite submit_start_refused by done|rewrite submit_start_sent by done]; simpl; rewrite Hr;
    eexists; (split; [reflexivity|]); simpl.
  - split; [intros _|done]. unfold validation_fails in V. rewrite Hqc, Hqo in V.
    apply orb_true_iff in V as [V|V]; apply negb_true_iff, truthy_num_zero in V; eauto.
  - split; [discriminate|]. apply validation_fails_iff in V as [Vc Vo].
    intros [(q & Hq & H0)|(q & Hq & H0)]; [rewrite Hq in Vc|rewrite Hq in Vo];
      apply truthy_num_zero in H0; congruence.
Qed.

(** ** A concrete session *)

(** The user types 100 and 6 in the two mandatory fields. *)
Definition page_filled_events : list pevent :=
  [PType FConsultas (js "100"); PType FOportunidadesPerdidas (js "6")].

Definition page_filled : Page :=
  match page_run page_init page_filled_events with Some p => p | None => page_init end.

Lemma page_filled_reachable : page_reachable page_filled.
Proof.
  apply (page_run_reachable page_init page_filled_events); [constructor|].
  vm_compute. reflexivity.
Qed.

(** The same with 0 in the first field. *)
Definition page_zero : Page :=
  match page_run page_init [PType FConsultas (js "0"); PType FOportunidadesPerdidas (js "6")]
  with Some p => p | None => page_init end.

Lemma page_zero_reachable : page_reachable page_zero.
Proof.
  apply (page_run_reachable page_init [PType FConsultas (js "0"); PType FOportunidadesPerdidas (js "6")]);
    [constructor|vm_compute; reflexivity].
Qed.

Definition page_sent : Page :=
  match page_step page_filled PSubmit with Some p => p | None => page_init end.

Lemma page_sent_step : page_step page_filled PSubmit = Some page_sent.
Proof. vm_compute. reflexivity. Qed.

Lemma page_refines_app_witness :
  page_reachable page_filled /\ page_step page_filled PSubmit = Some page_sent /\
  (reachable (app page_sent) /\
   (app page_sent = app page_filled \/
    app_step (app page_filled) (app_event PSubmit) = Some (app page_sent))).
Proof.
  split; [exact page_filled_reachable|split; [exact page_sent_step|]].
  exact (page_refines_app _ _ _ page_filled_reachable page_sent_step).
Defined.

Lemma page_invariant_witness :
  page_reachable page_filled /\
  forall x, get_field (formData (st (app page_filled))) x =
            field_of_text (sanitize (dom_get (dom page_filled) x)).
Proof. split; [exact page_filled_reachable|exact (page_invariant _ page_filled_reachable)]. Defined.

Lemma page_step_complete_witness :
  page_reachable page_filled /\
  app_step (app page_filled) (app_event PSubmit) = Some (app page_sent) /\
  (PSubmit = PSubmit -> form_valid (dom_get (dom page_filled)) = true) /\
  exists d', page_step page_filled PSubmit = Some (mkPage (app page_sent) d').
Proof.
  assert (H1 : app_step (app page_filled) (app_event PSubmit) = Some (app page_sent))
    by (vm_compute; reflexivity).
  assert (H2 : PSubmit = PSubmit -> form_valid (dom_get (dom page_filled)) = true)
    by (intros _; vm_compute; reflexivity).
  split_and!; [exact page_filled_reachable|exact H1|exact H2|].
  exact (page_step_complete _ _ _ page_filled_reachable H1 H2).
Defined.

Lemma no_nan_in_form_witness :
  page_reachable page_filled /\ get_field (formData (st (app page_filled))) FConsultas <> VNum JNaN.
Proof.
  split; [exact page_filled_reachable|exact (no_nan_in_form _ FConsultas page_filled_reachable)].
Defined.

Lemma sent_request_bounds_witness :
  page_reachable page_filled /\ page_step page_filled PSubmit = Some page_sent /\
  inflight (app page_sent) = Some (dataToSend (formData (st (app page_filled)))) /\
  (let req := dataToSend (formData (st (app page_filled))) in
   step_multiple 1 (b_consultas req) /\ opt_step_multiple 1 (b_consultasConversion req) /\
   step_multiple 1 (b_oportunidadesPerdidas req) /\
   opt_step_multiple (1 # 2) (b_tiempoSemanal req) /\ opt_step_multiple (1 # 100) (b_ticket req)).
Proof.
  assert (H : inflight (app page_sent) = Some (dataToSend (formData (st (app page_filled)))))
    by (vm_compute; reflexivity).
  split; [exact page_filled_reachable|split; [exact page_sent_step|split; [exact H|]]].
  exact (sent_request_bounds _ _ _ page_filled_reachable page_sent_step H).
Defined.

Lemma validation_message_only_on_zero_witness :
  page_reachable page_zero /\ crashed (st (app page_zero)) = false /\
  isLoading (st (app page_zero)) = false /\
  form_valid (dom_get (dom page_zero)) = true /\
  exists p', page_step page_zero PSubmit = Some p' /\
    (message (st (app p')) = Some validation_message <->
     (exists q, consultas (formData (st (app page_zero))) = VNum (JNum q) /\ q == 0) \/
     (exists q, oportunidadesPerdidas (formData (st (app page_zero))) = VNum (JNum q) /\ q == 0)).
Proof.
  assert (H0 : crashed (st (app page_zero)) = false) by (vm_compute; reflexivity).
  assert (H1 : isLoading (st (app page_zero)) = false) by (vm_compute; reflexivity).
  assert (H2 : form_valid (dom_get (dom page_zero)) = true) by (vm_compute; reflexivity).
  split_and!; [exact page_zero_reachable|exact H0|exact H1|exact H2|].
  exact (validation_message_only_on_zero _ page_zero_reachable H0 H1 H2).
Defined.

(** C39. Only the button is disabled while a request is in flight; the
    inputs are not. On every reachable loading page, a value typed into
    any input (the focus stays where Enter was pressed) is accepted: the
    input shows it and the form holds it, while the request in flight is
    the one sent before. The answer then decides its fate: a successful
    one clears the form and every input; a failed or rejected one keeps
    the typed value on screen and in the form, beside the error message
    of a request that did not carry it. *)
Theorem edit_during_request (p : Page) (x : field) (raw : jsstring) (r : response) :
  page_reachable p -> isLoading (st (app p)) = true ->
  exists p1, page_step p (PType x raw) = Some p1 /\
    isLoading (st (app p1)) = true /\ inflight (app p1) = inflight (app p) /\
    dom_get (dom p1) x = raw /\ get_field (formData (st (app p1))) x = field_of_text (sanitize raw) /\
    exists p2, page_step p1 (PResponse r) = Some p2 /\ inflight (app p2) = None /\
      match r with
      | ROk _ _ => formData (st (app p2)) = empty_form /\ forall y, sanitize (dom_get (dom p2) y) = []
      | RNotOk | RRejected =>
          dom p2 = dom p1 /\ formData (st (app p2)) = formData (st (app p1)) /\
          message (st (app p2)) = Some error_message
      end.
Proof.
  intros Hp L. destruct (page_reachable_inv p Hp) as [Hr Hd].
  destruct (reachable_inv_holds _ Hr) as [[Hl _] _]. pose proof (Hl L) as Hin.
  set (a1 := mkApp (setFormData (set_field (formData (st (app p))) x (field_of_text (sanitize raw)))
                                (st (app p))) (inflight (app p))).
  assert (E1 : page_step p (PType x raw) = Some (mkPage a1 (dom_set (dom p) x raw))).
  { cbn [page_step app_event]. unfold commit, app_step. rewrite (inflight_not_crashed _ Hr Hin).
    rewrite handleInputChange_text. cbn [mbind option_bind st formData setFormData].
    rewrite reconcile_agrees by (by apply agrees_set). reflexivity. }
  pose proof (preach_step _ _ _ Hp E1) as Hp1.
  destruct (page_reachable_inv _ Hp1) as [Hr1 Hd1]. cbn [app dom] in Hr1, Hd1.
  eexists. split_and!; [exact E1|done|done|apply dom_get_set_eq|apply get_set_field_eq|].
  cbn [page_step app_event app dom]. unfold commit. rewrite (step_response a1 r Hr1 Hin).
  destruct r as [body parsed| |];
    cbn [mbind option_bind submit_finish st formData setIsLoading setFormData setMessage setRoiResult].
  - destruct (reconcile_empty (dom_set (dom p) x raw)) as (d' & Hr' & Ha). rewrite Hr'.
    eexists. split_and!; [reflexivity|done|done|]. intros y. specialize (Ha y).
    cbn [app dom]. destruct (sanitize (dom_get d' y)); [done|destruct y; discriminate Ha].
  - rewrite reconcile_agrees by done. eexists. split_and!; reflexivity.
  - rewrite reconcile_agrees by done. eexists. split_and!; reflexivity.
Qed.

Lemma edit_during_request_witness :
  page_reachable page_sent /\ isLoading (st (app page_sent)) = true /\
  exists p1, page_step page_sent (PType FConsultas (js "50")) = Some p1 /\
    isLoading (st (app p1)) = true /\ inflight (app p1) = inflight (app page_sent) /\
    dom_get (dom p1) FConsultas = js "50" /\
    get_field (formData (st (app p1))) FConsultas = field_of_text (sanitize (js "50")) /\
    exists p2, page_step p1 (PResponse RNotOk) = Some p2 /\ inflight (app p2) = None /\
      dom p2 = dom p1 /\ formData (st (app p2)) = formData (st (app p1)) /\
      message (st (app p2)) = Some error_message.
Proof.
  assert (Hp : page_reachable page_sent)
    by exact (preach_step _ _ _ page_filled_reachable page_sent_step).
  assert (L : isLoading (st (app page_sent)) = true) by (vm_compute; reflexivity).
  split_and!; [exact Hp|exact L|exact (edit_during_request _ FConsultas (js "50") RNotOk Hp L)].
Defined.

(** ** Every interaction ends

    The user's way back to an idle page: the pending answer arrives (if a
    request is in flight), then "Cerrar" (if the result overlay is up). *)
Definition settle (p : Page) (r : response) : option Page :=
  p1 ← (if isLoading (st (app p)) then page_step p (PResponse r) else Some p);
  if result_shown (st (app p1)) then page_step p1 PClose else Some p1.

Lemma close_to_idle p :
  page_reachable p -> crashed (st (app p)) = false -> isLoading (st (app p)) = false ->
  exists p', (if result_shown (st (app p)) then page_step p PClose else Some p) = Some p' /\
             page_reachable p' /\ isLoading (st (app p')) = false /\
             result_shown (st (app p')) = false.
Proof.
  intros Hp C L. destruct (result_shown (st (app p))) eqn:R; [|by exists p].
  destruct (page_step_defined p PClose (mkApp (setRoiResult None (st (app p))) (inflight (app p))))
    as [d Hs]; [done|unfold app_step; cbn [app_event]; by rewrite C, R|discriminate|].
  rewrite Hs. eexists. split_and!; [reflexivity|exact (preach_step _ _ _ Hp Hs)|done|].
  unfold result_shown, result_truthy. done.
Qed.

(** C17. Termination of an interaction: from every reachable page that
    is displayed (its render does not throw), the pending answer, and
    then "Cerrar" when the result overlay is up, are always accepted and
    lead to an idle page (nothing in flight, the button enabled, no
    overlay over the form), for every answer except the ones after which
    the render throws ([response_crashes], see [App]). *)
Theorem interaction_terminates (p : Page) (r : response) :
  page_reachable p -> crashed (st (app p)) = false -> response_crashes r = false ->
  exists p', settle p r = Some p' /\ page_reachable p' /\
    isLoading (st (app p')) = false /\ inflight (app p') = None /\
    result_shown (st (app p')) = false.
Proof.
  intros Hp C Rc. unfold settle. pose proof (page_refines_app_reachable p Hp) as Hr.
  destruct (reachable_inv_holds _ Hr) as [[Hl Hin] _].
  assert (H1 : exists p1, (if isLoading (st (app p)) then page_step p (PResponse r) else Some p) = Some p1 /\
                          page_reachable p1 /\ crashed (st (app p1)) = false /\
                          isLoading (st (app p1)) = false).
  { destruct (isLoading (st (app p))) eqn:L; [|by exists p].
    destruct (page_step_defined p (PResponse r) _ Hp (step_response (app p) r Hr (Hl eq_refl)))
      as [d Hs]; [discriminate|].
    rewrite Hs. eexists. split_and!; [reflexivity|exact (preach_step _ _ _ Hp Hs)| |by destruct r].
    cbn [app st]. by rewrite (crashed_after_response (app p) r Hr (Hl eq_refl)), Rc. }
  destruct H1 as (p1 & -> & Hp1 & C1 & L1). cbn [mbind option_bind].
  destruct (close_to_idle p1 Hp1 C1 L1) as (p' & -> & Hp' & L' & R').
  exists p'. split_and!; [done|done|done| |done].
  destruct (reachable_inv_holds _ (page_refines_app_reachable p' Hp')) as [[_ Hin'] _].
  destruct (inflight (app p')) eqn:E; [exfalso|done].
  assert (T : isLoading (st (app p')) = true) by (apply Hin'; by eexists). congruence.
Qed.

Lemma interaction_terminates_witness :
  page_reachable page_sent /\ crashed (st (app page_sent)) = false /\
  response_crashes (ROk (js "Listo") None) = false /\
  exists p', settle page_sent (ROk (js "Listo") None) = Some p' /\ page_reachable p' /\
    isLoading (st (app p')) = false /\ inflight (app p') = None /\
    result_shown (st (app p')) = false.
Proof.
  assert (Hp : page_reachable page_sent)
    by exact (preach_step _ _ _ page_filled_reachable page_sent_step).
  assert (C : crashed (st (app page_sent)) = false) by (vm_compute; reflexivity).
  assert (Rc : response_crashes (ROk (js "Listo") None) = false) by (vm_compute; reflexivity).
  split_and!; [exact Hp|exact C|exact Rc|exact (interaction_terminates _ _ Hp C Rc)].
Defined.
