(* ===== verification/PageView.v ===== *)
(** * The whole page as one element tree (CalculadoraROI.tsx, lines 210-527)

    [page_view] is what [CalculadoraROI] returns for a page, inside the
    [RootLayout] of [Layout]: the background decorations, the loading
    overlay while [isLoading], the result overlay (its header, the
    elements of [formatRoiResult] and the "Cerrar" button) when
    [roiResult && !isLoading], the hidden PDF container when [roiResult]
    is set, the title, the form card with the inputs showing the text
    they hold, and the note on mandatory fields. The overlays and the
    container come from [App.render]; the render fails (the page throws)
    exactly when [render] does. *)

From stdpp Require Import strings.
From S2P Require Import Prelude JsString Jsx Layout FormState Submit FormView App Page.

(** ** The result overlay (lines 238-271) *)

(** [date] is [new Date().toLocaleDateString('es-ES')]. *)
Definition result_overlay (elements : list node) (date : jsstring) : node :=
  Elem "div" None [ClassName "fixed inset-0 bg-black/50 backdrop-blur-sm flex items-center justify-center z-50 p-4"]
    [Elem "div" None [ClassName "bg-white/95 backdrop-blur-xl rounded-3xl p-6 sm:p-8 shadow-2xl border border-cyan-200/30 max-w-4xl w-full max-h-[85vh] overflow-hidden flex flex-col"]
       [Elem "div" None [ClassName "text-center mb-6 flex-shrink-0"]
          [Elem "div" None [ClassName "w-16 h-16 mx-auto bg-gradient-to-r from-cyan-500 to-blue-500 rounded-full flex items-center justify-center mb-4"]
             [Elem "svg" None [ClassName "w-8 h-8 text-white"; Attr "fill" (js "none");
                               Attr "stroke" (js "currentColor"); Attr "viewBox" (js "0 0 24 24")]
                [Elem "path" None [Attr "strokeLinecap" (js "round"); Attr "strokeLinejoin" (js "round");
                                   Attr "strokeWidth" (js "2");
                                   Attr "d" (js "M9 12h6m-6 4h6m2 5H7a2 2 0 01-2-2V5a2 2 0 012-2h5.586a1 1 0 01.707.293l5.414 5.414a1 1 0 01.293.707V19a2 2 0 01-2 2z")] []]];
           Elem "h3" None [ClassName "text-2xl sm:text-3xl font-bold bg-gradient-to-r from-cyan-600 to-blue-600 bg-clip-text text-transparent mb-2"]
             [Text (js "Tu An" ++ [225%N] ++ js "lisis ROI")];
           Elem "p" None [ClassName "text-slate-600 text-sm"]
             [Text (js "Setterless 360" ++ [176%N] ++ js " - "); Text date]];
        Elem "div" None [ClassName "bg-white rounded-2xl p-6 shadow-inner border border-slate-100 flex-1 overflow-y-auto mb-6"]
          [Elem "div" None [ClassName "prose prose-slate max-w-none"] elements];
        Elem "div" None [ClassName "flex justify-center flex-shrink-0"]
          [Elem "button" None [ClassName "bg-gradient-to-r from-slate-500 to-slate-600 text-white font-semibold py-3 px-6 rounded-xl hover:from-slate-400 hover:to-slate-500 transition-all duration-300 transform hover:scale-105"]
             [Text (js "Cerrar")]]]].

(** ** The title (lines 361-377) *)

(** "Las cifras que brindes nos permitirán construir un [Roadmap de
    Implementación]. Con el objetivo de recuperar consultas y liberar
    tiempo. Y así en los próximos [90 días] mejorar drásticamente los
    resultados de la metodología de trabajo actual." *)
Definition title_section : node :=
  Elem "div" None [ClassName "text-center mb-8 sm:mb-12"]
    [Elem "h1" None [ClassName "text-3xl sm:text-4xl lg:text-5xl font-bold bg-gradient-to-r from-cyan-600 via-blue-600 to-teal-600 bg-clip-text text-transparent mb-4 tracking-tight"]
       [Text (js "Calculadora ROI")];
     Elem "div" None [ClassName "text-xl sm:text-2xl font-semibold text-slate-700 mb-4"]
       [Text (js "Setterless 360" ++ [176%N])];
     Elem "div" None [ClassName "w-16 sm:w-24 h-1 bg-gradient-to-r from-cyan-500 to-blue-500 mx-auto rounded-full mb-6"] [];
     Elem "div" None [ClassName "max-w-md mx-auto mb-8"]
       [Elem "p" None [ClassName "text-slate-600 text-sm sm:text-base leading-relaxed text-center"]
          [Text (js "Las cifras que brindes nos permitir" ++ [225%N] ++ js "n construir un ");
           Elem "span" None [ClassName "font-semibold text-cyan-600"]
             [Text (js "Roadmap de Implementaci" ++ [243%N] ++ js "n")];
           Text (js ". Con el objetivo de recuperar consultas y liberar tiempo. Y as" ++ [237%N] ++
                 js " en los pr" ++ [243%N] ++ js "ximos ");
           Elem "span" None [ClassName "font-semibold text-cyan-600"]
             [Text (js "90 d" ++ [237%N] ++ js "as")];
           Text (js " mejorar dr" ++ [225%N] ++ js "sticamente los resultados de la metodolog" ++
                 [237%N] ++ js "a de trabajo actual.")]]].

(** ** The background (lines 211-220) *)

Definition background : list node :=
  [Elem "div" None [ClassName "absolute inset-0 overflow-hidden"]
     [Elem "div" None [ClassName "absolute -top-40 -right-40 w-80 h-80 bg-cyan-400 rounded-full mix-blend-multiply filter blur-xl opacity-15 animate-pulse"] [];
      Elem "div" None [ClassName "absolute -bottom-40 -left-40 w-80 h-80 bg-blue-400 rounded-full mix-blend-multiply filter blur-xl opacity-15 animate-pulse animation-delay-2000"] [];
      Elem "div" None [ClassName "absolute top-1/2 left-1/2 transform -translate-x-1/2 -translate-y-1/2 w-96 h-96 bg-teal-400 rounded-full mix-blend-multiply filter blur-xl opacity-10 animate-pulse animation-delay-4000"] []];
   Elem "div" None [ClassName "absolute inset-0 bg-[url('data:image/svg+xml,%3Csvg%20width=%2260%22%20height=%2260%22%20viewBox=%220%200%2060%2060%22%20xmlns=%22http://www.w3.org/2000/svg%22%3E%3Cg%20fill=%22none%22%20fill-rule=%22evenodd%22%3E%3Cg%20fill=%22%2306B6D4%22%20fill-opacity=%220.08%22%3E%3Ccircle%20cx=%2230%22%20cy=%2230%22%20r=%221%22/%3E%3C/g%3E%3C/g%3E%3C/svg%3E')] opacity-30"] []].

(** ** The page *)

Definition opt_list {A} (o : option A) : list A := match o with Some x => [x] | None => [] end.

(** Lines 210-222 and 525-527: the wrappers around the page's content. *)
Definition page_shell (content : list node) : node :=
  RootLayout
    [Elem "div" None [ClassName "min-h-screen bg-gradient-to-br from-slate-50 via-cyan-50 to-blue-50 flex items-center justify-center p-4 relative overflow-hidden"]
       (background ++ [Elem "div" None [ClassName "w-full max-w-lg relative z-10"] content])].

(** Lines 210-527, inside the layout; [None] when the render throws. *)
Definition page_view (p : Page) (date : jsstring) : option node :=
  v ← render (st (app p)) date;
  Some (page_shell
    ((if v_loading_overlay v then [loading_overlay] else []) ++
     opt_list ((fun els => result_overlay els date) <$> v_result_overlay v) ++
     opt_list (v_pdf_container v) ++
     [title_section; form_card (st (app p)) (dom_get (dom p)); required_note])).

(** ** Properties *)

(** C37. What a reachable page shows while a request is in flight: the
    loading overlay over the title, the form card and the note; no result
    overlay, no PDF container and no message box (the component cleared
    them before sending), and the submit button is disabled. *)
Theorem loading_page_view (p : Page) (date : jsstring) :
  page_reachable p -> isLoading (st (app p)) = true ->
  page_view p date =
    Some (page_shell [loading_overlay; title_section; form_card (st (app p)) (dom_get (dom p));
                      required_note]) /\
  message_view (message (st (app p))) = [] /\
  has_flag (submit_button (isLoading (st (app p)))) "disabled" = true.
Proof.
  intros Hp L. pose proof (page_refines_app_reachable p Hp) as Hr.
  destruct (reachable_inv_holds _ Hr) as [_ Hinv]. destruct (Hinv L) as [Hres Hmsg].
  unfold page_view, render, result_of. rewrite Hres, L, Hmsg. simpl. done.
Qed.

Lemma loading_page_view_witness :
  page_reachable page_sent /\ isLoading (st (app page_sent)) = true /\
  (page_view page_sent (js "9/11/2026") =
    Some (page_shell [loading_overlay; title_section;
                      form_card (st (app page_sent)) (dom_get (dom page_sent)); required_note]) /\
   message_view (message (st (app page_sent))) = [] /\
   has_flag (submit_button (isLoading (st (app page_sent)))) "disabled" = true).
Proof.
  assert (Hp : page_reachable page_sent)
    by exact (preach_step _ _ _ page_filled_reachable page_sent_step).
  assert (L : isLoading (st (app page_sent)) = true) by (vm_compute; reflexivity).
  split; [exact Hp|split; [exact L|exact (loading_page_view _ _ Hp L)]].
Defined.
