(* ===== verification/NextConfig.v ===== *)
(** * The bundler configuration (src/next.config.js)

    [nextConfig.webpack] receives webpack's configuration object and
    [{ isServer }] and, for the server build, makes [html2pdf.js] an
    external module: [config.externals = config.externals || []] and then
    [config.externals.push({ 'html2pdf.js': 'html2pdf.js' })]. The
    function mutates the object it receives and returns it; the model
    returns the updated configuration, or [None] when the code throws.

    webpack's [externals] may be absent, an array, or another value (an
    object, a function, a string or a RegExp, none of which has a
    [push] method). Only [externals] is read or written. *)

From stdpp Require Import strings.
From S2P Require Import Prelude JsString.

(** An element of an [externals] array: a request-to-module map such as
    [{ 'html2pdf.js': 'html2pdf.js' }], or an element of another kind. *)
Inductive external :=
| ExtMap (entries : list (jsstring * jsstring))
| ExtOtherItem.

Inductive externals :=
| ExtUndefined
| ExtArray (items : list external)
| ExtNonArray (truthy : bool).

Record WebpackConfig := mkConfig { cfg_externals : externals }.

Definition html2pdf_external : external := ExtMap [(js "html2pdf.js", js "html2pdf.js")].

(** [config.externals || []] *)
Definition or_empty (e : externals) : externals :=
  match e with
  | ExtUndefined => ExtArray []
  | ExtNonArray false => ExtArray []
  | _ => e
  end.

(** [arr.push(x)]: appends on an array, throws a TypeError otherwise. *)
Definition push (e : externals) (x : external) : option externals :=
  match e with
  | ExtArray items => Some (ExtArray (items ++ [x]))
  | _ => None
  end.

(** Lines 2-12. *)
Definition webpack (config : WebpackConfig) (isServer : bool) : option WebpackConfig :=
  if isServer then
    let config := mkConfig (or_empty (cfg_externals config)) in
    e ← push (cfg_externals config) html2pdf_external;
    Some (mkConfig e)
  else Some config.

(** ** Properties *)

(** C38. The webpack hook leaves the client build as it is; on the server
    it appends [html2pdf.js] to the externals array, creating it when
    absent or falsy, and keeps the externals already there in order; it
    throws when webpack's externals is a truthy non-array (an object, a
    function, a string), which has no [push]. *)
Theorem webpack_externals (config : WebpackConfig) :
  webpack config false = Some config /\
  (forall items, cfg_externals config = ExtArray items ->
     webpack config true = Some (mkConfig (ExtArray (items ++ [html2pdf_external])))) /\
  ((cfg_externals config = ExtUndefined \/ cfg_externals config = ExtNonArray false) ->
     webpack config true = Some (mkConfig (ExtArray [html2pdf_external]))) /\
  (cfg_externals config = ExtNonArray true -> webpack config true = None).
Proof.
  destruct config as [e]. simpl. split_and!; [done| |intros [-> | ->]; done|by intros ->].
  intros items ->. reflexivity.
Qed.
